(** * The IDE workspace, tab and execution-gateway code, embedded in Rocq

    The development follows the TypeScript sources:
    - [src/services/codeExecutor.ts] (the execution gateway and the
      [WorkspaceService] class),
    - [src/utils/fileUtils.ts] (the language table and the path helpers)
      and [src/components/IDE/FileExplorer.tsx] (the handlers of the
      explorer),
    - the [CodeCompiler] component (the tabs and the handlers of the
      editor).

    It has three parts: the embedding of the code, one module per source
    unit ([JS], [Workspace], [Regex], [Gateway], [FileUtils], [Explorer],
    [Tabs], [IDE]); the vocabulary of the statements; and the facts, with
    the statement of each claim of the specification marked by its number
    (C1 to C10) and further properties of the code by theirs (X1 to X30).

    Strings are sequences of code units below 256; the string primitives of
    the host language are written out in module [JS].  An object that the
    code mutates in place is a node of the workspace tree, which is owned
    inline, so a mutation is the replacement of that node in the tree. *)

From Stdlib Require Import String Ascii List Bool Arith ZArith Lia.
From Stdlib Require Import DecimalString.
Import ListNotations.
Open Scope string_scope.

(* ================================================================== *)
(** * String primitives of the host language *)
(* ================================================================== *)

Module JS.

Definition LF : ascii := ascii_of_nat 10.
Definition CR : ascii := ascii_of_nat 13.
Definition DQ : ascii := ascii_of_nat 34.

(** One-character strings that cannot be written as literals. *)
Definition nl : string := String LF EmptyString.
Definition dq : string := String DQ EmptyString.

(** [s.lastIndexOf(c)]: the index of the last occurrence, counted from the
    head of [s], when there is one. *)
Fixpoint lastIndex (c : ascii) (s : string) : option nat :=
  match s with
  | EmptyString => None
  | String a s' =>
      match lastIndex c s' with
      | Some i => Some (S i)
      | None => if Ascii.eqb a c then Some 0 else None
      end
  end.

(** [s.lastIndexOf(c)] as the host returns it: [-1] when [c] is absent. *)
Definition lastIndexOf (c : ascii) (s : string) : Z :=
  match lastIndex c s with
  | Some i => Z.of_nat i
  | None => (-1)%Z
  end.

(** Index arguments are clamped to [0 .. length]. *)
Definition clampIndex (n : Z) (s : string) : nat :=
  Z.to_nat (Z.min (Z.max n 0) (Z.of_nat (String.length s))).

(** [s.substring(a, b)]: both ends clamped, swapped when [a > b]. *)
Definition substring (a b : Z) (s : string) : string :=
  let x := clampIndex a s in
  let y := clampIndex b s in
  String.substring (Nat.min x y) (Nat.max x y - Nat.min x y) s.

(** [s.split(c)] for a one-character separator: never empty. *)
Fixpoint split (c : ascii) (s : string) : list string :=
  match s with
  | EmptyString => [EmptyString]
  | String a s' =>
      if Ascii.eqb a c then EmptyString :: split c s'
      else match split c s' with
           | h :: t => String a h :: t
           | [] => [String a EmptyString]
           end
  end.

(** [arr.pop()]: the last element, [undefined] on an empty array. *)
Fixpoint pop (l : list string) : option string :=
  match l with
  | [] => None
  | [x] => Some x
  | _ :: l' => pop l'
  end.

(** [lo <= n <= hi] on code units. *)
Definition between (lo hi n : nat) : bool := Nat.leb lo n && Nat.leb n hi.

(** [toLowerCase] on one code unit: A-Z, and the upper-case letters of the
    Latin-1 block (192..222 except the multiplication sign 215). *)
Definition lowerChar (a : ascii) : ascii :=
  let n := nat_of_ascii a in
  if between 65 90 n || (between 192 222 n && negb (Nat.eqb n 215))
  then ascii_of_nat (n + 32)
  else a.

Fixpoint toLowerCase (s : string) : string :=
  match s with
  | EmptyString => EmptyString
  | String a s' => String (lowerChar a) (toLowerCase s')
  end.

Definition startsWith (p s : string) : bool := String.prefix p s.

(** [s.includes(sub)] *)
Fixpoint includes (sub s : string) : bool :=
  match s with
  | EmptyString => String.prefix sub EmptyString
  | String _ s' => String.prefix sub s || includes sub s'
  end.

(** White space and line terminators, as [trim] and the regular-expression
    class [\s] read them, among the code units below 256. *)
Definition isSpace (a : ascii) : bool :=
  let n := nat_of_ascii a in
  between 9 13 n || Nat.eqb n 32 || Nat.eqb n 160.

Definition isLineTerminator (a : ascii) : bool :=
  Ascii.eqb a LF || Ascii.eqb a CR.

Definition isDigit (a : ascii) : bool :=
  between 48 57 (nat_of_ascii a).

Definition isAlpha (a : ascii) : bool :=
  let n := nat_of_ascii a in between 65 90 n || between 97 122 n.

(** The class [\w]. *)
Definition isWord (a : ascii) : bool :=
  isAlpha a || isDigit a || Ascii.eqb a "_"%char.

Fixpoint trimStart (s : string) : string :=
  match s with
  | EmptyString => EmptyString
  | String a s' => if isSpace a then trimStart s' else s
  end.

Fixpoint trimEnd (s : string) : string :=
  match s with
  | EmptyString => EmptyString
  | String a s' =>
      match trimEnd s' with
      | EmptyString => if isSpace a then EmptyString else String a EmptyString
      | r => String a r
      end
  end.

Definition trim (s : string) : string := trimEnd (trimStart s).

(** Truthiness of a string: the empty string is falsy. *)
Definition truthy (s : string) : bool :=
  match s with EmptyString => false | _ => true end.

(** [a || b] on strings. *)
Definition orElse (a b : string) : string := if truthy a then a else b.

(** [s.replace(/pat/g, rep)] for a pattern with no metacharacter: every
    occurrence, leftmost first and without overlap.  [skip] counts the code
    units of a match still to be dropped. *)
Fixpoint replaceAllFrom (pat rep : string) (skip : nat) (s : string) : string :=
  match s with
  | EmptyString => EmptyString
  | String a s' =>
      match skip with
      | S k => replaceAllFrom pat rep k s'
      | O =>
          if String.prefix pat s
          then rep ++ replaceAllFrom pat rep (String.length pat - 1) s'
          else String a (replaceAllFrom pat rep 0 s')
      end
  end.

Definition replaceAll (pat rep s : string) : string := replaceAllFrom pat rep 0 s.

(** [s.replace(/pat/, rep)] without the [g] flag: the first occurrence. *)
Fixpoint replaceFirst (pat rep : string) (s : string) : string :=
  match s with
  | EmptyString => EmptyString
  | String a s' =>
      if String.prefix pat s
      then rep ++ String.substring (String.length pat) (String.length s) s
      else String a (replaceFirst pat rep s')
  end.

(** [arr.join(sep)] *)
Definition join (sep : string) (l : list string) : string := String.concat sep l.

(** [arr.findIndex(p)]: [None] stands for [-1]. *)
Fixpoint findIndex {A : Type} (p : A -> bool) (l : list A) : option nat :=
  match l with
  | [] => None
  | x :: l' => if p x then Some 0 else option_map S (findIndex p l')
  end.

(** [arr.splice(i, 1)], the array afterwards. *)
Fixpoint splice1 {A : Type} (i : nat) (l : list A) : list A :=
  match l, i with
  | [], _ => []
  | _ :: l', O => l'
  | x :: l', S k => x :: splice1 k l'
  end.

(** A call either returns or throws an [Error] with a message. *)
Inductive Outcome (A : Type) : Type :=
| Returned (a : A)
| Thrown (message : string).
Arguments Returned {A} a.
Arguments Thrown {A} message.

End JS.

(* ================================================================== *)
(** * The workspace service ([WorkspaceService]) *)
(* ================================================================== *)

Module Workspace.
Import JS.

Inductive CompilerLanguage : Type := c | cpp | java | javascript | python.

Definition language_eqb (a b : CompilerLanguage) : bool :=
  match a, b with
  | c, c | cpp, cpp | java, java | javascript, javascript | python, python => true
  | _, _ => false
  end.

Record VFile : Type := mkVFile {
  file_id : string;
  file_name : string;
  file_path : string;
  language : CompilerLanguage;
  content : string;
  isSaved : bool
}.

(** [children: Array<VFolder | VFile>]: a child is a file ([inl]) or a
    folder ([inr]); the test ['children' in item] is the match on the sum. *)
#[local] Unset Elimination Schemes.
Inductive VFolder : Type :=
| mkVFolder (id name path : string) (children : list (VFile + VFolder)).
#[local] Set Elimination Schemes.

Definition Node : Type := (VFile + VFolder)%type.

Definition folder_id (d : VFolder) : string := let (i, _, _, _) := d in i.
Definition folder_name (d : VFolder) : string := let (_, n, _, _) := d in n.
Definition folder_path (d : VFolder) : string := let (_, _, p, _) := d in p.
Definition children (d : VFolder) : list Node := let (_, _, _, ch) := d in ch.

Definition node_id (n : Node) : string :=
  match n with inl f => file_id f | inr d => folder_id d end.
Definition node_name (n : Node) : string :=
  match n with inl f => file_name f | inr d => folder_name d end.
Definition node_path (n : Node) : string :=
  match n with inl f => file_path f | inr d => folder_path d end.

Record Workspace : Type := mkWorkspace { root : VFolder }.

(** The service object: the tree in memory, and what the key
    ['vscode-workspace'] of the local store holds.  Serialisation to JSON and
    back is taken as the identity on trees, and a write as succeeding. *)
Record Service : Type := mkService {
  workspace : Workspace;
  stored : option Workspace
}.

(** ** Language tables *)

Definition DEFAULT_CODE (l : CompilerLanguage) : string :=
  let crlf := String CR nl in
  match l with
  | c =>
      "#include <stdio.h>" ++ nl ++ nl ++ "int main() {" ++ nl
      ++ "    printf(" ++ dq ++ "Hello, World!\n" ++ dq ++ ");" ++ nl
      ++ "    return 0;" ++ nl ++ "}"
  | cpp =>
      "#include <iostream>" ++ crlf ++ "using namespace std;" ++ crlf ++ crlf
      ++ "int main() {" ++ crlf
      ++ "    cout << " ++ dq ++ "Hello, World!" ++ dq ++ " << endl;" ++ crlf
      ++ "    return 0;" ++ crlf ++ "}"
  | java =>
      "public class Main {" ++ crlf
      ++ "    public static void main(String[] args) {" ++ crlf
      ++ "        System.out.println(" ++ dq ++ "Hello, World!" ++ dq ++ ");" ++ crlf
      ++ "    }" ++ crlf ++ "}"
  | javascript => "console.log(" ++ dq ++ "Hello, World!" ++ dq ++ ");"
  | python => "print(" ++ dq ++ "Hello, World!" ++ dq ++ ")"
  end.

(** [filename.split('.').pop()?.toLowerCase()] *)
Definition extension (filename : string) : option string :=
  option_map toLowerCase (pop (split "."%char filename)).

Definition getLanguageFromExtension (filename : string) : CompilerLanguage :=
  match extension filename with
  | Some ext =>
      if String.eqb ext "c" then c
      else if String.eqb ext "cpp" || String.eqb ext "cc" || String.eqb ext "cxx" then cpp
      else if String.eqb ext "java" then java
      else if String.eqb ext "js" || String.eqb ext "mjs" then javascript
      else if String.eqb ext "py" then python
      else cpp
  | None => cpp
  end.

(** [createDefaultWorkspace()]; the five identifiers are what [generateId()]
    returns, in the order of the calls. *)
Definition createDefaultWorkspace (id1 id2 id3 id4 id5 : string) : Workspace :=
  let srcFolder :=
    mkVFolder id1 "src" "/src"
      [inl (mkVFile id2 "main.cpp" "/src/main.cpp" cpp (DEFAULT_CODE cpp) true);
       inl (mkVFile id3 "main.py" "/src/main.py" python (DEFAULT_CODE python) true)] in
  let readmeFile :=
    mkVFile id4 "README.md" "/README.md" cpp
      ("# Welcome to Strike IDE" ++ nl ++ nl
       ++ "Start coding by selecting a file from the explorer or creating a new one!")
      true in
  mkWorkspace (mkVFolder id5 "workspace" "/" [inr srcFolder; inl readmeFile]).

(** [loadWorkspace()] and the constructor: what the store holds, else the
    default workspace. *)
Definition loadWorkspace (saved : option Workspace) (id1 id2 id3 id4 id5 : string)
    : Workspace :=
  match saved with
  | Some w => w
  | None => createDefaultWorkspace id1 id2 id3 id4 id5
  end.

Definition newService (saved : option Workspace) (id1 id2 id3 id4 id5 : string)
    : Service :=
  mkService (loadWorkspace saved id1 id2 id3 id4 id5) saved.

(** ** Lookup *)

(** [findItemByPath(path, root)]: the root itself, else the children in
    order, each child before its own subtree. *)
Fixpoint findItemByPath (path : string) (r : VFolder) {struct r} : option Node :=
  let (_, _, rpath, ch) := r in
  if String.eqb rpath path then Some (inr r)
  else
    (fix loop (l : list Node) : option Node :=
       match l with
       | [] => None
       | child :: l' =>
           if String.eqb (node_path child) path then Some child
           else match child with
                | inr d =>
                    match findItemByPath path d with
                    | Some found => Some found
                    | None => loop l'
                    end
                | inl _ => loop l'
                end
       end) ch.

(** [path.substring(0, path.lastIndexOf('/')) || '/'] *)
Definition parentPathOf (path : string) : string :=
  orElse (substring 0 (lastIndexOf "/"%char path) path) "/".

Definition findParentFolder (w : Workspace) (path : string) : option VFolder :=
  match findItemByPath (parentPathOf path) (root w) with
  | Some (inr parent) => Some parent
  | _ => None
  end.

(** ** Mutation in place

    The service mutates the object that [findItemByPath] returned.  The tree
    is owned inline (a child belongs to one [children] array), so the effect
    on the tree is the replacement of the first node, in the order of
    [findItemByPath], whose [path] is the one looked up: [onFile] when it is
    a file, [onFolder] when it is a folder.  [None] when no node has that
    path. *)
Fixpoint updateItemByPath (path : string) (onFile : VFile -> VFile)
    (onFolder : VFolder -> VFolder) (r : VFolder) {struct r} : option VFolder :=
  let (i, n, rpath, ch) := r in
  if String.eqb rpath path then Some (onFolder r)
  else
    match
      (fix loop (l : list Node) : option (list Node) :=
         match l with
         | [] => None
         | child :: l' =>
             if String.eqb (node_path child) path then
               Some (match child with
                     | inl f => inl (onFile f)
                     | inr d => inr (onFolder d)
                     end :: l')
             else match child with
                  | inr d =>
                      match updateItemByPath path onFile onFolder d with
                      | Some d' => Some (inr d' :: l')
                      | None => option_map (cons child) (loop l')
                      end
                  | inl _ => option_map (cons child) (loop l')
                  end
         end) ch
    with
    | Some ch' => Some (mkVFolder i n rpath ch')
    | None => None
    end.

Definition mutate (path : string) (onFile : VFile -> VFile)
    (onFolder : VFolder -> VFolder) (w : Workspace) : Workspace :=
  match updateItemByPath path onFile onFolder (root w) with
  | Some r' => mkWorkspace r'
  | None => w
  end.

(** [saveWorkspace()] *)
Definition saveWorkspace (w : Workspace) : Service :=
  mkService w (Some w).

Definition getWorkspace (s : Service) : Workspace := workspace s.

(** ** Operations

    [generateId()] reads the clock and the random generator; the identifier
    it returns is an argument [newId] of the operations that call it. *)

Definition joinPath (parentPath name : string) : string :=
  if String.eqb parentPath "/" then "/" ++ name else parentPath ++ "/" ++ name.

Definition hasChildNamed (name : string) (d : VFolder) : bool :=
  existsb (fun child => String.eqb (node_name child) name) (children d).

Definition push (x : Node) (d : VFolder) : VFolder :=
  let (i, n, p, ch) := d in mkVFolder i n p (ch ++ [x])%list.

Definition createFile (parentPath name : string) (lang : option CompilerLanguage)
    (newId : string) (s : Service) : Outcome (option VFile) * Service :=
  match findItemByPath parentPath (root (workspace s)) with
  | Some (inr parent) =>
      if hasChildNamed name parent then
        (Thrown ("File " ++ dq ++ name ++ dq ++ " already exists in this folder"), s)
      else
        let filePath := joinPath parentPath name in
        let fileLanguage :=
          match lang with Some l => l | None => getLanguageFromExtension name end in
        let newFile :=
          mkVFile newId name filePath fileLanguage (DEFAULT_CODE fileLanguage) false in
        let w' := mutate parentPath (fun f => f) (push (inl newFile)) (workspace s) in
        (Returned (Some newFile), saveWorkspace w')
  | _ => (Returned None, s)
  end.

Definition createFolder (parentPath name : string) (newId : string) (s : Service)
    : Outcome (option VFolder) * Service :=
  match findItemByPath parentPath (root (workspace s)) with
  | Some (inr parent) =>
      if hasChildNamed name parent then
        (Thrown ("Folder " ++ dq ++ name ++ dq ++ " already exists in this folder"), s)
      else
        let folderPath := joinPath parentPath name in
        let newFolder := mkVFolder newId name folderPath [] in
        let w' := mutate parentPath (fun f => f) (push (inr newFolder)) (workspace s) in
        (Returned (Some newFolder), saveWorkspace w')
  | _ => (Returned None, s)
  end.

Definition readFile (path : string) (s : Service) : option VFile :=
  match findItemByPath path (root (workspace s)) with
  | Some (inl file) => Some file
  | _ => None
  end.

Definition setContent (text : string) (f : VFile) : VFile :=
  mkVFile (file_id f) (file_name f) (file_path f) (language f) text true.

Definition writeFile (path text : string) (s : Service) : bool * Service :=
  match readFile path s with
  | None => (false, s)
  | Some _ =>
      (true, saveWorkspace (mutate path (setContent text) (fun d => d) (workspace s)))
  end.

Definition setUnsaved (f : VFile) : VFile :=
  mkVFile (file_id f) (file_name f) (file_path f) (language f) (content f) false.

Definition markFileUnsaved (path : string) (s : Service) : bool * Service :=
  match readFile path s with
  | None => (false, s)
  | Some _ =>
      (true, saveWorkspace (mutate path setUnsaved (fun d => d) (workspace s)))
  end.

(** [path.substring(0, path.lastIndexOf('/') + 1) + newName] *)
Definition renamedPath (path newName : string) : string :=
  substring 0 (lastIndexOf "/"%char path + 1) path ++ newName.

Definition renameFile (newName newPath : string) (f : VFile) : VFile :=
  mkVFile (file_id f) newName newPath (getLanguageFromExtension newName)
    (content f) (isSaved f).

Definition renameFolder (newName newPath : string) (d : VFolder) : VFolder :=
  let (i, _, _, ch) := d in mkVFolder i newName newPath ch.

Definition rename (path newName : string) (s : Service) : Outcome bool * Service :=
  match findItemByPath path (root (workspace s)) with
  | None => (Returned false, s)
  | Some item =>
      match findParentFolder (workspace s) path with
      | None => (Returned false, s)
      | Some parent =>
          if existsb (fun child => String.eqb (node_name child) newName
                                   && negb (String.eqb (node_path child) path))
               (children parent)
          then (Thrown (dq ++ newName ++ dq ++ " already exists in this folder"), s)
          else
            let newPath := renamedPath path newName in
            let w' := mutate path (renameFile newName newPath)
                        (renameFolder newName newPath) (workspace s) in
            (Returned true, saveWorkspace w')
      end
  end.

Definition spliceChild (index : nat) (d : VFolder) : VFolder :=
  let (i, n, p, ch) := d in mkVFolder i n p (splice1 index ch).

Definition delete (path : string) (s : Service) : bool * Service :=
  match findParentFolder (workspace s) path with
  | None => (false, s)
  | Some parent =>
      match findIndex (fun child => String.eqb (node_path child) path) (children parent) with
      | None => (false, s)
      | Some index =>
          let w' := mutate (parentPathOf path) (fun f => f) (spliceChild index)
                      (workspace s) in
          (true, saveWorkspace w')
      end
  end.

(** [list(path)] *)
Definition list_children (path : string) (s : Service) : list Node :=
  match findItemByPath path (root (workspace s)) with
  | Some (inr folder) => children folder
  | _ => []
  end.

(** [getAllFiles(folder)]: the files of the subtree, in order. *)
Fixpoint getAllFiles (folder : VFolder) : list VFile :=
  let (_, _, _, ch) := folder in
  (fix loop (l : list Node) : list VFile :=
     match l with
     | [] => []
     | inr d :: l' => (getAllFiles d ++ loop l')%list
     | inl f :: l' => f :: loop l'
     end) ch.

(** The files below a node: the file itself, or the files of the folder. *)
Definition filesOf (n : Node) : list VFile :=
  match n with inl f => [f] | inr d => getAllFiles d end.

Fixpoint checkUnsaved (d : VFolder) : bool :=
  let (_, _, _, ch) := d in
  (fix loop (l : list Node) : bool :=
     match l with
     | [] => false
     | inr d' :: l' => checkUnsaved d' || loop l'
     | inl f :: l' => negb (isSaved f) || loop l'
     end) ch.

Definition hasUnsavedChanges (s : Service) : bool :=
  checkUnsaved (root (workspace s)).

(** [findById(id, root)]: as [findItemByPath], on the identifiers. *)
Fixpoint findById (id : string) (r : VFolder) {struct r} : option Node :=
  let (rid, _, _, ch) := r in
  if String.eqb rid id then Some (inr r)
  else
    (fix loop (l : list Node) : option Node :=
       match l with
       | [] => None
       | child :: l' =>
           if String.eqb (node_id child) id then Some child
           else match child with
                | inr d =>
                    match findById id d with
                    | Some found => Some found
                    | None => loop l'
                    end
                | inl _ => loop l'
                end
       end) ch.

Definition getParent (path : string) (s : Service) : option VFolder :=
  findParentFolder (workspace s) path.

Definition isFolder (path : string) (s : Service) : bool :=
  match findItemByPath path (root (workspace s)) with
  | Some (inr _) => true
  | _ => false
  end.

(** ** Tab management

    What the keys ['vscode-open-tabs'] and ['vscode-active-tab'] of the
    local store hold; a key that is absent reads as [None].  The first key
    holds what [setOpenTabs] wrote, so that reading it back does not fail,
    and serialisation is taken as the identity, as for the workspace. *)
Record OpenTab : Type := mkOpenTab {
  fileId : string;
  filePath : string
}.

Record TabStore : Type := mkTabStore {
  openTabsKey : option (list OpenTab);
  activeTabKey : option string
}.

Definition getOpenTabs (t : TabStore) : list OpenTab :=
  match openTabsKey t with Some tabs => tabs | None => [] end.

Definition setOpenTabs (tabs : list OpenTab) (t : TabStore) : TabStore :=
  mkTabStore (Some tabs) (activeTabKey t).

Definition getActiveTabId (t : TabStore) : option string := activeTabKey t.

(** [if (tabId) setItem(...) else removeItem(...)]: the empty identifier
    removes the key, as [null] does. *)
Definition setActiveTabId (tabId : option string) (t : TabStore) : TabStore :=
  match tabId with
  | Some i =>
      if truthy i then mkTabStore (openTabsKey t) (Some i)
      else mkTabStore (openTabsKey t) None
  | None => mkTabStore (openTabsKey t) None
  end.

End Workspace.

(* ================================================================== *)
(** * Regular expressions, as the host matches them *)
(* ================================================================== *)

(** A backtracking matcher with the host's priorities: alternatives left to
    right, quantifiers greedy, an iteration of a star that consumes nothing
    rejected.  Only the constructs the sources use are present. *)
Module Regex.
Import JS.

Inductive re : Type :=
| Eps
| Chr (p : ascii -> bool)
| Seq (r1 r2 : re)
| Alt (r1 r2 : re)
| Star (r : re)
| Bol (multiline : bool).

(** [r+] and [r?] *)
Definition Plus (r : re) : re := Seq r (Star r).
Definition Opt (r : re) : re := Alt r Eps.

(** A literal, and a literal under the [i] flag. *)
Fixpoint lit (s : string) : re :=
  match s with
  | EmptyString => Eps
  | String a s' => Seq (Chr (Ascii.eqb a)) (lit s')
  end.

Fixpoint liti (s : string) : re :=
  match s with
  | EmptyString => Eps
  | String a s' =>
      Seq (Chr (fun x => Ascii.eqb (lowerChar x) (lowerChar a))) (liti s')
  end.

Definition seqs (l : list re) : re := fold_right Seq Eps l.

Definition alts (l : list re) : re :=
  match l with
  | [] => Eps
  | r :: l' => fold_left Alt l' r
  end.

(** Character classes. *)
Definition space : re := Chr isSpace.
Definition nonSpace : re := Chr (fun a => negb (isSpace a)).
Definition digit : re := Chr isDigit.
Definition word : re := Chr isWord.
Definition notLF : re := Chr (fun a => negb (Ascii.eqb a LF)).

(** [^]: at the head of the input, and under the [m] flag after a line
    terminator.  [prev] is the code unit before the position. *)
Definition atLineStart (multiline : bool) (prev : option ascii) : bool :=
  match prev with
  | None => true
  | Some a => multiline && isLineTerminator a
  end.

(** [run r prev s k]: match [r] at the head of [s], then continue with [k]
    on the rest; the first success in priority order. *)
Fixpoint run (r : re) (prev : option ascii) (s : string)
    (k : option ascii -> string -> option string) {struct r} : option string :=
  match r with
  | Eps => k prev s
  | Chr p =>
      match s with
      | String a s' => if p a then k (Some a) s' else None
      | EmptyString => None
      end
  | Seq r1 r2 => run r1 prev s (fun pv s' => run r2 pv s' k)
  | Alt r1 r2 =>
      match run r1 prev s k with
      | Some rest => Some rest
      | None => run r2 prev s k
      end
  | Star r1 =>
      (fix iter (fuel : nat) (pv : option ascii) (t : string) {struct fuel}
         : option string :=
         match fuel with
         | O => k pv t
         | S fuel' =>
             match
               run r1 pv t
                 (fun pv' t' =>
                    if Nat.ltb (String.length t') (String.length t)
                    then iter fuel' pv' t' else None)
             with
             | Some rest => Some rest
             | None => k pv t
             end
         end) (S (String.length s)) prev s
  | Bol m => if atLineStart m prev then k prev s else None
  end.

(** The rest of the input after a match at the head of [s]. *)
Definition matchAt (r : re) (prev : option ascii) (s : string) : option string :=
  run r prev s (fun _ rest => Some rest).

(** [s.replace(/r/g, rep)] with a replacement text that has no [$]. *)
Fixpoint replaceFrom (r : re) (rep : string) (skip : nat) (prev : option ascii)
    (s : string) : string :=
  match s with
  | EmptyString =>
      match skip, matchAt r prev EmptyString with
      | O, Some _ => rep
      | _, _ => EmptyString
      end
  | String a s' =>
      match skip with
      | S n => replaceFrom r rep n (Some a) s'
      | O =>
          match matchAt r prev s with
          | Some rest =>
              match String.length s - String.length rest with
              | O => rep ++ String a (replaceFrom r rep 0 (Some a) s')
              | S n => rep ++ replaceFrom r rep n (Some a) s'
              end
          | None => String a (replaceFrom r rep 0 (Some a) s')
          end
      end
  end.

Definition replace (r : re) (rep : string) (s : string) : string :=
  replaceFrom r rep 0 None s.

(** [s.match(/r/)] as a truth value: a match at some position. *)
Fixpoint testFrom (r : re) (prev : option ascii) (s : string) : bool :=
  match matchAt r prev s with
  | Some _ => true
  | None =>
      match s with
      | EmptyString => false
      | String a s' => testFrom r (Some a) s'
      end
  end.

Definition test (r : re) (s : string) : bool := testFrom r None s.

(** [r$] without the [m] flag: a match of [r] that ends where the input
    ends. *)
Definition matchToEnd (r : re) (prev : option ascii) (s : string) : option string :=
  run r prev s
    (fun _ rest => match rest with EmptyString => Some rest | _ => None end).

(** [s.replace(/r$/, rep)]: the first position from which [r] matches up to
    the end of the input. *)
Fixpoint replaceEndFrom (r : re) (rep : string) (prev : option ascii)
    (s : string) : string :=
  match matchToEnd r prev s with
  | Some _ => rep
  | None =>
      match s with
      | EmptyString => EmptyString
      | String a s' => String a (replaceEndFrom r rep (Some a) s')
      end
  end.

Definition replaceEnd (r : re) (rep : string) (s : string) : string :=
  replaceEndFrom r rep None s.

(** [r1|r2$]: the first alternative, else the second up to the end. *)
Definition matchEither (r1 r2 : re) (prev : option ascii) (s : string)
    : option string :=
  match matchAt r1 prev s with
  | Some rest => Some rest
  | None => matchToEnd r2 prev s
  end.

(** [s.replace(/r1|r2$/g, rep)] *)
Fixpoint replaceEitherFrom (r1 r2 : re) (rep : string) (skip : nat)
    (prev : option ascii) (s : string) : string :=
  match s with
  | EmptyString =>
      match skip, matchEither r1 r2 prev EmptyString with
      | O, Some _ => rep
      | _, _ => EmptyString
      end
  | String a s' =>
      match skip with
      | S n => replaceEitherFrom r1 r2 rep n (Some a) s'
      | O =>
          match matchEither r1 r2 prev s with
          | Some rest =>
              match String.length s - String.length rest with
              | O => rep ++ String a (replaceEitherFrom r1 r2 rep 0 (Some a) s')
              | S n => rep ++ replaceEitherFrom r1 r2 rep n (Some a) s'
              end
          | None => String a (replaceEitherFrom r1 r2 rep 0 (Some a) s')
          end
      end
  end.

Definition replaceEither (r1 r2 : re) (rep : string) (s : string) : string :=
  replaceEitherFrom r1 r2 rep 0 None s.

End Regex.

(* ================================================================== *)
(** * The execution gateway ([executeCode]) *)
(* ================================================================== *)

Module Gateway.
Import JS Regex.

Record ExecutionResult : Type := mkResult {
  output : string;
  error : option string;
  success : bool
}.

Record ExecutionRequest : Type := mkRequest {
  req_language : string;
  req_code : string;
  req_input : option string;
  req_files : option (list (string * string))
}.

Definition LANGUAGE_MAP (lang : string) : option string :=
  if String.eqb lang "c" then Some "c"
  else if String.eqb lang "cpp" then Some "c++"
  else if String.eqb lang "java" then Some "java"
  else if String.eqb lang "javascript" then Some "javascript"
  else if String.eqb lang "python" then Some "python"
  else None.

Definition getFileName (lang : string) : string :=
  if String.eqb lang "c" then "main.c"
  else if String.eqb lang "cpp" then "main.cpp"
  else if String.eqb lang "java" then "Main.java"
  else if String.eqb lang "javascript" then "index.js"
  else if String.eqb lang "python" then "main.py"
  else "main.txt".

(** A number in a template literal. *)
Definition showZ (n : Z) : string := NilZero.string_of_int (Z.to_int n).

(** ** In-process evaluation ([executeJavaScript])

    What [console.log] is bound to: the host's own function, the closure a
    call of [executeJavaScript] installs (it pushes onto that call's [logs]
    array and then calls the function it replaced), or a function the
    evaluated code assigned. *)
Inductive Logger : Type :=
| HostLog
| CaptureLog (logs : nat) (originalLog : Logger)
| OtherLog (tag : string).

Record World : Type := mkWorld {
  console_log : Logger;
  printed : list string;
  arrays : list (list string)
}.

(** What [eval(code)] does, as far as the console goes: calls of
    [console.log] (the arguments already joined into a line), assignments
    to [console.log], and then a normal end or an [Error] thrown, of which
    [fault] is the [message].  Code that throws a value without a text as
    its [message] ([throw 'x'], [throw null]), on which the catch block
    itself throws, has no [Behaviour]: the statements about a fault are
    about an [Error]. *)
Inductive Action : Type :=
| Log (line : string)
| AssignLog (l : Logger).

Record Behaviour : Type := mkBehaviour {
  actions : list Action;
  fault : option string
}.

Fixpoint pushAt (ref : nat) (line : string) (a : list (list string)) : list (list string) :=
  match a, ref with
  | [], _ => []
  | x :: a', O => (x ++ [line])%list :: a'
  | x :: a', S k => x :: pushAt k line a'
  end.

Fixpoint call (l : Logger) (line : string) (w : World) : World :=
  match l with
  | HostLog => mkWorld (console_log w) (printed w ++ [line])%list (arrays w)
  | CaptureLog ref originalLog =>
      call originalLog line
        (mkWorld (console_log w) (printed w) (pushAt ref line (arrays w)))
  | OtherLog _ => w
  end.

Definition step (a : Action) (w : World) : World :=
  match a with
  | Log line => call (console_log w) line w
  | AssignLog l => mkWorld l (printed w) (arrays w)
  end.

Definition eval (code : Behaviour) (w : World) : World * option string :=
  (fold_left (fun w a => step a w) (actions code) w, fault code).

Definition setConsoleLog (l : Logger) (w : World) : World :=
  mkWorld l (printed w) (arrays w).

Definition explain (message : string) : string :=
  if includes "missing ) after argument list" message
  then "Syntax Error: Missing closing parenthesis"
  else if includes "Unexpected token" message
  then "Syntax Error: Unexpected character or symbol"
  else if includes "is not defined" message
  then replaceFirst "ReferenceError: " "Error: " message
  else message.

Definition executeJavaScript (code : Behaviour) (w : World) : ExecutionResult * World :=
  let logs := List.length (arrays w) in
  let w1 := mkWorld (console_log w) (printed w) (arrays w ++ [[]])%list in
  let originalLog := console_log w1 in
  let w2 := setConsoleLog (CaptureLog logs originalLog) w1 in
  match eval code w2 with
  | (w3, None) =>
      let w4 := setConsoleLog originalLog w3 in
      (mkResult
         (orElse (join nl (nth logs (arrays w4) []))
            "Code executed successfully (no output)")
         None true, w4)
  | (w3, Some message) =>
      (* catch: console.log = console.log *)
      let w4 := setConsoleLog (console_log w3) w3 in
      let errorMessage := explain message in
      (mkResult errorMessage (Some errorMessage) false, w4)
  end.

(** ** Sanitising the text of the remote service ([cleanErrorMessage]) *)

Definition sourceExt : re := alts [lit "cpp"; lit "java"; lit "py"; lit "js"].

Definition rePistonPath : re :=
  Seq (lit "/piston/") (Plus (Chr (fun a => negb (isSpace a || Ascii.eqb a LF)))).
Definition rePiston : re := liti "piston".
Definition reChmod : re := Seq (lit "chmod:") (Star notLF).
Definition reCannotAccess : re := Seq (lit "cannot access") (Star notLF).
Definition reAOut : re := Seq (lit "a.out") (Star notLF).
Definition reMainPos : re :=
  seqs [lit "main."; sourceExt; Opt (Seq (lit ".") (Plus word));
        lit ":"; Plus digit; lit ":"; Plus digit; lit ":"].
Definition reFilePos : re :=
  seqs [Chr (fun a => isAlpha a || Ascii.eqb a "_"%char); Star word; lit ".";
        sourceExt; lit ":"; Plus digit; lit ":"; Plus digit; lit ":"].
Definition reGutter (multiline : bool) : re :=
  seqs [Bol multiline; Star space; Plus digit; Star space; lit "|"].
Definition reLinePos : re :=
  seqs [lit "Line"; Star space; Plus digit; lit ":"; Plus digit; lit ":"].
Definition reIncludePath : re :=
  seqs [lit "/"; Star nonSpace; lit "/include/"; Star nonSpace; lit ":"].
Definition reUsrPath : re := seqs [lit "/usr/"; Star nonSpace; lit ":"].
Definition reTmpPath : re := seqs [lit "/tmp/"; Star nonSpace; lit ":"].
Definition reNote : re := Seq (lit "note:") (Star notLF).
Definition reOperatorLine : re :=
  seqs [Bol true; Star space; Plus digit; Star space; lit "|"; Star notLF;
        lit "operator"; Star notLF].
Definition reCaret : re := seqs [Bol false; Star space; lit "^"].
Definition reBlankRun : re :=
  seqs [Chr (Ascii.eqb LF); Star space; Plus (Chr (Ascii.eqb LF))].

Definition keepLine (line : string) : bool :=
  if negb (truthy line) then false
  else if includes "template" line then false
  else if includes "deduction" line then false
  else if includes "derived from" line then false
  else if includes "candidate" line then false
  else if includes "chmod" line then false
  else if includes "cannot access" line then false
  else if includes "operator<<" line then false
  else if includes "nullptr_t" line then false
  else if includes "conversion" line then false
  else if startsWith "/" line then false
  else if test (reGutter false) line then false
  else if test reCaret line then false
  else true.

Definition decodeEntitiesForClean (s : string) : string :=
  replaceAll "&amp;" "&"
    (replaceAll "&quot;" dq
       (replaceAll "&gt;" ">"
          (replaceAll "&lt;" "<"
             (replaceAll "&#39;" "'" s)))).

Definition stripReferences (s : string) : string :=
  fold_left (fun acc r => replace r EmptyString acc)
    [rePistonPath; rePiston; reChmod; reCannotAccess; reAOut; reMainPos;
     reFilePos; reGutter true; reLinePos; reIncludePath; reUsrPath; reTmpPath;
     reNote; reOperatorLine]
    s.

Definition cleanErrorMessage (message : string) : string :=
  if negb (truthy message) then EmptyString
  else
    let stripped := stripReferences (decodeEntitiesForClean message) in
    let lines := filter keepLine (map trim (split LF stripped)) in
    trim (replace reBlankRun nl (join nl lines)).

Definition decodeHtmlEntities (text : string) : string :=
  replaceAll "&amp;" "&"
    (replaceAll "&#39;" "'"
       (replaceAll "&quot;" dq
          (replaceAll "&gt;" ">"
             (replaceAll "&lt;" "<" text)))).

(** ** The remote service *)

(** One phase of the reply; a field that is absent reads as the empty
    string, and an exit code that is [null] as [None]. *)
Record Phase : Type := mkPhase {
  stdout : string;
  stderr : string;
  code : option Z
}.

Record PistonResult : Type := mkPistonResult {
  compile : option Phase;
  run : option Phase
}.

Record PistonBody : Type := mkBody {
  body_language : option string;
  body_files : list (string * string);
  body_stdin : string
}.

(** What [fetch] and [response.json()] come back with. *)
Inductive Reply : Type :=
| Unreachable (message : string)
| Status (status : Z)
| Json (result : PistonResult).

Definition showCode (c : option Z) : string :=
  match c with Some n => showZ n | None => "null" end.

(** The branch taken when the compile phase reports a [stderr]. *)
Definition compileFailure (compileStderr : string) : string * bool :=
  let cleanedError := cleanErrorMessage compileStderr in
  if truthy cleanedError then
    let errorLines :=
      filter (fun line => includes "error:" line) (split LF cleanedError) in
    let mainError :=
      match errorLines with l0 :: _ => l0 | [] => cleanedError end in
    ("Compilation Error:" ++ nl ++ mainError, true)
  else ("Compilation failed - please check your code syntax", true).

(** The branch that reads the run phase. *)
Definition runOutcome (rn : Phase) : string * bool :=
  let o1 := if truthy (stdout rn) then cleanErrorMessage (stdout rn) else EmptyString in
  let '(o2, e2) :=
    if truthy (stderr rn) then (o1 ++ cleanErrorMessage (stderr rn), true)
    else (o1, false) in
  if negb (match code rn with Some 0%Z => true | _ => false end)
     && negb (truthy (stderr rn))
  then (o2 ++ nl ++ "Process exited with code " ++ showCode (code rn), true)
  else (o2, e2).

(** [result.compile && result.compile.stderr] *)
Definition compileStderr (result : PistonResult) : string :=
  match compile result with Some cp => stderr cp | None => EmptyString end.

(** The body of [executeCode] after [response.json()]. *)
Definition normalize (result : PistonResult) : ExecutionResult :=
  let '(outputText, hasError) :=
    if truthy (compileStderr result) then compileFailure (compileStderr result)
    else match run result with
         | Some rn => runOutcome rn
         | None => (EmptyString, false)
         end in
  let outputText := decodeHtmlEntities outputText in
  mkResult (orElse outputText "No output")
    (if hasError then Some "Execution failed" else None) (negb hasError).

Definition requestBody (request : ExecutionRequest) : PistonBody :=
  mkBody (LANGUAGE_MAP (req_language request))
    ((getFileName (req_language request), decodeHtmlEntities (req_code request))
     :: map (fun f => (fst f, decodeHtmlEntities (snd f)))
          (match req_files request with Some fs => fs | None => [] end))
    (match req_input request with Some i => orElse i EmptyString | None => EmptyString end).

(** [executeCode(request)]: [js] is what evaluating the code in process
    does, [remote] the remote service. *)
Definition executeCode (request : ExecutionRequest) (js : Behaviour)
    (remote : PistonBody -> Reply) (w : World) : ExecutionResult * World :=
  if String.eqb (req_language request) "javascript" then executeJavaScript js w
  else
    match remote (requestBody request) with
    | Json result => (normalize result, w)
    | Status status =>
        let message := "Execution failed with status: " ++ showZ status in
        (mkResult ("Error: " ++ message) (Some message) false, w)
    | Unreachable message =>
        (mkResult ("Error: " ++ message) (Some message) false, w)
    end.

End Gateway.

(* ================================================================== *)
(** * The utilities and the explorer ([fileUtils.ts], [FileExplorer]) *)
(* ================================================================== *)

Module FileUtils.
Import JS.
Import Workspace(CompilerLanguage, c, cpp, java, javascript, python).

(** [getLanguageFromExtension] of [utils/fileUtils.ts]. *)
Definition getLanguageFromExtension (filename : string) : CompilerLanguage :=
  match option_map toLowerCase (pop (split "."%char filename)) with
  | Some ext =>
      if String.eqb ext "c" then c
      else if String.eqb ext "cpp" || String.eqb ext "cc" || String.eqb ext "cxx" then cpp
      else if String.eqb ext "java" then java
      else if String.eqb ext "js" || String.eqb ext "mjs" then javascript
      else if String.eqb ext "py" then python
      else cpp
  | None => cpp
  end.

(** [getParentPath] and [getBasename] of [utils/fileUtils.ts]. *)
Definition getParentPath (path : string) : string :=
  if String.eqb path "/" then "/"
  else
    let lastSlash := lastIndexOf "/"%char path in
    if (lastSlash <=? 0)%Z then "/" else substring 0 lastSlash path.

(** [path.substring(i)] runs to the end of [path]. *)
Definition getBasename (path : string) : string :=
  substring (lastIndexOf "/"%char path + 1) (Z.of_nat (String.length path)) path.

Definition slash : Regex.re := Regex.Chr (Ascii.eqb "/"%char).

(** [part.replace(/^\/+|\/+$/g, '')] *)
Definition stripSlashes (part : string) : string :=
  Regex.replaceEither (Regex.Seq (Regex.Bol false) (Regex.Plus slash))
    (Regex.Plus slash) EmptyString part.

(** [joinPath(...parts)]; the last step, [replace(/^/, '/')], has one match,
    the empty one at the head. *)
Definition joinPath (parts : list string) : string :=
  Regex.replace (Regex.Bol false) "/"
    (join "/"
       (filter (fun part => Nat.ltb 0 (String.length part))
          (map stripSlashes parts))).

End FileUtils.

Module Explorer.
Import JS.

Inductive ItemType : Type := file | folder.

Inductive Toast : Type :=
| ToastError (message : string)
| ToastSuccess (message : string).

(** The explorer: the pending creation ([newItemParent]), the service it
    drives, the toasts shown and the files handed to [onFileSelect]. *)
Record State : Type := mkState {
  newItemParent : option (string * ItemType);
  service : Workspace.Service;
  toasts : list Toast;
  selected : list Workspace.VFile
}.

Definition allowedExtensions : list string :=
  ["c"; "cpp"; "cc"; "cxx"; "java"; "js"; "py"].

Definition isAllowed (ext : string) : bool :=
  existsb (String.eqb ext) allowedExtensions.

Definition toast (t : Toast) (st : State) : State :=
  mkState (newItemParent st) (service st) (toasts st ++ [t])%list (selected st).

Definition setNewItemParent (p : option (string * ItemType)) (st : State) : State :=
  mkState p (service st) (toasts st) (selected st).

Definition setService (s : Workspace.Service) (st : State) : State :=
  mkState (newItemParent st) s (toasts st) (selected st).

Definition onFileSelect (f : Workspace.VFile) (st : State) : State :=
  mkState (newItemParent st) (service st) (toasts st) (selected st ++ [f])%list.

Definition handleCreateItem (name : string) (newId : string) (st : State) : State :=
  match newItemParent st with
  | None => st
  | Some (parentPath, type) =>
      if negb (truthy (trim name)) then st
      else
        match type with
        | file =>
            let ext := option_map toLowerCase (pop (split "."%char name)) in
            if match ext with
               | Some e => negb (truthy e) || negb (isAllowed e)
               | None => true
               end
            then
              setNewItemParent None
                (toast (ToastError
                          "Only C++, C, Java, Python, and JavaScript files are allowed") st)
            else
              let language := FileUtils.getLanguageFromExtension name in
              match Workspace.createFile parentPath name (Some language) newId (service st) with
              | (Returned (Some f), s') =>
                  setNewItemParent None
                    (toast (ToastSuccess ("Created " ++ name))
                       (onFileSelect f (setService s' st)))
              | (Returned None, s') => setNewItemParent None (setService s' st)
              | (Thrown message, s') =>
                  setNewItemParent None (toast (ToastError message) (setService s' st))
              end
        | folder =>
            match Workspace.createFolder parentPath name newId (service st) with
            | (Returned _, s') =>
                setNewItemParent None
                  (toast (ToastSuccess ("Created folder " ++ name)) (setService s' st))
            | (Thrown message, s') =>
                setNewItemParent None (toast (ToastError message) (setService s' st))
            end
        end
  end.

(** The rest of the explorer's state. *)
Record Panel : Type := mkPanel {
  core : State;
  expandedFolders : list string;
  contextMenu : option (Z * Z * Workspace.Node);
  renamingItem : option string;
  selectedFolder : string;
  selectedItem : option string
}.

Definition withCore (c : State) (p : Panel) : Panel :=
  mkPanel c (expandedFolders p) (contextMenu p) (renamingItem p)
    (selectedFolder p) (selectedItem p).

Definition setRenamingItem (r : option string) (p : Panel) : Panel :=
  mkPanel (core p) (expandedFolders p) (contextMenu p) r
    (selectedFolder p) (selectedItem p).

Definition setSelectedItem (i : option string) (p : Panel) : Panel :=
  mkPanel (core p) (expandedFolders p) (contextMenu p) (renamingItem p)
    (selectedFolder p) i.

Definition setSelectedFolder (f : string) (p : Panel) : Panel :=
  mkPanel (core p) (expandedFolders p) (contextMenu p) (renamingItem p)
    f (selectedItem p).

Definition setContextMenu (m : option (Z * Z * Workspace.Node)) (p : Panel) : Panel :=
  mkPanel (core p) (expandedFolders p) m (renamingItem p)
    (selectedFolder p) (selectedItem p).

(** [new Set(prev).add(path)]: a set keeps the order of insertion. *)
Definition expand (path : string) (p : Panel) : Panel :=
  mkPanel (core p)
    (if existsb (String.eqb path) (expandedFolders p) then expandedFolders p
     else expandedFolders p ++ [path])%list
    (contextMenu p) (renamingItem p) (selectedFolder p) (selectedItem p).

(** The explorer's own [findItemByPath]: [search(workspace.root.children)],
    on the workspace object the service holds. *)
Fixpoint search (path : string) (d : Workspace.VFolder) {struct d}
    : option Workspace.Node :=
  let (_, _, _, ch) := d in
  (fix loop (items : list Workspace.Node) : option Workspace.Node :=
     match items with
     | [] => None
     | item :: rest =>
         if String.eqb (Workspace.node_path item) path then Some item
         else match item with
              | inr d' =>
                  match search path d' with
                  | Some found => Some found
                  | None => loop rest
                  end
              | inl _ => loop rest
              end
     end) ch.

Definition findItemByPath (path : string) (p : Panel) : option Workspace.Node :=
  search path (Workspace.root (Workspace.getWorkspace (service (core p)))).

Definition deleteMessage (item : Workspace.Node) : string :=
  match item with
  | inr d =>
      "Delete folder " ++ dq ++ Workspace.folder_name d ++ dq ++ " and all its contents?"
  | inl f => "Delete file " ++ dq ++ Workspace.file_name f ++ dq ++ "?"
  end.

(** [handleDelete()]; [confirm] is what [window.confirm] answers. *)
Definition handleDelete (confirm : string -> bool) (p : Panel) : Panel :=
  match selectedItem p with
  | None => p
  | Some sel =>
      if negb (truthy sel) then p
      else
        match findItemByPath sel p with
        | None => p
        | Some item =>
            if confirm (deleteMessage item) then
              let s' := snd (Workspace.delete (Workspace.node_path item) (service (core p))) in
              withCore
                (toast (ToastSuccess ("Deleted " ++ Workspace.node_name item))
                   (setService s' (core p)))
                (setSelectedItem None p)
            else p
        end
  end.

Definition handleRename (newName path : string) (p : Panel) : Panel :=
  if negb (truthy (trim newName)) then p
  else
    match Workspace.rename path newName (service (core p)) with
    | (Returned _, s') =>
        setRenamingItem None
          (withCore (toast (ToastSuccess "Renamed successfully") (setService s' (core p))) p)
    | (Thrown message, s') =>
        setRenamingItem None
          (withCore (toast (ToastError message) (setService s' (core p))) p)
    end.

(** [target.path.substring(0, target.path.lastIndexOf('/')) || '/'] for a
    file, the folder's own path for a folder. *)
Definition targetFolder (target : Workspace.Node) : string :=
  match target with
  | inr d => Workspace.folder_path d
  | inl f => Workspace.parentPathOf (Workspace.file_path f)
  end.

(** The name of a copy: [baseName + '_copy' + extension]. *)
Definition copyName (name : string) : string :=
  let baseName :=
    Regex.replaceEnd
      (Regex.Seq (Regex.lit ".")
         (Regex.Plus
            (Regex.Chr (fun a => negb (Ascii.eqb a "/"%char || Ascii.eqb a "."%char)))))
      EmptyString name in
  let extension :=
    if includes "." name
    then "." ++ match pop (split "."%char name) with Some e => e | None => "undefined" end
    else EmptyString in
  baseName ++ "_copy" ++ extension.

Inductive ContextAction : Type :=
| actNewFile | actNewFolder | actRename | actDuplicate | actDelete | actOther.

(** [handleContextAction(action, target)] *)
Definition handleContextAction (action : ContextAction) (target : Workspace.Node)
    (confirm : string -> bool) (newId : string) (p0 : Panel) : Panel :=
  let p := setContextMenu None p0 in
  match action with
  | actNewFile =>
      let p1 :=
        setSelectedFolder (targetFolder target)
          (withCore (setNewItemParent (Some (targetFolder target, file)) (core p)) p) in
      match target with
      | inr d => expand (Workspace.folder_path d) p1
      | inl _ => p1
      end
  | actNewFolder =>
      let p1 :=
        setSelectedFolder (targetFolder target)
          (withCore (setNewItemParent (Some (targetFolder target, folder)) (core p)) p) in
      match target with
      | inr d => expand (Workspace.folder_path d) p1
      | inl _ => p1
      end
  | actRename => setRenamingItem (Some (Workspace.node_path target)) p
  | actDuplicate =>
      match target with
      | inr _ => p
      | inl f =>
          let newName := copyName (Workspace.file_name f) in
          let parentPath := Workspace.parentPathOf (Workspace.file_path f) in
          match Workspace.createFile parentPath newName (Some (Workspace.language f))
                  newId (service (core p)) with
          | (Returned (Some newFile), s1) =>
              let s2 :=
                snd (Workspace.writeFile (Workspace.file_path newFile)
                       (Workspace.content f) s1) in
              withCore
                (toast (ToastSuccess ("Duplicated " ++ Workspace.file_name f))
                   (setService s2 (core p))) p
          | (Returned None, s1) => withCore (setService s1 (core p)) p
          | (Thrown message, s1) =>
              withCore (toast (ToastError message) (setService s1 (core p))) p
          end
      end
  | actDelete =>
      if confirm (deleteMessage target) then
        let s' := snd (Workspace.delete (Workspace.node_path target) (service (core p))) in
        withCore
          (toast (ToastSuccess ("Deleted " ++ Workspace.node_name target))
             (setService s' (core p))) p
      else p
  | actOther => p
  end.

End Explorer.

(* ================================================================== *)
(** * Tabs ([handleTabClose]) *)
(* ================================================================== *)

Module Tabs.
Import JS.
Import Workspace(VFile, file_id).

Record State : Type := mkState {
  openTabs : list VFile;
  activeTabId : option string
}.

(** [arr[i]] for an index that may be negative: [undefined] out of range. *)
Definition at_index {A : Type} (l : list A) (i : Z) : option A :=
  if (i <? 0)%Z then None else nth_error l (Z.to_nat i).

(** [a || b] on values that are objects or [undefined]. *)
Definition orElseTab (a b : option VFile) : option VFile :=
  match a with Some _ => a | None => b end.

(** [nextTab?.id || null] *)
Definition idOrNull (t : option VFile) : option string :=
  match t with
  | Some tab => if truthy (file_id tab) then Some (file_id tab) else None
  | None => None
  end.

(** [activeTabId === file.id] *)
Definition isActive (active : option string) (f : VFile) : bool :=
  match active with Some a => String.eqb a (file_id f) | None => false end.

Definition handleTabClose (f : VFile) (st : State) : State :=
  let newTabs := filter (fun tab => negb (String.eqb (file_id tab) (file_id f))) (openTabs st) in
  if isActive (activeTabId st) f then
    let currentIndex :=
      match findIndex (fun tab => String.eqb (file_id tab) (file_id f)) (openTabs st) with
      | Some i => Z.of_nat i
      | None => (-1)%Z
      end in
    let nextTab :=
      orElseTab (at_index newTabs currentIndex) (at_index newTabs (currentIndex - 1)) in
    mkState newTabs (idOrNull nextTab)
  else mkState newTabs (activeTabId st).

End Tabs.

(* ================================================================== *)
(** * The component that holds the tabs ([CodeCompiler]) *)
(* ================================================================== *)

Module IDE.
Import JS.
Import Workspace.

(** The state that the handlers of the tabs and of the editor read and
    write: the tabs, the output shown and the outputs kept per path, the
    service, the local store and the toasts.  The sizes of the panels,
    which are kept as floating-point percentages, the view and the run in
    progress are left out.

    A tab is the file object that [readFile] returned, or a copy of it
    made by a handler ([{ ...activeFile, ... }]).  A handler reads the
    fields of a tab when it is called, and the only fields the service
    goes on assigning in a file it has handed out are [content] and
    [isSaved], by the handlers below on the file of the active tab, and
    [name], [path] and [language], by [rename]: a tab is the value the
    object has when the handler is called. *)
Record State : Type := mkState {
  openTabs : list VFile;
  activeTabId : option string;
  output : string;
  fileOutputs : list (string * string);
  service : Service;
  store : TabStore;
  toasts : list Explorer.Toast
}.

Definition withTabs (tabs : list VFile) (st : State) : State :=
  mkState tabs (activeTabId st) (output st) (fileOutputs st) (service st)
    (store st) (toasts st).

Definition withActive (a : option string) (st : State) : State :=
  mkState (openTabs st) a (output st) (fileOutputs st) (service st)
    (store st) (toasts st).

Definition withOutput (o : string) (st : State) : State :=
  mkState (openTabs st) (activeTabId st) o (fileOutputs st) (service st)
    (store st) (toasts st).

Definition withService (s : Service) (st : State) : State :=
  mkState (openTabs st) (activeTabId st) (output st) (fileOutputs st) s
    (store st) (toasts st).

Definition withStore (t : TabStore) (st : State) : State :=
  mkState (openTabs st) (activeTabId st) (output st) (fileOutputs st)
    (service st) t (toasts st).

Definition toast (t : Explorer.Toast) (st : State) : State :=
  mkState (openTabs st) (activeTabId st) (output st) (fileOutputs st)
    (service st) (store st) (toasts st ++ [t])%list.

(** The state a mounted component starts from. *)
Definition initial (s : Service) (t : TabStore) (outputs : list (string * string))
    : State :=
  mkState [] None EmptyString outputs s t [].

(** [openTabs.find(tab => tab.id === activeTabId) || null] *)
Definition activeFile (st : State) : option VFile :=
  find (Tabs.isActive (activeTabId st)) (openTabs st).

(** [fileOutputs[path]] *)
Fixpoint lookup (key : string) (o : list (string * string)) : option string :=
  match o with
  | [] => None
  | (k, v) :: o' => if String.eqb k key then Some v else lookup key o'
  end.

(** [arr.filter(Boolean)] on values that are objects or [null]. *)
Fixpoint somes {A : Type} (l : list (option A)) : list A :=
  match l with
  | [] => []
  | Some x :: l' => x :: somes l'
  | None :: l' => somes l'
  end.

(** The effect that loads the initial state, as far as the tabs go. *)
Definition loadInitialState (st : State) : State :=
  let savedTabs := getOpenTabs (store st) in
  let savedActiveId := getActiveTabId (store st) in
  if Nat.ltb 0 (List.length savedTabs) then
    let files := somes (map (fun tab => readFile (filePath tab) (service st)) savedTabs) in
    let st1 := withTabs files st in
    if match savedActiveId with
       | Some a => truthy a && existsb (fun f => String.eqb (file_id f) a) files
       | None => false
       end
    then withActive savedActiveId st1
    else match files with
         | f0 :: _ => withActive (Some (file_id f0)) st1
         | [] => st1
         end
  else st.

(** The effect that saves the tabs. *)
Definition saveTabsState (st : State) : State :=
  let tabData := map (fun tab => mkOpenTab (file_id tab) (file_path tab)) (openTabs st) in
  withStore (setActiveTabId (activeTabId st) (setOpenTabs tabData (store st))) st.

Definition handleFileSelect (f : VFile) (st : State) : State :=
  match readFile (file_path f) (service st) with
  | None => st
  | Some freshFile =>
      let samePath := fun tab : VFile => String.eqb (file_path tab) (file_path freshFile) in
      let tabs :=
        match find samePath (openTabs st) with
        | Some _ => map (fun tab => if samePath tab then freshFile else tab) (openTabs st)
        | None => (openTabs st ++ [freshFile])%list
        end in
      withOutput
        (match lookup (file_path freshFile) (fileOutputs st) with
         | Some o => orElse o EmptyString
         | None => EmptyString
         end)
        (withActive (Some (file_id freshFile)) (withTabs tabs st))
  end.

(** [{ ...activeFile, content, isSaved: false }] *)
Definition edited (text : string) (f : VFile) : VFile :=
  mkVFile (file_id f) (file_name f) (file_path f) (language f) text false.

(** [{ ...activeFile, isSaved: true }] *)
Definition saved (f : VFile) : VFile :=
  mkVFile (file_id f) (file_name f) (file_path f) (language f) (content f) true.

(** [prev.map(tab => tab.id === activeFile.id ? updatedFile : tab)] *)
Definition replaceTab (active updated : VFile) (tabs : list VFile) : list VFile :=
  map (fun tab => if String.eqb (file_id tab) (file_id active) then updated else tab) tabs.

(** [file.content = content; file.isSaved = false; saveWorkspace()] on the
    object that [readFile] returned. *)
Definition overwrite (path text : string) (s : Service) : Service :=
  match readFile path s with
  | Some _ => saveWorkspace (mutate path (edited text) (fun d => d) (workspace s))
  | None => s
  end.

Definition handleCodeChange (text : string) (st : State) : State :=
  match activeFile st with
  | None => st
  | Some active =>
      withTabs (replaceTab active (edited text active) (openTabs st))
        (withService (overwrite (file_path active) text (service st)) st)
  end.

Definition handleSave (st : State) : State :=
  match activeFile st with
  | None => st
  | Some active =>
      toast (Explorer.ToastSuccess ("Saved " ++ file_name active))
        (withTabs (replaceTab active (saved active) (openTabs st))
           (withService (snd (writeFile (file_path active) (content active) (service st)))
              st))
  end.

(** The table of [handleReset]. *)
Definition DEFAULT_CODE (l : CompilerLanguage) : string :=
  match l with
  | c =>
      "#include <stdio.h>" ++ nl ++ nl ++ "int main() {" ++ nl
      ++ "    printf(" ++ dq ++ "Hello, World!\n" ++ dq ++ ");" ++ nl
      ++ "    return 0;" ++ nl ++ "}"
  | cpp =>
      "#include <iostream>" ++ nl ++ "using namespace std;" ++ nl ++ nl
      ++ "int main() {" ++ nl
      ++ "    cout << " ++ dq ++ "Hello, World!" ++ dq ++ " << endl;" ++ nl
      ++ "    return 0;" ++ nl ++ "}"
  | java =>
      "public class Main {" ++ nl
      ++ "    public static void main(String[] args) {" ++ nl
      ++ "        System.out.println(" ++ dq ++ "Hello, World!" ++ dq ++ ");" ++ nl
      ++ "    }" ++ nl ++ "}"
  | javascript => "console.log(" ++ dq ++ "Hello, World!" ++ dq ++ ");"
  | python => "print(" ++ dq ++ "Hello, World!" ++ dq ++ ")"
  end.


End IDE.

(* ================================================================== *)
(** * Vocabulary of the statements *)
(* ================================================================== *)

(** The loops of the traversals by name, the relations and checks the
    statements are written in, and the sample states they are run on. *)

Import JS Workspace.

Fixpoint findInChildren (path : string) (l : list Node) : option Node :=
  match l with
  | [] => None
  | child :: l' =>
      if String.eqb (node_path child) path then Some child
      else match child with
           | inr d =>
               match findItemByPath path d with
               | Some found => Some found
               | None => findInChildren path l'
               end
           | inl _ => findInChildren path l'
           end
  end.

Definition onNode (onFile : VFile -> VFile) (onFolder : VFolder -> VFolder)
    (n : Node) : Node :=
  match n with inl f => inl (onFile f) | inr d => inr (onFolder d) end.

Fixpoint updateInChildren (path : string) (onFile : VFile -> VFile)
    (onFolder : VFolder -> VFolder) (l : list Node) : option (list Node) :=
  match l with
  | [] => None
  | child :: l' =>
      if String.eqb (node_path child) path then
        Some (onNode onFile onFolder child :: l')
      else match child with
           | inr d =>
               match updateItemByPath path onFile onFolder d with
               | Some d' => Some (inr d' :: l')
               | None => option_map (cons child) (updateInChildren path onFile onFolder l')
               end
           | inl _ => option_map (cons child) (updateInChildren path onFile onFolder l')
           end
  end.

Fixpoint filesOfList (l : list Node) : list VFile :=
  match l with
  | [] => []
  | n :: l' => (filesOf n ++ filesOfList l')%list
  end.

Fixpoint size (d : VFolder) : nat :=
  let (_, _, _, ch) := d in
  S ((fix loop (l : list Node) : nat :=
        match l with
        | [] => 0
        | inr d' :: l' => size d' + loop l'
        | inl _ :: l' => loop l'
        end) ch).

(** [replaced n n' t t']: the tree [t'] is [t] with one occurrence of the
    node [n] replaced by [n'], and nothing else touched. *)
Inductive replaced (n n' : Node) : Node -> Node -> Prop :=
| replaced_here : replaced n n' n n'
| replaced_child i nm p l1 x x' l2 :
    replaced n n' x x' ->
    replaced n n' (inr (mkVFolder i nm p (l1 ++ x :: l2)%list))
      (inr (mkVFolder i nm p (l1 ++ x' :: l2)%list)).

(** A service on the default workspace, and one with a third file below
    [/src], in a sub-folder. *)
Definition freshService : Service := newService None "i1" "i2" "i3" "i4" "i5".

Definition threeFilesService : Service :=
  snd (createFile "/src/util" "helper.c" None "i7"
         (snd (createFolder "/src" "util" "i6" freshService))).

(** The extension of the name is one the explorer allows. *)
Definition allowedName (name : string) : bool :=
  match extension name with
  | Some e => truthy e && Explorer.isAllowed e
  | None => false
  end.

(** What a compiler prints for a missing semicolon, as the service relays it. *)
Definition missingSemicolon : string :=
  "main.cpp: In function 'int main()':" ++ nl ++
  "main.cpp:5:34: error: expected ';' before 'return'" ++ nl ++
  "    5 |     cout << " ++ dq ++ "Hello, World!" ++ dq ++ " << endl" ++ nl ++
  "      |                                  ^" ++ nl ++
  "      |                                  ;" ++ nl ++
  "    6 |     return 0;" ++ nl ++
  "      |     ~~~~~~" ++ nl.

(** Every child's path is its parent's path joined with its name. *)
Fixpoint pathsJoin (d : VFolder) : bool :=
  let (_, _, p, ch) := d in
  (fix loop (l : list Node) : bool :=
     match l with
     | [] => true
     | x :: l' =>
         String.eqb (node_path x) (joinPath p (node_name x))
         && match x with inr d' => pathsJoin d' | inl _ => true end
         && loop l'
     end) ch.

Fixpoint namesUnique (l : list string) : bool :=
  match l with
  | [] => true
  | x :: l' => negb (existsb (String.eqb x) l') && namesUnique l'
  end.

(** No two children of a folder share a name, in every folder. *)
Fixpoint siblingsUnique (d : VFolder) : bool :=
  let (_, _, _, ch) := d in
  namesUnique (map node_name ch)
  && (fix loop (l : list Node) : bool :=
        match l with
        | [] => true
        | inr d' :: l' => siblingsUnique d' && loop l'
        | inl _ :: l' => loop l'
        end) ch.

(** The spec's example tree: a root, the folder [/src], the file [/src/a.py]. *)
Definition emptyService : Service :=
  mkService (mkWorkspace (mkVFolder "i0" "workspace" "/" [])) None.

Definition srcService : Service :=
  snd (createFile "/src" "a.py" None "i2"
         (snd (createFolder "/" "src" "i1" emptyService))).

Fixpoint hasChar (c : ascii) (s : string) : bool :=
  match s with
  | EmptyString => false
  | String a s' => Ascii.eqb a c || hasChar c s'
  end.

(** The node after a rename to its own name: a file with the language of
    its extension, a folder as it was. *)
Definition rederived (item : Node) : Node :=
  match item with
  | inl f =>
      inl (mkVFile (file_id f) (file_name f) (file_path f)
             (getLanguageFromExtension (file_name f)) (content f) (isSaved f))
  | inr d => inr d
  end.

(** A file created under a language that its extension does not give. *)
Definition notesService : Service :=
  snd (createFile "/" "notes.txt" (Some python) "i9" freshService).

Definition notesFile : VFile :=
  mkVFile "i9" "notes.txt" "/notes.txt" python (DEFAULT_CODE python) false.

Definition below (P : VFolder -> bool) (n : Node) : bool :=
  match n with inl _ => true | inr d => P d end.

Definition joined (p : string) (x : Node) : bool :=
  String.eqb (node_path x) (joinPath p (node_name x)) && below pathsJoin x.

(** A name a node may bear: not empty, no slash. *)
Definition nameOk (n : string) : bool := truthy n && negb (hasChar "/" n).

Fixpoint namesOk (d : VFolder) : bool :=
  let (_, _, _, ch) := d in
  (fix loop (l : list Node) : bool :=
     match l with
     | [] => true
     | x :: l' =>
         nameOk (node_name x)
         && match x with inr d' => namesOk d' | inl _ => true end
         && loop l'
     end) ch.

(** The invariants below a folder, and a well-formed workspace: the root
    has the path [/], every child's path is its parent's joined with its
    name, sibling names are unique, and names are proper. *)
Definition sound (d : VFolder) : bool :=
  pathsJoin d && siblingsUnique d && namesOk d.

Definition wellFormed (r : VFolder) : bool :=
  String.eqb (folder_path r) "/" && sound r.

(** [descends x d]: the node [x] lies below the folder [d]. *)
Inductive descends (x : Node) : VFolder -> Prop :=
| descends_child i n p ch : In x ch -> descends x (mkVFolder i n p ch)
| descends_deeper d i n p ch :
    In (inr d) ch -> descends x d -> descends x (mkVFolder i n p ch).

(** [x] is the child [c] or lies below it. *)
Definition via (c x : Node) : Prop :=
  x = c \/ exists d, c = inr d /\ descends x d.

(** The text a child's name is appended to. *)
Definition sepPrefix (p : string) : string :=
  if String.eqb p "/" then "/" else p ++ "/".

(** [q] is the path of [c], or a path that continues it. *)
Definition within (c : Node) (q : string) : Prop :=
  q = node_path c \/ exists rest, q = node_path c ++ "/" ++ rest.

(** What soundness of a folder says of each child. *)
Definition childOk (p : string) (x : Node) : Prop :=
  node_path x = sepPrefix p ++ node_name x /\
  nameOk (node_name x) = true /\
  below sound x = true.

(** The loop of [findById] by name. *)
Fixpoint findByIdIn (id : string) (l : list Node) : option Node :=
  match l with
  | [] => None
  | child :: l' =>
      if String.eqb (node_id child) id then Some child
      else match child with
           | inr d =>
               match findById id d with
               | Some found => Some found
               | None => findByIdIn id l'
               end
           | inl _ => findByIdIn id l'
           end
  end.

(** The loop of the explorer's [search] by name. *)
Fixpoint searchIn (path : string) (items : list Node) : option Node :=
  match items with
  | [] => None
  | item :: rest =>
      if String.eqb (node_path item) path then Some item
      else match item with
           | inr d =>
               match Explorer.search path d with
               | Some found => Some found
               | None => searchIn path rest
               end
           | inl _ => searchIn path rest
           end
  end.

(** A file with changes that are not saved. *)
Definition unsaved (f : VFile) : bool := negb (isSaved f).

(** What a rename leaves as it is in a file. *)
Definition payload (f : VFile) : string * string * bool :=
  (file_id f, content f, isSaved f).

(** The active tab, when there is one, is among the open tabs. *)
Definition activeOpen (tabs : list VFile) (active : option string) : Prop :=
  match active with
  | None => True
  | Some a => exists tab, In tab tabs /\ file_id tab = a
  end.

(** Every tab shows the file the workspace has at the tab's path. *)
Definition fresh (s : Service) (tabs : list VFile) : Prop :=
  Forall (fun tab => readFile (file_path tab) s = Some tab) tabs.

(** The text has no slash at its head and none at its end. *)
Definition headFree (s : string) : bool :=
  match s with String a _ => negb (Ascii.eqb a "/"%char) | EmptyString => true end.

Fixpoint endFree (s : string) : bool :=
  match s with
  | EmptyString => true
  | String a EmptyString => negb (Ascii.eqb a "/"%char)
  | String _ s' => endFree s'
  end.

(** What the iteration of a character class does: the longest run first,
    then shorter ones, until the continuation accepts. *)
Fixpoint starChr (p : ascii -> bool) (k : option ascii -> string -> option string)
    (pv : option ascii) (t : string) : option string :=
  match t with
  | String a t' =>
      if p a then
        match starChr p k (Some a) t' with
        | Some rest => Some rest
        | None => k pv t
        end
      else k pv t
  | EmptyString => k pv t
  end.

(** The continuation of a pattern that ends in [$]. *)
Definition toEnd : option ascii -> string -> option string :=
  fun _ rest => match rest with EmptyString => Some rest | _ => None end.

(** Every code unit of the text is in the class. *)
Fixpoint allIn (p : ascii -> bool) (t : string) : bool :=
  match t with
  | EmptyString => true
  | String a t' => p a && allIn p t'
  end.

(** The class of the extension in the name of a copy: [[^/.]]. *)
Definition extChar (a : ascii) : bool :=
  negb (Ascii.eqb a "/"%char || Ascii.eqb a "."%char).

(** Every array of captured lines a logger pushes onto exists before the
    position [n]. *)
Fixpoint scoped (n : nat) (l : Gateway.Logger) : bool :=
  match l with
  | Gateway.HostLog => true
  | Gateway.CaptureLog ref originalLog => Nat.ltb ref n && scoped n originalLog
  | Gateway.OtherLog _ => true
  end.

(* ================================================================== *)
(** * Facts about the tree and its traversals *)
(* ================================================================== *)

Lemma findItemByPath_unfold path i n p ch :
  findItemByPath path (mkVFolder i n p ch) =
  if String.eqb p path then Some (inr (mkVFolder i n p ch))
  else findInChildren path ch.
Proof.
  simpl. destruct (String.eqb p path); [reflexivity|].
  induction ch as [|x ch IH]; [reflexivity|].
  simpl. rewrite IH. reflexivity.
Qed.

Lemma updateItemByPath_unfold path ff fd i n p ch :
  updateItemByPath path ff fd (mkVFolder i n p ch) =
  if String.eqb p path then Some (fd (mkVFolder i n p ch))
  else match updateInChildren path ff fd ch with
       | Some ch' => Some (mkVFolder i n p ch')
       | None => None
       end.
Proof.
  simpl. destruct (String.eqb p path); [reflexivity|].
  match goal with
  | |- match ?a with _ => _ end = match ?b with _ => _ end =>
      replace a with b; [reflexivity|]
  end.
  induction ch as [|x ch IH]; [reflexivity|].
  simpl. rewrite IH. destruct x as [f|d]; reflexivity.
Qed.

Lemma getAllFiles_unfold i n p ch :
  getAllFiles (mkVFolder i n p ch) = filesOfList ch.
Proof.
  simpl. induction ch as [|x ch IH]; [reflexivity|].
  destruct x as [f|d]; simpl; rewrite IH; reflexivity.
Qed.

Lemma size_child i n p ch d :
  In (inr d) ch -> size d < size (mkVFolder i n p ch).
Proof.
  simpl. induction ch as [|x ch IH]; intros H; [contradiction|].
  destruct H as [->|H].
  - lia.
  - specialize (IH H). destruct x; lia.
Qed.

(** Induction on folders: a property that passes from the sub-folders among
    the children to the folder holds of every folder. *)
Lemma VFolder_induction (P : VFolder -> Prop) :
  (forall i n p ch, (forall d, In (inr d) ch -> P d) -> P (mkVFolder i n p ch)) ->
  forall d, P d.
Proof.
  intros H d.
  assert (Hn : forall k d', size d' < k -> P d').
  { induction k as [|k IH]; intros d' Hs; [lia|].
    destruct d' as [i n p ch]. apply H. intros d'' Hin.
    apply IH. pose proof (size_child i n p ch d'' Hin). lia. }
  apply (Hn (S (size d))). lia.
Qed.

Lemma replaced_same n t t' : replaced n n t t' -> t = t'.
Proof. induction 1; congruence. Qed.

Lemma filesOfList_app l1 l2 :
  filesOfList (l1 ++ l2) = (filesOfList l1 ++ filesOfList l2)%list.
Proof.
  induction l1 as [|x l1 IH]; simpl; [reflexivity|].
  rewrite IH, app_assoc. reflexivity.
Qed.

Lemma replaced_files n n' t t' :
  replaced n n' t t' ->
  exists before after,
    filesOf t = (before ++ filesOf n ++ after)%list /\
    filesOf t' = (before ++ filesOf n' ++ after)%list.
Proof.
  induction 1 as [|i nm p l1 x x' l2 _ (b & a & Hx & Hx')].
  - exists [], []. simpl. rewrite !app_nil_r. auto.
  - exists (filesOfList l1 ++ b)%list, (a ++ filesOfList l2)%list.
    cbn [filesOf]. rewrite !getAllFiles_unfold, !filesOfList_app. cbn [filesOfList].
    rewrite Hx, Hx'. rewrite <- !app_assoc. auto.
Qed.

Section Traversals.

Variable path : string.
Variables (onFile : VFile -> VFile) (onFolder : VFolder -> VFolder).

(** What [findItemByPath] returns has the path looked up. *)
Lemma findItemByPath_path r n :
  findItemByPath path r = Some n -> node_path n = path.
Proof.
  revert n. induction r as [i nm p ch IH] using VFolder_induction. intros n.
  rewrite findItemByPath_unfold.
  destruct (String.eqb p path) eqn:E.
  - intros [= <-]. apply String.eqb_eq in E. exact E.
  - clear E. induction ch as [|x ch IHch]; simpl; [discriminate|].
    destruct (String.eqb (node_path x) path) eqn:Ex.
    + intros [= <-]. apply String.eqb_eq in Ex. exact Ex.
    + assert (Hrest : findInChildren path ch = Some n -> node_path n = path).
      { apply IHch. intros d Hd. apply IH. right. exact Hd. }
      destruct x as [f|d]; [exact Hrest|].
      destruct (findItemByPath path d) eqn:Ed; [|exact Hrest].
      intros [= <-]. apply (IH d); [left; reflexivity | exact Ed].
Qed.

(** Nothing to update where nothing is found. *)
Lemma update_none r :
  findItemByPath path r = None -> updateItemByPath path onFile onFolder r = None.
Proof.
  induction r as [i nm p ch IH] using VFolder_induction.
  rewrite findItemByPath_unfold, updateItemByPath_unfold.
  destruct (String.eqb p path); [discriminate|].
  intros H.
  assert (Hl : updateInChildren path onFile onFolder ch = None).
  { induction ch as [|x ch IHch]; simpl in *; [reflexivity|].
    assert (IH' : forall d, In (inr d) ch ->
              findItemByPath path d = None ->
              updateItemByPath path onFile onFolder d = None).
    { intros d Hd. apply IH. right. exact Hd. }
    destruct (String.eqb (node_path x) path); [discriminate|].
    destruct x as [f|d].
    - rewrite (IHch IH' H). reflexivity.
    - destruct (findItemByPath path d) eqn:Ed; [discriminate|].
      rewrite (IH d (or_introl eq_refl) Ed).
      rewrite (IHch IH' H). reflexivity. }
  rewrite Hl. reflexivity.
Qed.

(** The update replaces the node that the lookup returns, and only it. *)
Lemma update_found r n :
  findItemByPath path r = Some n ->
  exists r', updateItemByPath path onFile onFolder r = Some r' /\
    replaced n (onNode onFile onFolder n) (inr r) (inr r').
Proof.
  revert n. induction r as [i nm p ch IH] using VFolder_induction. intros n.
  rewrite findItemByPath_unfold, updateItemByPath_unfold.
  destruct (String.eqb p path).
  - intros [= <-]. eexists. split; [reflexivity|]. apply replaced_here.
  - intros H.
    assert (Hl : exists l1 x x' l2,
               ch = (l1 ++ x :: l2)%list /\
               updateInChildren path onFile onFolder ch = Some (l1 ++ x' :: l2)%list /\
               replaced n (onNode onFile onFolder n) x x').
    { induction ch as [|x ch IHch]; simpl in *; [discriminate|].
      destruct (String.eqb (node_path x) path).
      - injection H as <-. exists [], x, (onNode onFile onFolder x), ch.
        repeat split. apply replaced_here.
      - assert (Hrest : findInChildren path ch = Some n ->
                  exists l1 y y' l2,
                    x :: ch = (l1 ++ y :: l2)%list /\
                    option_map (cons x) (updateInChildren path onFile onFolder ch)
                      = Some (l1 ++ y' :: l2)%list /\
                    replaced n (onNode onFile onFolder n) y y').
        { intros Hf.
          assert (IH' : forall d, In (inr d) ch -> forall m,
                    findItemByPath path d = Some m ->
                    exists r', updateItemByPath path onFile onFolder d = Some r' /\
                               replaced m (onNode onFile onFolder m) (inr d) (inr r')).
          { intros d Hd. apply IH. right. exact Hd. }
          destruct (IHch IH' Hf) as (l1 & y & y' & l2 & -> & Hu & Hr).
          exists (x :: l1), y, y', l2. rewrite Hu. repeat split. exact Hr. }
        destruct x as [f|d]; [exact (Hrest H)|].
        destruct (findItemByPath path d) eqn:Ed.
        + injection H as <-.
          destruct (IH d (or_introl eq_refl) _ Ed) as (d' & Hu & Hr).
          rewrite Hu. exists [], (inr d), (inr d'), ch. repeat split. exact Hr.
        + rewrite (update_none d Ed). exact (Hrest H). }
    destruct Hl as (l1 & x & x' & l2 & -> & -> & Hr).
    eexists. split; [reflexivity|]. apply replaced_child. exact Hr.
Qed.

(** After an update that keeps the path of the node, the lookup returns the
    updated node. *)
Lemma find_after_update r r' n :
  findItemByPath path r = Some n ->
  node_path (onNode onFile onFolder n) = path ->
  updateItemByPath path onFile onFolder r = Some r' ->
  findItemByPath path r' = Some (onNode onFile onFolder n).
Proof.
  revert r' n. induction r as [i nm p ch IH] using VFolder_induction.
  intros r' n.
  rewrite findItemByPath_unfold, updateItemByPath_unfold.
  destruct (String.eqb p path) eqn:Ep.
  - intros [= <-] Hp [= <-].
    destruct (onFolder (mkVFolder i nm p ch)) as [i' nm' p' ch'] eqn:Eo.
    rewrite findItemByPath_unfold. simpl in Hp. rewrite Eo in Hp. simpl in Hp.
    apply String.eqb_eq in Hp. rewrite Hp. simpl. rewrite Eo. reflexivity.
  - intros Hf Hp Hu.
    destruct (updateInChildren path onFile onFolder ch) as [ch'|] eqn:Ech; [|discriminate].
    injection Hu as <-. rewrite findItemByPath_unfold, Ep.
    clear Ep. revert ch' Ech.
    induction ch as [|x ch IHch]; simpl in *; [discriminate|]. intros ch'.
    assert (IHrest : findInChildren path ch = Some n ->
              forall l, updateInChildren path onFile onFolder ch = Some l ->
              findInChildren path l = Some (onNode onFile onFolder n)).
    { intros Hf'. apply IHch; [|exact Hf']. intros d Hd. apply IH. right. exact Hd. }
    destruct (String.eqb (node_path x) path) eqn:Ex.
    + injection Hf as <-. intros [= <-]. simpl.
      apply String.eqb_eq in Hp. rewrite Hp. reflexivity.
    + destruct x as [f|d].
      * destruct (updateInChildren path onFile onFolder ch) as [l|] eqn:El; [|discriminate].
        intros [= <-]. simpl. simpl in Ex. rewrite Ex. apply IHrest; auto.
      * destruct (findItemByPath path d) eqn:Ed.
        -- injection Hf as <-.
           destruct (updateItemByPath path onFile onFolder d) as [d'|] eqn:Ed'.
           ++ intros [= <-]. simpl.
              assert (Hpd : folder_path d' = folder_path d).
              { destruct d as [di dn dp dc]. rewrite updateItemByPath_unfold in Ed'.
                simpl in Ex. rewrite Ex in Ed'.
                destruct (updateInChildren path onFile onFolder dc); [|discriminate].
                injection Ed' as <-. reflexivity. }
              rewrite Hpd. simpl in Ex. rewrite Ex.
              rewrite (IH d (or_introl eq_refl) d' _ Ed Hp Ed'). reflexivity.
           ++ destruct (update_found d _ Ed) as (d' & Hu' & _).
              congruence.
        -- rewrite (update_none d Ed).
           destruct (updateInChildren path onFile onFolder ch) as [l|] eqn:El; [|discriminate].
           intros [= <-]. simpl. simpl in Ex. rewrite Ex, Ed. apply IHrest; auto.
Qed.

End Traversals.

Lemma namesUnique_inj {A : Type} (f : A -> string) (l : list A) (x y : A) :
  namesUnique (map f l) = true ->
  In x l -> In y l -> f x = f y -> x = y.
Proof.
  induction l as [|a l IH]; simpl; [contradiction|].
  intros H Hx Hy E. apply andb_true_iff in H. destruct H as [Ha Hl].
  apply negb_true_iff in Ha.
  assert (Hfresh : forall z, In z l -> f a <> f z).
  { intros z Hz Ez.
    assert (Hex : existsb (String.eqb (f a)) (map f l) = true).
    { apply existsb_exists. exists (f z). split; [apply in_map; exact Hz|].
      apply String.eqb_eq. exact Ez. }
    congruence. }
  destruct Hx as [->|Hx], Hy as [->|Hy]; auto.
  - exfalso. exact (Hfresh _ Hy E).
  - exfalso. exact (Hfresh _ Hx (eq_sym E)).
Qed.

(** A folder that the lookup returns is no larger than the tree searched. *)
Lemma findItemByPath_size (q : string) (r m : VFolder) :
  findItemByPath q r = Some (inr m) -> size m <= size r.
Proof.
  revert m. induction r as [i n p ch IH] using VFolder_induction.
  intros m. rewrite findItemByPath_unfold.
  destruct (String.eqb p q); [intros [= <-]; lia|].
  intros H.
  assert (Hc : exists x, In x ch /\
                 (x = inr m \/ exists d, x = inr d /\ findItemByPath q d = Some (inr m))).
  { induction ch as [|x ch IHch]; simpl in H; [discriminate|].
    destruct (String.eqb (node_path x) q).
    - injection H as ->. exists (inr m). split; left; reflexivity.
    - assert (Hrest : findInChildren q ch = Some (inr m) ->
                exists y, In y (x :: ch) /\
                  (y = inr m \/ exists d, y = inr d /\ findItemByPath q d = Some (inr m))).
      { intros Hf.
        assert (IH' : forall d, In (inr d) ch -> forall m0,
                  findItemByPath q d = Some (inr m0) -> size m0 <= size d).
        { intros d Hd. apply IH. right. exact Hd. }
        destruct (IHch IH' Hf) as (y & Hy & Hy').
        exists y. split; [right; exact Hy | exact Hy']. }
      destruct x as [f|d]; [exact (Hrest H)|].
      destruct (findItemByPath q d) eqn:Ed; [|exact (Hrest H)].
      injection H as ->. exists (inr d). split; [left; reflexivity|].
      right. exists d. split; [reflexivity | exact Ed]. }
  destruct Hc as (x & Hx & [->|(d & -> & Hd)]).
  - pose proof (size_child i n p ch m Hx). lia.
  - pose proof (size_child i n p ch d Hx). specialize (IH d Hx m Hd). lia.
Qed.

(* ================================================================== *)
(** * Paths as text *)
(* ================================================================== *)

Lemma length_append (a b : string) :
  String.length (a ++ b) = String.length a + String.length b.
Proof. induction a as [|x a IH]; simpl; [reflexivity | rewrite IH; reflexivity]. Qed.

Lemma substring_head (a b : string) :
  String.substring 0 (String.length a) (a ++ b) = a.
Proof.
  induction a as [|x a IH]; simpl.
  - destruct b; reflexivity.
  - rewrite IH. reflexivity.
Qed.

Lemma append_assoc (a b d : string) : (a ++ b) ++ d = a ++ (b ++ d).
Proof. induction a as [|x a IH]; simpl; [reflexivity | rewrite IH; reflexivity]. Qed.

Lemma lastIndex_absent (c : ascii) (s : string) :
  hasChar c s = false -> lastIndex c s = None.
Proof.
  induction s as [|a s IH]; simpl; [reflexivity|].
  intros H. apply orb_false_iff in H. destruct H as [Ha Hs].
  rewrite (IH Hs), Ha. reflexivity.
Qed.

Lemma lastIndex_last (c : ascii) (a n : string) :
  hasChar c n = false ->
  lastIndex c (a ++ String c n) = Some (String.length a).
Proof.
  intros H. induction a as [|x a IH]; simpl.
  - rewrite (lastIndex_absent c n H), Ascii.eqb_refl. reflexivity.
  - rewrite IH. reflexivity.
Qed.

(** The path recomputed for a slash-free name is the join it came from. *)
Lemma renamedPath_join (pp n : string) :
  hasChar "/" n = false ->
  renamedPath (joinPath pp n) n = joinPath pp n.
Proof.
  intros H.
  assert (G : forall a, renamedPath (a ++ String "/" n) n = a ++ String "/" n).
  { intros a. unfold renamedPath, lastIndexOf, JS.substring, clampIndex.
    rewrite (lastIndex_last _ a n H), length_append. simpl String.length.
    replace (Z.to_nat (Z.min (Z.max 0 0) (Z.of_nat (String.length a + S (String.length n)))))
      with 0 by lia.
    replace (Z.to_nat (Z.min (Z.max (Z.of_nat (String.length a) + 1) 0)
                         (Z.of_nat (String.length a + S (String.length n)))))
      with (String.length (a ++ "/")) by (rewrite length_append; simpl; lia).
    rewrite Nat.min_0_l, Nat.max_0_l, Nat.sub_0_r.
    change (a ++ String "/" n) with (a ++ ("/" ++ n)) at 1.
    rewrite <- append_assoc, substring_head, append_assoc. reflexivity. }
  unfold joinPath. destruct (String.eqb pp "/").
  - exact (G EmptyString).
  - exact (G pp).
Qed.

(* ================================================================== *)
(** * The invariants, unfolded *)
(* ================================================================== *)

Lemma pathsJoin_unfold i n p ch :
  pathsJoin (mkVFolder i n p ch) = forallb (joined p) ch.
Proof.
  simpl. induction ch as [|x ch IH]; [reflexivity|].
  simpl. rewrite IH. unfold joined. destruct x; reflexivity.
Qed.

Lemma siblingsUnique_unfold i n p ch :
  siblingsUnique (mkVFolder i n p ch)
  = namesUnique (map node_name ch) && forallb (below siblingsUnique) ch.
Proof.
  simpl. f_equal. induction ch as [|x ch IH]; [reflexivity|].
  simpl. rewrite IH. destruct x; reflexivity.
Qed.

Lemma replaced_head n n' t t' :
  replaced n n' t t' ->
  node_path n' = node_path n -> node_name n' = node_name n ->
  node_path t' = node_path t /\ node_name t' = node_name t.
Proof. induction 1; auto. Qed.

Lemma existsb_names (name : string) (l : list Node) :
  existsb (String.eqb name) (map node_name l)
  = existsb (fun child => String.eqb (node_name child) name) l.
Proof.
  induction l as [|x l IH]; simpl; [reflexivity|].
  rewrite IH, String.eqb_sym. reflexivity.
Qed.

Lemma namesUnique_snoc (l : list string) (x : string) :
  namesUnique l = true -> existsb (String.eqb x) l = false ->
  namesUnique (l ++ [x]) = true.
Proof.
  induction l as [|a l IH]; simpl; [reflexivity|].
  intros H Hx. apply andb_true_iff in H. destruct H as [Ha Hl].
  apply orb_false_iff in Hx. destruct Hx as [Hxa Hx].
  rewrite (IH Hl Hx), existsb_app. simpl.
  apply negb_true_iff in Ha. rewrite Ha, String.eqb_sym, Hxa. reflexivity.
Qed.

Lemma namesUnique_remove (l1 l2 : list string) (x : string) :
  namesUnique (l1 ++ x :: l2) = true -> namesUnique (l1 ++ l2) = true.
Proof.
  induction l1 as [|a l1 IH]; simpl.
  - intros H. apply andb_true_iff in H. tauto.
  - intros H. apply andb_true_iff in H. destruct H as [Ha Hl].
    rewrite (IH Hl). apply negb_true_iff in Ha.
    rewrite existsb_app in Ha |- *. simpl in Ha.
    apply orb_false_iff in Ha. destruct Ha as [Ha1 Ha2].
    apply orb_false_iff in Ha2. destruct Ha2 as [_ Ha2].
    rewrite Ha1, Ha2. reflexivity.
Qed.

(* ================================================================== *)
(** * Lookup in a well-formed workspace *)
(* ================================================================== *)

(** In a well-formed workspace a path names one node: looking up the path
    of a node gives that node back. *)

Lemma append_cancel (a x y : string) : a ++ x = a ++ y -> x = y.
Proof. induction a as [|c a IH]; simpl; [auto|]. intros [= H]. auto. Qed.

Lemma hasChar_append (c : ascii) (a b : string) :
  hasChar c (a ++ b) = hasChar c a || hasChar c b.
Proof.
  induction a as [|x a IH]; simpl; [reflexivity|].
  rewrite IH, orb_assoc. reflexivity.
Qed.

Lemma first_segment (a b r r' : string) :
  hasChar "/" a = false -> hasChar "/" b = false ->
  a ++ "/" ++ r = b ++ "/" ++ r' -> a = b.
Proof.
  revert b. induction a as [|x a IH]; intros [|y b]; simpl; intros Ha Hb E.
  - reflexivity.
  - injection E as <- _. discriminate.
  - injection E as -> _. discriminate.
  - injection E as <- E. apply orb_false_iff in Ha, Hb.
    f_equal. apply IH; tauto.
Qed.

Lemma no_segment (a b r : string) :
  hasChar "/" b = false -> a ++ "/" ++ r <> b.
Proof.
  intros Hb E. subst b. rewrite hasChar_append in Hb. simpl in Hb.
  rewrite orb_true_r in Hb. discriminate.
Qed.

Lemma longer (a r : string) : a ++ "/" ++ r <> a.
Proof.
  intros E. apply (f_equal String.length) in E.
  rewrite length_append in E. simpl in E. lia.
Qed.

Lemma nameOk_parts (n : string) :
  nameOk n = true -> n <> EmptyString /\ hasChar "/" n = false.
Proof.
  unfold nameOk. intros H. apply andb_true_iff in H. destruct H as [Ht Hs].
  apply negb_true_iff in Hs. split; [|exact Hs]. intros ->. discriminate.
Qed.

Lemma joinPath_sep (p n : string) : joinPath p n = sepPrefix p ++ n.
Proof.
  unfold joinPath, sepPrefix. destruct (String.eqb p "/"); [reflexivity|].
  rewrite append_assoc. reflexivity.
Qed.

Lemma sepPrefix_child (p n : string) :
  n <> EmptyString -> sepPrefix (sepPrefix p ++ n) = (sepPrefix p ++ n) ++ "/".
Proof.
  intros Hn. unfold sepPrefix at 1.
  destruct (String.eqb (sepPrefix p ++ n) "/") eqn:E; [|reflexivity].
  exfalso. apply String.eqb_eq in E. unfold sepPrefix in E.
  destruct (String.eqb p "/").
  - simpl in E. injection E as E. contradiction.
  - destruct p as [|a p]; simpl in E.
    + injection E as E. contradiction.
    + injection E as _ E. destruct p; discriminate.
Qed.

Lemma sepPrefix_longer (p rest : string) :
  rest <> EmptyString -> sepPrefix p ++ rest <> p.
Proof.
  intros Hr. unfold sepPrefix. destruct (String.eqb p "/") eqn:E.
  - apply String.eqb_eq in E. subst p. simpl. intros [= H]. contradiction.
  - rewrite append_assoc. apply longer.
Qed.

Lemma namesOk_unfold i n p ch :
  namesOk (mkVFolder i n p ch)
  = forallb (fun x => nameOk (node_name x) && below namesOk x) ch.
Proof.
  simpl. induction ch as [|x ch IH]; [reflexivity|].
  simpl. rewrite IH. destruct x; reflexivity.
Qed.

Lemma sound_children i n p ch :
  sound (mkVFolder i n p ch) = true ->
  namesUnique (map node_name ch) = true /\ forall x, In x ch -> childOk p x.
Proof.
  unfold sound. rewrite pathsJoin_unfold, siblingsUnique_unfold, namesOk_unfold.
  intros H. apply andb_true_iff in H. destruct H as [H Hn].
  apply andb_true_iff in H. destruct H as [Hp Hs].
  apply andb_true_iff in Hs. destruct Hs as [Hu Hs].
  split; [exact Hu|]. intros x Hx.
  rewrite forallb_forall in Hp, Hs, Hn.
  specialize (Hp x Hx). specialize (Hs x Hx). specialize (Hn x Hx).
  unfold joined in Hp. apply andb_true_iff in Hp. destruct Hp as [Hj Hp].
  apply andb_true_iff in Hn. destruct Hn as [Hok Hn].
  apply String.eqb_eq in Hj. rewrite joinPath_sep in Hj.
  repeat split; auto.
  destruct x as [f|d]; [reflexivity|]. cbn [below] in *.
  unfold sound. rewrite Hp, Hs, Hn. reflexivity.
Qed.

Lemma descends_inv x i n p ch :
  descends x (mkVFolder i n p ch) <-> exists c, In c ch /\ via c x.
Proof.
  split.
  - intros H. inversion H; subst.
    + exists x. split; [assumption | left; reflexivity].
    + exists (inr d). split; [assumption | right; eauto].
  - intros (c & Hc & [->|(d & -> & Hd)]).
    + apply descends_child. exact Hc.
    + eapply descends_deeper; eauto.
Qed.

(** What the lookup returns is the folder searched or lies below it. *)
Lemma find_descends q r x :
  findItemByPath q r = Some x -> x = inr r \/ descends x r.
Proof.
  revert x. induction r as [i n p ch IH] using VFolder_induction. intros x.
  rewrite findItemByPath_unfold.
  destruct (String.eqb p q); [intros [= <-]; left; reflexivity|].
  intros H. right. apply descends_inv.
  induction ch as [|h ch IHch]; simpl in H; [discriminate|].
  assert (Hrest : findInChildren q ch = Some x -> exists c, In c (h :: ch) /\ via c x).
  { intros Hf.
    assert (IH' : forall d, In (inr d) ch -> forall y,
              findItemByPath q d = Some y -> y = inr d \/ descends y d).
    { intros d Hd. apply IH. right. exact Hd. }
    destruct (IHch IH' Hf) as (c & Hc & Hv).
    exists c. split; [right; exact Hc | exact Hv]. }
  destruct (String.eqb (node_path h) q).
  - injection H as <-. exists h. split; [left; reflexivity | left; reflexivity].
  - destruct h as [f|d]; [exact (Hrest H)|].
    destruct (findItemByPath q d) eqn:Ed; [|exact (Hrest H)].
    injection H as ->. exists (inr d). split; [left; reflexivity|].
    destruct (IH d (or_introl eq_refl) _ Ed) as [->|Hd].
    + left. reflexivity.
    + right. exists d. split; [reflexivity | exact Hd].
Qed.

(** The path of a node below a sound folder continues the folder's path. *)
Lemma descends_shape r x :
  sound r = true -> descends x r ->
  exists rest, rest <> EmptyString /\ node_path x = sepPrefix (folder_path r) ++ rest.
Proof.
  intros Hs Hd. induction Hd as [i n p ch Hx | d i n p ch Hd Hxd IH].
  - destruct (sound_children _ _ _ _ Hs) as [_ Hc].
    destruct (Hc x Hx) as (Hp & Hok & _).
    exists (node_name x). split; [apply nameOk_parts; exact Hok | exact Hp].
  - destruct (sound_children _ _ _ _ Hs) as [_ Hc].
    destruct (Hc _ Hd) as (Hp & Hok & Hsd). cbn [below node_path node_name] in *.
    destruct (IH Hsd) as (rest & Hr & E).
    destruct (nameOk_parts _ Hok) as [Hne _].
    rewrite Hp, sepPrefix_child in E by exact Hne.
    exists (folder_name d ++ "/" ++ rest). split.
    + destruct (folder_name d); [contradiction | discriminate].
    + rewrite E. cbn [folder_path]. rewrite !append_assoc. reflexivity.
Qed.

Lemma via_within p c x :
  childOk p c -> via c x -> within c (node_path x).
Proof.
  intros (Hp & Hok & Hs) [->|(d & -> & Hd)]; [left; reflexivity|].
  right. cbn [below node_path node_name] in *.
  destruct (descends_shape d x Hs Hd) as (rest & _ & E).
  destruct (nameOk_parts _ Hok) as [Hne _].
  rewrite Hp, sepPrefix_child in E by exact Hne.
  exists rest. rewrite E, Hp, !append_assoc. reflexivity.
Qed.

Lemma within_apart p c1 c2 q :
  childOk p c1 -> childOk p c2 -> node_name c1 <> node_name c2 ->
  within c1 q -> within c2 q -> False.
Proof.
  intros (Hp1 & Hok1 & _) (Hp2 & Hok2 & _) Hne H1 H2.
  destruct (nameOk_parts _ Hok1) as [_ Hs1].
  destruct (nameOk_parts _ Hok2) as [_ Hs2].
  unfold within in *. rewrite Hp1 in H1. rewrite Hp2 in H2.
  destruct H1 as [->|(r1 & ->)], H2 as [E|(r2 & E)].
  - apply append_cancel in E. auto.
  - rewrite append_assoc in E. apply append_cancel in E.
    symmetry in E. exact (no_segment _ _ _ Hs1 E).
  - rewrite append_assoc in E. apply append_cancel in E.
    exact (no_segment _ _ _ Hs2 E).
  - rewrite !append_assoc in E. apply append_cancel in E.
    exact (Hne (first_segment _ _ _ _ Hs1 Hs2 E)).
Qed.

Lemma names_apart (h : Node) (t : list Node) (c : Node) :
  namesUnique (map node_name (h :: t)) = true -> In c t ->
  node_name h <> node_name c.
Proof.
  simpl. intros H Hc E. apply andb_true_iff in H. destruct H as [Hh _].
  apply negb_true_iff in Hh.
  assert (Hex : existsb (String.eqb (node_name h)) (map node_name t) = true).
  { apply existsb_exists. exists (node_name c). split; [apply in_map; exact Hc|].
    apply String.eqb_eq. exact E. }
  congruence.
Qed.

(** Looking up the path of a node below a sound folder returns the node. *)
Lemma find_own_path r x :
  sound r = true -> descends x r -> findItemByPath (node_path x) r = Some x.
Proof.
  revert x. induction r as [i n p ch IH] using VFolder_induction.
  intros x Hs Hd. rewrite findItemByPath_unfold.
  destruct (descends_shape _ _ Hs Hd) as (rest & Hr & E). cbn [folder_path] in E.
  assert (Hp : String.eqb p (node_path x) = false).
  { apply String.eqb_neq. intros Hp. rewrite E in Hp.
    exact (sepPrefix_longer p rest Hr (eq_sym Hp)). }
  rewrite Hp. clear E Hp Hr rest.
  apply descends_inv in Hd. destruct Hd as (c & Hc & Hv).
  destruct (sound_children _ _ _ _ Hs) as [Hu Hok]. clear Hs.
  induction ch as [|h t IHt]; [contradiction|].
  assert (Hh : childOk p h) by (apply Hok; left; reflexivity).
  simpl. destruct Hc as [->|Hc].
  - (* the way to [x] leads through the first child *)
    destruct Hv as [->|(d & -> & Hd)].
    + rewrite String.eqb_refl. reflexivity.
    + pose proof (via_within p (inr d) x Hh (or_intror (ex_intro _ d (conj eq_refl Hd))))
        as [E|(rest & E)].
      * destruct Hh as (_ & _ & Hsd). cbn [below] in Hsd.
        destruct (descends_shape d x Hsd Hd) as (rest & Hr & E').
        exfalso. rewrite E in E'. cbn [node_path] in E'.
        exact (sepPrefix_longer _ rest Hr (eq_sym E')).
      * assert (Hne : String.eqb (node_path (inr d)) (node_path x) = false).
        { apply String.eqb_neq. rewrite E. intros H. exact (longer _ _ (eq_sym H)). }
        rewrite Hne. destruct Hh as (_ & _ & Hsd). cbn [below] in Hsd.
        rewrite (IH d (or_introl eq_refl) x Hsd Hd). reflexivity.
  - (* the first child is another one *)
    assert (Hcok : childOk p c) by (apply Hok; right; exact Hc).
    pose proof (names_apart h t c Hu Hc) as Hne.
    pose proof (via_within p c x Hcok Hv) as Hw.
    assert (Hnh : String.eqb (node_path h) (node_path x) = false).
    { apply String.eqb_neq. intros E.
      apply (within_apart p h c (node_path x) Hh Hcok Hne); [left; auto | exact Hw]. }
    rewrite Hnh.
    assert (Hrest : findInChildren (node_path x) t = Some x).
    { apply IHt; auto.
      - intros d Hd. apply IH. right. exact Hd.
      - simpl in Hu. apply andb_true_iff in Hu. tauto.
      - intros y Hy. apply Hok. right. exact Hy. }
    destruct h as [f|d]; [exact Hrest|].
    destruct (findItemByPath (node_path x) d) as [y|] eqn:Ed; [|exact Hrest].
    exfalso. apply (within_apart p (inr d) c (node_path x) Hh Hcok Hne); [|exact Hw].
    pose proof (findItemByPath_path _ _ _ Ed) as Hy.
    destruct (find_descends _ _ _ Ed) as [->|Hyd].
    + left. auto.
    + rewrite <- Hy. apply (via_within p (inr d) y Hh). right. eauto.
Qed.

(** The folder a node lies in. *)
Lemma descends_parent r x :
  sound r = true -> descends x r ->
  exists parent,
    (parent = r \/ descends (inr parent) r) /\ In x (children parent) /\
    sound parent = true.
Proof.
  intros Hs Hd. induction Hd as [i n p ch Hx | d i n p ch Hd Hxd IH].
  - eexists. split; [left; reflexivity|]. split; [exact Hx | exact Hs].
  - destruct (sound_children _ _ _ _ Hs) as [_ Hc].
    destruct (Hc _ Hd) as (_ & _ & Hsd). cbn [below] in Hsd.
    destruct (IH Hsd) as (parent & Hpar & Hin & Hsp).
    exists parent. split; [|split; assumption]. right.
    destruct Hpar as [->|Hpar].
    + apply descends_child. exact Hd.
    + eapply descends_deeper; eauto.
Qed.

Lemma parentPathOf_join (p n : string) :
  p <> EmptyString -> hasChar "/" n = false ->
  parentPathOf (joinPath p n) = p.
Proof.
  intros Hp Hn.
  assert (G : forall a, parentPathOf (a ++ String "/" n) = orElse a "/").
  { intros a. unfold parentPathOf, lastIndexOf, JS.substring, clampIndex.
    rewrite (lastIndex_last _ a n Hn), length_append.
    replace (Z.to_nat (Z.min (Z.max 0 0)
               (Z.of_nat (String.length a + String.length (String "/" n)))))
      with 0 by lia.
    replace (Z.to_nat (Z.min (Z.max (Z.of_nat (String.length a)) 0)
               (Z.of_nat (String.length a + String.length (String "/" n)))))
      with (String.length a) by lia.
    rewrite Nat.min_0_l, Nat.max_0_l, Nat.sub_0_r, substring_head. reflexivity. }
  unfold joinPath. destruct (String.eqb p "/") eqn:E.
  - apply String.eqb_eq in E. subst p. exact (G EmptyString).
  - change (p ++ "/" ++ n) with (p ++ String "/" n).
    rewrite (G p). destruct p; [contradiction | reflexivity].
Qed.

(** In a well-formed workspace, a node found at a path and other than the
    root is a child of the folder which the parent part of the path
    resolves to, and that folder is sound. *)
Lemma wellFormed_node (w : Workspace) (path : string) (item : Node) :
  wellFormed (root w) = true ->
  findItemByPath path (root w) = Some item ->
  item <> inr (root w) ->
  exists parent,
    findParentFolder w path = Some parent /\
    In item (children parent) /\
    sound parent = true /\
    path = joinPath (folder_path parent) (node_name item) /\
    nameOk (node_name item) = true.
Proof.
  unfold wellFormed. intros Hw Hf Hne.
  apply andb_true_iff in Hw. destruct Hw as [Hroot Hs].
  apply String.eqb_eq in Hroot.
  pose proof (findItemByPath_path _ _ _ Hf) as Hpath.
  destruct (find_descends _ _ _ Hf) as [->|Hd]; [contradiction|].
  destruct (descends_parent _ _ Hs Hd) as (parent & Hpar & Hin & Hsp).
  assert (Hfp : findItemByPath (folder_path parent) (root w) = Some (inr parent)).
  { destruct Hpar as [->|Hpar].
    - destruct (root w) as [i n p ch]. rewrite findItemByPath_unfold.
      cbn [folder_path] in *. subst p. reflexivity.
    - exact (find_own_path _ _ Hs Hpar). }
  assert (Hpne : folder_path parent <> EmptyString).
  { destruct Hpar as [->|Hpar]; [rewrite Hroot; discriminate|].
    destruct (descends_shape _ _ Hs Hpar) as (rest & Hr & E).
    cbn [node_path] in E. rewrite E, Hroot. discriminate. }
  destruct parent as [pi pn pp pch]. cbn [children folder_path] in *.
  destruct (sound_children _ _ _ _ Hsp) as [_ Hok].
  destruct (Hok item Hin) as (Hp & Hnok & _).
  destruct (nameOk_parts _ Hnok) as [_ Hslash].
  assert (Hj : path = joinPath pp (node_name item)).
  { rewrite joinPath_sep, <- Hp. auto. }
  exists (mkVFolder pi pn pp pch). cbn [children folder_path].
  repeat split; auto.
  unfold findParentFolder. rewrite Hj, parentPathOf_join, Hfp; auto.
Qed.

(* ================================================================== *)
(** * Writing a file *)
(* ================================================================== *)

Lemma mutate_found path ff fd w n :
  findItemByPath path (root w) = Some n ->
  exists r', mutate path ff fd w = mkWorkspace r' /\
             updateItemByPath path ff fd (root w) = Some r' /\
             replaced n (onNode ff fd n) (inr (root w)) (inr r').
Proof.
  intros H. destruct (update_found path ff fd _ _ H) as (r' & Hu & Hr).
  exists r'. unfold mutate. rewrite Hu. auto.
Qed.

(** C7. [writeFile(path, content)] returns [false] and leaves the service as
    it was when the path resolves to nothing or to a folder.  When it
    resolves to a file, it returns [true]; the new tree is the old one with
    that one file replaced by the same file with the given text as content
    and [isSaved] set (identifier, name, path and language kept, every other
    node untouched); the new tree is what the store holds; and reading the
    path afterwards gives the updated file. *)
Theorem writeFile_spec (path text : string) (s : Service) :
  match findItemByPath path (root (workspace s)) with
  | Some (inl f) =>
      exists r',
        writeFile path text s = (true, mkService (mkWorkspace r') (Some (mkWorkspace r')))
        /\ replaced (inl f) (inl (mkVFile (file_id f) (file_name f) (file_path f)
                                   (language f) text true))
             (inr (root (workspace s))) (inr r')
        /\ readFile path (mkService (mkWorkspace r') (Some (mkWorkspace r')))
           = Some (mkVFile (file_id f) (file_name f) (file_path f) (language f) text true)
  | Some (inr _) | None => writeFile path text s = (false, s)
  end.
Proof.
  destruct (findItemByPath path (root (workspace s))) as [[f|d]|] eqn:E;
    unfold writeFile, readFile; rewrite E; try reflexivity.
  destruct (mutate_found path (setContent text) (fun d => d) _ _ E) as (r' & Hm & Hu & Hr).
  exists r'. rewrite Hm. split; [reflexivity|]. split; [exact Hr|].
  simpl.
  rewrite (find_after_update path (setContent text) (fun d => d) _ r' _ E); auto.
  simpl. exact (findItemByPath_path _ _ _ E).
Qed.

(* ================================================================== *)
(** * Deleting a node *)
(* ================================================================== *)

Lemma findIndex_split {A : Type} (p : A -> bool) (l : list A) (i : nat) :
  findIndex p l = Some i ->
  exists l1 x l2,
    l = (l1 ++ x :: l2)%list /\ p x = true /\ splice1 i l = (l1 ++ l2)%list /\
    List.length l1 = i /\ forallb (fun y => negb (p y)) l1 = true.
Proof.
  revert i. induction l as [|a l IH]; simpl; intros i; [discriminate|].
  destruct (p a) eqn:Ea.
  - intros [= <-]. exists [], a, l. auto.
  - destruct (findIndex p l) as [j|]; [|discriminate]. intros [= <-].
    destruct (IH j eq_refl) as (l1 & x & l2 & -> & Hx & Hs & Hl & Hf).
    exists (a :: l1), x, l2. simpl. rewrite Hs, Ea, Hf, Hl. auto.
Qed.

(** What a successful [delete(path)] removes: one node, the first child with
    that path of the folder which the parent part of the path resolves to,
    together with everything below it, in that one step.  The listing of
    [getAllFiles()] loses exactly the block of the files below that node and
    keeps the others in order, and the new tree is what the store holds. *)
Lemma delete_removes_block (path : string) (s s' : Service) :
  delete path s = (true, s') ->
  exists parent victim l1 l2 before after,
    findParentFolder (workspace s) path = Some parent /\
    children parent = (l1 ++ victim :: l2)%list /\
    node_path victim = path /\
    forallb (fun y => negb (String.eqb (node_path y) path)) l1 = true /\
    getAllFiles (root (workspace s)) = (before ++ filesOf victim ++ after)%list /\
    getAllFiles (root (workspace s')) = (before ++ after)%list /\
    (NoDup (getAllFiles (root (workspace s))) ->
     forall f, In f (filesOf victim) -> ~ In f (getAllFiles (root (workspace s')))) /\
    stored s' = Some (workspace s').
Proof.
  unfold delete. destruct (findParentFolder (workspace s) path) as [parent|] eqn:Ep;
    [|discriminate].
  destruct (findIndex _ (children parent)) as [index|] eqn:Ei; [|discriminate].
  intros [= <-].
  destruct (findIndex_split _ _ _ Ei) as (l1 & victim & l2 & Hch & Hv & Hs & _ & Hl1).
  unfold findParentFolder in Ep.
  destruct (findItemByPath (parentPathOf path) (root (workspace s))) as [[f|d]|] eqn:Ef;
    try discriminate.
  injection Ep as ->.
  destruct (mutate_found (parentPathOf path) (fun f => f) (spliceChild index) _ _ Ef)
    as (r' & Hm & _ & Hr).
  destruct (replaced_files _ _ _ _ Hr) as (b & a & Hb & Ha).
  destruct parent as [pi pn pp pch]. simpl in Hch. subst pch.
  change (children (mkVFolder pi pn pp (l1 ++ victim :: l2)))
    with (l1 ++ victim :: l2)%list in Hs.
  change (onNode (fun f : VFile => f) (spliceChild index)
            (inr (mkVFolder pi pn pp (l1 ++ victim :: l2))))
    with (@inr VFile VFolder (mkVFolder pi pn pp (splice1 index (l1 ++ victim :: l2))))
    in Ha.
  rewrite Hs in Ha.
  cbn [filesOf] in Hb, Ha. rewrite getAllFiles_unfold in Hb, Ha.
  rewrite filesOfList_app in Hb, Ha. cbn [filesOfList] in Hb.
  assert (Hbefore : getAllFiles (root (workspace s)) =
            ((b ++ filesOfList l1) ++ filesOf victim ++ (filesOfList l2 ++ a))%list).
  { rewrite Hb, <- !app_assoc. reflexivity. }
  assert (Hafter : getAllFiles r' = ((b ++ filesOfList l1) ++ (filesOfList l2 ++ a))%list).
  { rewrite Ha, <- !app_assoc. reflexivity. }
  exists (mkVFolder pi pn pp (l1 ++ victim :: l2)), victim, l1, l2,
    (b ++ filesOfList l1)%list, (filesOfList l2 ++ a)%list.
  rewrite Hm. cbn [saveWorkspace workspace root stored children].
  repeat split; auto.
  - apply String.eqb_eq. exact Hv.
  - intros Hnd f Hin Hin'. rewrite Hbefore in Hnd. rewrite Hafter in Hin'.
    set (A := (b ++ filesOfList l1)%list) in *.
    set (B := (filesOfList l2 ++ a)%list) in *.
    clearbody A B. clear -Hnd Hin Hin'.
    induction A as [|x A IH]; simpl in *.
    + induction (filesOf victim) as [|y V IHV]; simpl in *; [contradiction|].
      inversion Hnd as [|? ? Hy Hnd']; subst.
      destruct Hin as [->|Hin]; [apply Hy; apply in_or_app; auto | auto].
    + inversion Hnd as [|? ? Hx Hnd']; subst.
      destruct Hin' as [->|Hin']; [|auto].
      apply Hx. apply in_or_app. right. apply in_or_app. auto.
Qed.

(** The spec's example: [/src] holds three files, two of its own and one in
    a sub-folder; one [delete] removes all three from the listing. *)
Example delete_src_three_files :
  map file_path (getAllFiles (root (workspace threeFilesService)))
    = ["/src/main.cpp"; "/src/main.py"; "/src/util/helper.c"; "/README.md"] /\
  fst (delete "/src" threeFilesService) = true /\
  map file_path (getAllFiles (root (workspace (snd (delete "/src" threeFilesService)))))
    = ["/README.md"].
Proof. repeat split; reflexivity. Qed.

Lemma files_descend (d : VFolder) (f : VFile) :
  In f (getAllFiles d) -> descends (inl f) d.
Proof.
  induction d as [i n p ch IH] using VFolder_induction.
  rewrite getAllFiles_unfold. intros H. apply descends_inv.
  induction ch as [|h t IHt]; simpl in H; [contradiction|].
  apply in_app_or in H. destruct H as [H|H].
  - exists h. split; [left; reflexivity|].
    destruct h as [g|d]; simpl in H.
    + destruct H as [->|[]]. left. reflexivity.
    + right. exists d. split; [reflexivity|]. apply IH; [left; reflexivity | exact H].
  - destruct IHt as (c & Hc & Hv); auto.
    + intros d Hd. apply IH. right. exact Hd.
    + exists c. split; [right; exact Hc | exact Hv].
Qed.

Lemma filesOf_via (c : Node) (f : VFile) : In f (filesOf c) -> via c (inl f).
Proof.
  destruct c as [g|d]; simpl.
  - intros [->|[]]. left. reflexivity.
  - intros H. right. exists d. split; [reflexivity | apply files_descend; exact H].
Qed.

(** No file stands twice in the listing of a sound folder. *)
Lemma getAllFiles_NoDup (d : VFolder) :
  sound d = true -> NoDup (getAllFiles d).
Proof.
  induction d as [i n p ch IH] using VFolder_induction.
  intros Hs. rewrite getAllFiles_unfold.
  destruct (sound_children _ _ _ _ Hs) as [Hu Hok]. clear Hs.
  induction ch as [|h t IHt]; simpl; [constructor|].
  assert (Hh : childOk p h) by (apply Hok; left; reflexivity).
  apply NoDup_app.
  - destruct h as [g|d]; simpl.
    + constructor; [intros [] | constructor].
    + apply IH; [left; reflexivity|]. destruct Hh as (_ & _ & Hsd). exact Hsd.
  - apply IHt.
    + intros d Hd. apply IH. right. exact Hd.
    + simpl in Hu. apply andb_true_iff in Hu. tauto.
    + intros y Hy. apply Hok. right. exact Hy.
  - intros f Hf Hft.
    assert (Hc : exists c, In c t /\ In f (filesOf c)).
    { clear -Hft. induction t as [|c t IHc]; simpl in Hft; [contradiction|].
      apply in_app_or in Hft. destruct Hft as [H|H].
      - exists c. split; [left; reflexivity | exact H].
      - destruct (IHc H) as (c' & Hc' & Hf'). exists c'. split; [right|]; assumption. }
    destruct Hc as (c & Hc & Hfc).
    assert (Hcok : childOk p c) by (apply Hok; right; exact Hc).
    apply (within_apart p h c (file_path f) Hh Hcok (names_apart h t c Hu Hc)).
    + exact (via_within p h (inl f) Hh (filesOf_via _ _ Hf)).
    + exact (via_within p c (inl f) Hcok (filesOf_via _ _ Hfc)).
Qed.

Lemma findIndex_none {A : Type} (p : A -> bool) (l : list A) :
  findIndex p l = None -> forall x, In x l -> p x = false.
Proof.
  induction l as [|a l IH]; simpl; [contradiction|].
  destruct (p a) eqn:Ea; [discriminate|].
  destruct (findIndex p l); [discriminate|].
  intros _ x [->|Hx]; [exact Ea | exact (IH eq_refl x Hx)].
Qed.

(** The claim as stated fails for a folder whose path is not its parent's
    path joined with its name, and for the root.  The explorer creates a
    folder under the name [a/b] (folder names are not validated) and a
    file in it; [delete('/a/b')] looks for the parent at [/a], finds none,
    returns false and removes nothing.  [delete('/')] returns false and
    leaves the files of the root. *)
Lemma delete_removes_subtree_counterexample :
  let st :=
    Explorer.handleCreateItem "a/b" "i6"
      (Explorer.mkState (Some ("/", Explorer.folder)) freshService [] []) in
  let s := snd (createFile "/a/b" "x.py" None "i7" (Explorer.service st)) in
  let x := mkVFile "i7" "x.py" "/a/b/x.py" python (DEFAULT_CODE python) false in
  Explorer.toasts st = [Explorer.ToastSuccess "Created folder a/b"] /\
  findItemByPath "/a/b" (root (workspace s))
    = Some (inr (mkVFolder "i6" "a/b" "/a/b" [inl x])) /\
  getAllFiles (mkVFolder "i6" "a/b" "/a/b" [inl x]) = [x] /\
  delete "/a/b" s = (false, s) /\
  map file_path (getAllFiles (root (workspace (snd (delete "/a/b" s)))))
    = ["/src/main.cpp"; "/src/main.py"; "/README.md"; "/a/b/x.py"] /\
  wellFormed (root (workspace s)) = false /\
  findItemByPath "/" (root (workspace freshService))
    = Some (inr (root (workspace freshService))) /\
  delete "/" freshService = (false, freshService) /\
  map file_path (getAllFiles (root (workspace (snd (delete "/" freshService)))))
    = ["/src/main.cpp"; "/src/main.py"; "/README.md"].
Proof. vm_compute. repeat split; reflexivity. Qed.

(** C8, as the code has it.  In a well-formed workspace, [delete(path)] on
    a folder other than the root returns [true] and removes that folder
    with its whole subtree in the one step: the listing of [getAllFiles()]
    loses exactly the block of the N files below the folder and keeps the
    others in order, none of those N files is in the listing afterwards,
    and the new tree is what the store holds. *)
Theorem delete_removes_subtree (path : string) (s : Service) (folder : VFolder) :
  wellFormed (root (workspace s)) = true ->
  findItemByPath path (root (workspace s)) = Some (inr folder) ->
  folder <> root (workspace s) ->
  exists s' before after,
    delete path s = (true, s') /\
    getAllFiles (root (workspace s)) = (before ++ getAllFiles folder ++ after)%list /\
    getAllFiles (root (workspace s')) = (before ++ after)%list /\
    (forall f, In f (getAllFiles folder) -> ~ In f (getAllFiles (root (workspace s')))) /\
    stored s' = Some (workspace s').
Proof.
  intros Hw Hf Hne.
  assert (Hne' : inr folder <> (inr (root (workspace s)) : Node)) by congruence.
  destruct (wellFormed_node _ _ _ Hw Hf Hne') as (parent & Hp & Hin & Hsp & Hj & Hok).
  pose proof (findItemByPath_path _ _ _ Hf) as Hpath.
  assert (Hd : delete path s = (true, snd (delete path s))).
  { unfold delete. rewrite Hp.
    destruct (findIndex _ (children parent)) as [index|] eqn:Ei; [reflexivity|].
    pose proof (findIndex_none _ _ Ei _ Hin) as Hx. cbn beta in Hx.
    rewrite Hpath, String.eqb_refl in Hx. discriminate. }
  destruct (delete_removes_block path s _ Hd)
    as (parent' & victim & l1 & l2 & before & after
        & Hp' & Hch & Hv & _ & Hb & Ha & Hnd & Hst).
  rewrite Hp in Hp'. injection Hp' as <-.
  assert (Hvictim : victim = inr folder).
  { destruct parent as [pi pn pp pch]. cbn [children] in *.
    destruct (sound_children _ _ _ _ Hsp) as [Hu Hcok].
    assert (Hvin : In victim pch) by (rewrite Hch; apply in_or_app; right; left; reflexivity).
    apply (namesUnique_inj node_name pch victim (inr folder) Hu Hvin Hin).
    destruct (Hcok _ Hvin) as (Hpv & _ & _). destruct (Hcok _ Hin) as (Hpi & _ & _).
    rewrite Hv, <- Hpath, Hpi in Hpv. apply append_cancel in Hpv. auto. }
  subst victim. cbn [filesOf] in *.
  exists (snd (delete path s)), before, after.
  repeat split; auto.
  apply Hnd. apply getAllFiles_NoDup.
  unfold wellFormed in Hw. apply andb_true_iff in Hw. tauto.
Qed.

Lemma delete_removes_subtree_witness :
  let src := mkVFolder "i1" "src" "/src"
    [inl (mkVFile "i2" "main.cpp" "/src/main.cpp" cpp (DEFAULT_CODE cpp) true);
     inl (mkVFile "i3" "main.py" "/src/main.py" python (DEFAULT_CODE python) true);
     inr (mkVFolder "i6" "util" "/src/util"
            [inl (mkVFile "i7" "helper.c" "/src/util/helper.c" c (DEFAULT_CODE c) false)])] in
  findItemByPath "/src" (root (workspace threeFilesService)) = Some (inr src) /\
  exists s' before after,
    delete "/src" threeFilesService = (true, s') /\
    getAllFiles (root (workspace threeFilesService))
      = (before ++ getAllFiles src ++ after)%list /\
    getAllFiles (root (workspace s')) = (before ++ after)%list /\
    (forall f, In f (getAllFiles src) -> ~ In f (getAllFiles (root (workspace s')))) /\
    stored s' = Some (workspace s').
Proof.
  intros src. split; [reflexivity|].
  apply (delete_removes_subtree "/src" threeFilesService src).
  - reflexivity.
  - reflexivity.
  - discriminate.
Defined.

(* ================================================================== *)
(** * Language inference and the validated creation path *)
(* ================================================================== *)

Lemma push_path x d : folder_path (push x d) = folder_path d.
Proof. destruct d; reflexivity. Qed.

Lemma push_children x d : children (push x d) = (children d ++ [x])%list.
Proof. destruct d; reflexivity. Qed.

(** Creating a file in a folder that has no child of that name: the file
    returned is the last child of the folder afterwards. *)
Lemma createFile_ok parentPath name lang newId s parent :
  findItemByPath parentPath (root (workspace s)) = Some (inr parent) ->
  hasChildNamed name parent = false ->
  let l := match lang with Some l => l | None => getLanguageFromExtension name end in
  let f := mkVFile newId name (joinPath parentPath name) l (DEFAULT_CODE l) false in
  exists s',
    createFile parentPath name lang newId s = (Returned (Some f), s') /\
    stored s' = Some (workspace s') /\
    replaced (inr parent) (inr (push (inl f) parent))
      (inr (root (workspace s))) (inr (root (workspace s'))) /\
    list_children parentPath s' = (children parent ++ [inl f])%list.
Proof.
  intros Hp Hc l f. unfold createFile. rewrite Hp, Hc. fold l. fold f.
  destruct (mutate_found parentPath (fun x => x) (push (inl f)) _ _ Hp)
    as (r' & Hm & Hu & Hr).
  eexists. split; [reflexivity|]. rewrite Hm. cbn [saveWorkspace workspace stored root].
  split; [reflexivity|]. split; [exact Hr|].
  unfold list_children, saveWorkspace. cbn [workspace root].
  rewrite (find_after_update parentPath (fun x => x) (push (inl f)) _ r' _ Hp); auto.
  - cbn [onNode]. apply push_children.
  - cbn [onNode node_path]. rewrite push_path.
    exact (findItemByPath_path _ _ _ Hp).
Qed.

(** C4. Creating [main.py] with no language given yields a file whose
    language is python, from the extension table, and the file is in its
    folder afterwards.  In the explorer's creation path a file name whose
    extension is not one of the allowed ones, such as [x.unknown], is
    answered with the validation toast and nothing else: the service (tree
    and store) stays as it was and no file is handed on. *)
Theorem language_inference_and_validation :
  (forall parentPath newId s parent,
     findItemByPath parentPath (root (workspace s)) = Some (inr parent) ->
     hasChildNamed "main.py" parent = false ->
     exists f s',
       createFile parentPath "main.py" None newId s = (Returned (Some f), s') /\
       language f = python /\ file_name f = "main.py" /\
       In (inl f) (list_children parentPath s')) /\
  (forall st parentPath name newId,
     Explorer.newItemParent st = Some (parentPath, Explorer.file) ->
     truthy (trim name) = true ->
     allowedName name = false ->
     Explorer.handleCreateItem name newId st =
       Explorer.mkState None (Explorer.service st)
         (Explorer.toasts st ++
          [Explorer.ToastError
             "Only C++, C, Java, Python, and JavaScript files are allowed"])
         (Explorer.selected st)) /\
  allowedName "x.unknown" = false.
Proof.
  split; [|split; [|reflexivity]].
  - intros parentPath newId s parent Hp Hc.
    destruct (createFile_ok parentPath "main.py" None newId s parent Hp Hc)
      as (s' & Hcreate & _ & _ & Hl).
    eexists. exists s'. split; [exact Hcreate|].
    split; [reflexivity|]. split; [reflexivity|].
    rewrite Hl. apply in_or_app. right. left. reflexivity.
  - intros st parentPath name newId Hp Hn Ha.
    unfold Explorer.handleCreateItem. rewrite Hp, Hn. cbn [negb].
    unfold allowedName, extension in Ha.
    destruct (option_map toLowerCase (pop (split "." name))) as [e|].
    + destruct (truthy e); cbn [andb negb orb] in *; [rewrite Ha|]; reflexivity.
    + reflexivity.
Qed.

Lemma language_inference_and_validation_witness :
  (exists f s',
     createFile "/" "main.py" None "i9" freshService = (Returned (Some f), s') /\
     language f = python /\ file_name f = "main.py" /\
     In (inl f) (list_children "/" s')) /\
  Explorer.handleCreateItem "x.unknown" "i9"
    (Explorer.mkState (Some ("/", Explorer.file)) freshService [] [])
  = Explorer.mkState None freshService
      [Explorer.ToastError "Only C++, C, Java, Python, and JavaScript files are allowed"]
      [].
Proof.
  split.
  - apply (proj1 language_inference_and_validation "/" "i9" freshService
             (root (workspace freshService))); reflexivity.
  - apply (proj1 (proj2 language_inference_and_validation)
             (Explorer.mkState (Some ("/", Explorer.file)) freshService [] [])
             "/" "x.unknown" "i9"); reflexivity.
Defined.

(** The creation path hands the service the language of the extension, and
    the two extension tables agree. *)
Lemma getLanguageFromExtension_agree name :
  FileUtils.getLanguageFromExtension name = getLanguageFromExtension name.
Proof. reflexivity. Qed.

(** The service on its own does not validate: it falls back to cpp. *)
Example createFile_unknown_extension_falls_back :
  exists f s',
    createFile "/" "x.unknown" None "i9" freshService = (Returned (Some f), s') /\
    language f = cpp.
Proof. eexists. eexists. split; reflexivity. Qed.

(* ================================================================== *)
(** * Renaming a folder *)
(* ================================================================== *)

(** C1, at the spec's own example.  The tree built by [createFolder] and
    [createFile] satisfies the path invariant.  Renaming [/src] to [lib]
    succeeds and gives the folder the path [/lib], but the file below keeps
    the path [/src/a.py]: the invariant no longer holds, nothing is found at
    [/lib/a.py], and the file can be neither deleted nor renamed through the
    path it still carries, since that path's parent part resolves to
    nothing. *)
Theorem rename_folder_keeps_descendant_paths :
  let after := rename "/src" "lib" srcService in
  pathsJoin (root (workspace srcService)) = true /\
  fst after = Returned true /\
  map node_path (list_children "/" (snd after)) = ["/lib"] /\
  map node_path (list_children "/lib" (snd after)) = ["/src/a.py"] /\
  pathsJoin (root (workspace (snd after))) = false /\
  readFile "/lib/a.py" (snd after) = None /\
  fst (delete "/src/a.py" (snd after)) = false /\
  fst (rename "/src/a.py" "b.py" (snd after)) = Returned false.
Proof. vm_compute. repeat split; reflexivity. Qed.

(** The part of the invariant that [rename] does establish: the renamed
    node itself gets the path of its parent part joined with the new name. *)
Example rename_file_recomputes_its_path :
  let after := rename "/src/a.py" "b.js" srcService in
  fst after = Returned true /\
  pathsJoin (root (workspace (snd after))) = true /\
  option_map file_path (readFile "/src/b.js" (snd after)) = Some "/src/b.js" /\
  option_map language (readFile "/src/b.js" (snd after)) = Some javascript.
Proof. vm_compute. repeat split; reflexivity. Qed.

(* ================================================================== *)
(** * The root folder *)
(* ================================================================== *)

Lemma parentPathOf_root : parentPathOf "/" = "/".
Proof. reflexivity. Qed.

(** [delete('/')] is refused: the root is no child of itself. *)
Lemma delete_root_refused (s : Service) :
  folder_path (root (workspace s)) = "/" ->
  forallb (fun child => negb (String.eqb (node_path child) "/"))
    (children (root (workspace s))) = true ->
  delete "/" s = (false, s).
Proof.
  intros Hp Hc. unfold delete, findParentFolder. rewrite parentPathOf_root.
  destruct (root (workspace s)) as [i n p ch] eqn:Er.
  rewrite findItemByPath_unfold. simpl in Hp, Hc. subst p. simpl.
  assert (Hi : findIndex (fun child : Node => String.eqb (node_path child) "/") ch = None).
  { clear Er. induction ch as [|x ch IH]; simpl in *; [reflexivity|].
    apply andb_true_iff in Hc. destruct Hc as [Hx Hc].
    apply negb_true_iff in Hx. rewrite Hx, (IH Hc). reflexivity. }
  rewrite Hi. reflexivity.
Qed.

(** X5. In a well-formed workspace [delete('/')] returns [false] and
    changes nothing. *)
Lemma delete_root_refused_wellFormed (s : Service) :
  wellFormed (root (workspace s)) = true -> delete "/" s = (false, s).
Proof.
  unfold wellFormed. intros Hw. apply andb_true_iff in Hw. destruct Hw as [Hroot Hs].
  apply String.eqb_eq in Hroot. apply delete_root_refused; [exact Hroot|].
  destruct (root (workspace s)) as [i n p ch]. cbn [children folder_path] in *.
  destruct (sound_children _ _ _ _ Hs) as [_ Hok].
  apply forallb_forall. intros x Hx. destruct (Hok x Hx) as (Hp & Hn & _).
  apply negb_true_iff, String.eqb_neq. rewrite Hp, Hroot.
  destruct (nameOk_parts _ Hn) as [Hne _].
  intros E. apply (sepPrefix_longer "/" (node_name x) Hne). exact E.
Qed.

Lemma delete_root_refused_wellFormed_witness :
  delete "/" freshService = (false, freshService).
Proof. apply (delete_root_refused_wellFormed freshService). reflexivity. Defined.

(** [rename('/', newName)] goes through: the root is its own parent part.
    Unless a child of the root bears the new name, the root gets that name
    and the path ['/' + newName]. *)
Lemma rename_root_goes_through (newName : string) (s : Service) :
  folder_path (root (workspace s)) = "/" ->
  hasChildNamed newName (root (workspace s)) = false ->
  rename "/" newName s =
    (Returned true,
     saveWorkspace
       (mkWorkspace (mkVFolder (folder_id (root (workspace s))) newName ("/" ++ newName)
                       (children (root (workspace s)))))).
Proof.
  intros Hp Hc. unfold rename, findParentFolder. rewrite parentPathOf_root.
  destruct (root (workspace s)) as [i n p ch] eqn:Er.
  simpl in Hp. subst p. rewrite findItemByPath_unfold. simpl String.eqb. cbn iota.
  unfold hasChildNamed in Hc. cbn [children] in *.
  assert (He : existsb (fun child : Node =>
                 String.eqb (node_name child) newName
                 && negb (String.eqb (node_path child) "/")) ch = false).
  { clear Er. induction ch as [|x ch IH]; simpl in *; [reflexivity|].
    apply orb_false_iff in Hc. destruct Hc as [Hx Hc].
    rewrite Hx, (IH Hc). reflexivity. }
  rewrite He. unfold mutate. rewrite Er, updateItemByPath_unfold. reflexivity.
Qed.

(** C2, at the rename.  On the default workspace [rename('/', 'x')] returns
    [true]; the root then has the name [x] and the path [/x]; nothing is
    found at [/] any more, so creating a file in the root returns [null] and
    the folder [/src] can no longer be deleted or renamed.  Deleting [/]
    beforehand is refused and changes nothing. *)
Theorem rename_root_changes_root :
  let after := rename "/" "x" freshService in
  folder_path (root (workspace freshService)) = "/" /\
  delete "/" freshService = (false, freshService) /\
  fst after = Returned true /\
  folder_name (root (workspace (snd after))) = "x" /\
  folder_path (root (workspace (snd after))) = "/x" /\
  findItemByPath "/" (root (workspace (snd after))) = None /\
  fst (createFile "/" "new.py" None "i9" (snd after)) = Returned None /\
  fst (delete "/src" (snd after)) = false /\
  fst (rename "/src" "lib" (snd after)) = Returned false.
Proof. vm_compute. repeat split; reflexivity. Qed.

(* ================================================================== *)
(** * Sibling names *)
(* ================================================================== *)

(** A collision is reported before anything is touched. *)
Lemma createFile_collision parentPath name lang newId s parent :
  findItemByPath parentPath (root (workspace s)) = Some (inr parent) ->
  hasChildNamed name parent = true ->
  createFile parentPath name lang newId s =
    (Thrown ("File " ++ dq ++ name ++ dq ++ " already exists in this folder"), s).
Proof. intros Hp Hc. unfold createFile. rewrite Hp, Hc. reflexivity. Qed.

Lemma createFolder_collision parentPath name newId s parent :
  findItemByPath parentPath (root (workspace s)) = Some (inr parent) ->
  hasChildNamed name parent = true ->
  createFolder parentPath name newId s =
    (Thrown ("Folder " ++ dq ++ name ++ dq ++ " already exists in this folder"), s).
Proof. intros Hp Hc. unfold createFolder. rewrite Hp, Hc. reflexivity. Qed.

Lemma rename_collision path newName s item parent :
  findItemByPath path (root (workspace s)) = Some item ->
  findParentFolder (workspace s) path = Some parent ->
  existsb (fun child => String.eqb (node_name child) newName
                        && negb (String.eqb (node_path child) path))
    (children parent) = true ->
  rename path newName s = (Thrown (dq ++ newName ++ dq ++ " already exists in this folder"), s).
Proof. intros Hi Hp Hc. unfold rename. rewrite Hi, Hp, Hc. reflexivity. Qed.

(** Whatever is thrown, the service (tree and store) is as before. *)
Lemma thrown_leaves_service (s : Service) :
  (forall parentPath name lang newId message,
     fst (createFile parentPath name lang newId s) = Thrown message ->
     snd (createFile parentPath name lang newId s) = s) /\
  (forall parentPath name newId message,
     fst (createFolder parentPath name newId s) = Thrown message ->
     snd (createFolder parentPath name newId s) = s) /\
  (forall path newName message,
     fst (rename path newName s) = Thrown message ->
     snd (rename path newName s) = s).
Proof.
  repeat split.
  - intros parentPath name lang newId message. unfold createFile.
    destruct (findItemByPath parentPath (root (workspace s))) as [[f|d]|];
      try reflexivity.
    destruct (hasChildNamed name d); [reflexivity | discriminate].
  - intros parentPath name newId message. unfold createFolder.
    destruct (findItemByPath parentPath (root (workspace s))) as [[f|d]|];
      try reflexivity.
    destruct (hasChildNamed name d); [reflexivity | discriminate].
  - intros path newName message. unfold rename.
    destruct (findItemByPath path (root (workspace s))); [|reflexivity].
    destruct (findParentFolder (workspace s) path); [|reflexivity].
    destruct (existsb _ _); [reflexivity | discriminate].
Qed.

(** C3, where it breaks.  On the default workspace, whose sibling names are
    unique and whose paths satisfy the invariant: rename [/src] to [lib],
    create a new folder [/src], then rename the file that still carries the
    path [/src/main.cpp] to [main.py].  No call throws; the collision check
    of the last one looks into the new, empty [/src], while the file renamed
    lies in [/lib], which then has two children named [main.py]. *)
Theorem rename_after_folder_rename_duplicates_names :
  let s1 := rename "/src" "lib" freshService in
  let s2 := createFolder "/" "src" "i6" (snd s1) in
  let s3 := rename "/src/main.cpp" "main.py" (snd s2) in
  siblingsUnique (root (workspace freshService)) = true /\
  pathsJoin (root (workspace freshService)) = true /\
  fst s1 = Returned true /\
  fst s2 = Returned (Some (mkVFolder "i6" "src" "/src" [])) /\
  fst s3 = Returned true /\
  map node_name (list_children "/lib" (snd s3)) = ["main.py"; "main.py"] /\
  siblingsUnique (root (workspace (snd s3))) = false.
Proof. vm_compute. repeat split; reflexivity. Qed.

(** The collisions that are caught, on the default workspace. *)
Example collisions_caught :
  createFile "/src" "main.py" None "i9" freshService
    = (Thrown ("File " ++ dq ++ "main.py" ++ dq ++ " already exists in this folder"),
       freshService) /\
  createFolder "/" "src" "i9" freshService
    = (Thrown ("Folder " ++ dq ++ "src" ++ dq ++ " already exists in this folder"),
       freshService) /\
  rename "/src/main.cpp" "main.py" freshService
    = (Thrown (dq ++ "main.py" ++ dq ++ " already exists in this folder"), freshService).
Proof. repeat split; reflexivity. Qed.

(* ================================================================== *)
(** * What keeps a workspace well-formed *)
(* ================================================================== *)

Lemma below_sound (x : Node) :
  below sound x = true <->
  below pathsJoin x = true /\ below siblingsUnique x = true /\ below namesOk x = true.
Proof.
  destruct x as [f|d]; cbn [below]; [tauto|]. unfold sound.
  rewrite !andb_true_iff. tauto.
Qed.

Lemma sound_intro i n p ch :
  namesUnique (map node_name ch) = true ->
  (forall x, In x ch -> childOk p x) ->
  sound (mkVFolder i n p ch) = true.
Proof.
  intros Hu Hok. unfold sound.
  rewrite pathsJoin_unfold, siblingsUnique_unfold, namesOk_unfold, Hu.
  rewrite !andb_true_iff. repeat split; auto; apply forallb_forall; intros x Hx;
    destruct (Hok x Hx) as (Hp & Hn & Hs); apply below_sound in Hs;
    destruct Hs as (H1 & H2 & H3); auto.
  - unfold joined. rewrite joinPath_sep, Hp, String.eqb_refl, H1. reflexivity.
  - rewrite Hn, H3. reflexivity.
Qed.

(** Replacing a node by one of the same path and name that is sound when
    the node was keeps the tree sound. *)
Lemma replaced_sound n n' t t' :
  replaced n n' t t' ->
  node_path n' = node_path n -> node_name n' = node_name n ->
  (below sound n = true -> below sound n' = true) ->
  below sound t = true -> below sound t' = true.
Proof.
  intros H Hp Hn Hstep. induction H as [|i nm p l1 x x' l2 Hr IH]; [exact Hstep|].
  destruct (replaced_head _ _ _ _ Hr Hp Hn) as [Hxp Hxn].
  cbn [below]. intros Hs. destruct (sound_children _ _ _ _ Hs) as [Hu Hok].
  apply sound_intro.
  - rewrite map_app in *. cbn [map] in *. rewrite Hxn. exact Hu.
  - intros y Hy. apply in_app_or in Hy. destruct Hy as [Hy|[<-|Hy]].
    + apply Hok. apply in_or_app. left. exact Hy.
    + destruct (Hok x) as (H1 & H2 & H3); [apply in_or_app; right; left; reflexivity|].
      unfold childOk. rewrite Hxp, Hxn. auto.
    + apply Hok. apply in_or_app. right. right. exact Hy.
Qed.

Lemma wellFormed_replaced (r r' : VFolder) (n n' : Node) :
  replaced n n' (inr r) (inr r') ->
  node_path n' = node_path n -> node_name n' = node_name n ->
  (below sound n = true -> below sound n' = true) ->
  wellFormed r = true -> wellFormed r' = true.
Proof.
  intros Hr Hp Hn Hstep Hw. unfold wellFormed in *.
  apply andb_true_iff in Hw. destruct Hw as [Hroot Hs]. apply andb_true_iff. split.
  - destruct (replaced_head _ _ _ _ Hr Hp Hn) as [E _]. cbn [node_path] in E.
    rewrite E. exact Hroot.
  - exact (replaced_sound _ _ _ _ Hr Hp Hn Hstep Hs).
Qed.

Lemma push_sound (x : Node) (d : VFolder) :
  childOk (folder_path d) x ->
  hasChildNamed (node_name x) d = false ->
  sound d = true -> sound (push x d) = true.
Proof.
  destruct d as [i n p ch]. unfold hasChildNamed. cbn [push children folder_path].
  intros Hx Hc Hs. destruct (sound_children _ _ _ _ Hs) as [Hu Hok].
  apply sound_intro.
  - rewrite map_app. apply namesUnique_snoc; [exact Hu|].
    rewrite existsb_names. exact Hc.
  - intros y Hy. apply in_app_or in Hy. destruct Hy as [Hy|[<-|[]]]; auto.
Qed.

(** X1. From a well-formed workspace, [createFile] and [createFolder] with
    a proper name, [writeFile] and [delete] lead to a well-formed workspace. *)
Theorem wellFormed_kept (s : Service) :
  wellFormed (root (workspace s)) = true ->
  (forall parentPath name lang newId,
     nameOk name = true ->
     wellFormed (root (workspace (snd (createFile parentPath name lang newId s)))) = true) /\
  (forall parentPath name newId,
     nameOk name = true ->
     wellFormed (root (workspace (snd (createFolder parentPath name newId s)))) = true) /\
  (forall path text,
     wellFormed (root (workspace (snd (writeFile path text s)))) = true) /\
  (forall path,
     wellFormed (root (workspace (snd (delete path s)))) = true).
Proof.
  intros Hw. repeat split.
  - intros parentPath name lang newId Hn. unfold createFile.
    destruct (findItemByPath parentPath (root (workspace s))) as [[f|d]|] eqn:E;
      try exact Hw.
    destruct (hasChildNamed name d) eqn:Hc; [exact Hw|]. cbn [snd].
    set (x := inl (mkVFile _ _ _ _ _ _) : Node).
    destruct (mutate_found parentPath (fun f => f) (push x) _ _ E) as (r' & -> & _ & Hr).
    pose proof (findItemByPath_path _ _ _ E) as Hp. cbn [node_path] in Hp.
    apply (wellFormed_replaced _ r' _ _ Hr); auto.
    + cbn [onNode node_path]. apply push_path.
    + destruct d; reflexivity.
    + cbn [onNode below]. apply push_sound; [|exact Hc].
      unfold childOk. cbn [x node_path node_name file_path file_name below].
      rewrite Hp, joinPath_sep. auto.
  - intros parentPath name newId Hn. unfold createFolder.
    destruct (findItemByPath parentPath (root (workspace s))) as [[f|d]|] eqn:E;
      try exact Hw.
    destruct (hasChildNamed name d) eqn:Hc; [exact Hw|]. cbn [snd].
    set (x := inr (mkVFolder _ _ _ _) : Node).
    destruct (mutate_found parentPath (fun f => f) (push x) _ _ E) as (r' & -> & _ & Hr).
    pose proof (findItemByPath_path _ _ _ E) as Hp. cbn [node_path] in Hp.
    apply (wellFormed_replaced _ r' _ _ Hr); auto.
    + cbn [onNode node_path]. apply push_path.
    + destruct d; reflexivity.
    + cbn [onNode below]. apply push_sound; [|exact Hc].
      unfold childOk. cbn [x node_path node_name folder_path folder_name below].
      rewrite Hp, joinPath_sep. auto.
  - intros path text. unfold writeFile, readFile.
    destruct (findItemByPath path (root (workspace s))) as [[f|d]|] eqn:E;
      try exact Hw.
    cbn [snd].
    destruct (mutate_found path (setContent text) (fun d => d) _ _ E) as (r' & -> & _ & Hr).
    apply (wellFormed_replaced _ r' _ _ Hr); auto.
  - intros path. unfold delete.
    destruct (findParentFolder (workspace s) path) as [parent|] eqn:Ep; [|exact Hw].
    destruct (findIndex _ (children parent)) as [index|] eqn:Ei; [|exact Hw].
    cbn [snd].
    destruct (findIndex_split _ _ _ Ei) as (l1 & victim & l2 & Hch & _ & Hs & _ & _).
    unfold findParentFolder in Ep.
    destruct (findItemByPath (parentPathOf path) (root (workspace s))) as [[f|d]|] eqn:Ef;
      try discriminate.
    injection Ep as ->.
    destruct (mutate_found (parentPathOf path) (fun f => f) (spliceChild index) _ _ Ef)
      as (r' & -> & _ & Hr).
    destruct parent as [pi pn pp pch]. cbn [children] in Hch, Hs. subst pch.
    change (onNode (fun f : VFile => f) (spliceChild index)
              (inr (mkVFolder pi pn pp (l1 ++ victim :: l2))))
      with (@inr VFile VFolder (mkVFolder pi pn pp (splice1 index (l1 ++ victim :: l2))))
      in Hr.
    rewrite Hs in Hr.
    apply (wellFormed_replaced _ r' _ _ Hr); auto. cbn [below].
    intros Hsd. destruct (sound_children _ _ _ _ Hsd) as [Hu Hok].
    apply sound_intro.
    + rewrite map_app in *. cbn [map] in Hu. exact (namesUnique_remove _ _ _ Hu).
    + intros y Hy. apply Hok. apply in_app_or in Hy. apply in_or_app.
      destruct Hy; [left | right; right]; assumption.
Qed.

Lemma wellFormed_kept_witness :
  wellFormed (root (workspace (snd (createFile "/src" "app.js" None "i9" freshService))))
    = true /\
  wellFormed (root (workspace (snd (createFolder "/" "lib" "i9" freshService)))) = true /\
  wellFormed (root (workspace (snd (writeFile "/src/main.py" "pass" freshService))))
    = true /\
  wellFormed (root (workspace (snd (delete "/src" freshService)))) = true.
Proof.
  destruct (wellFormed_kept freshService eq_refl) as (H1 & H2 & H3 & H4).
  split; [apply H1; reflexivity|]. split; [apply H2; reflexivity|].
  split; [apply H3 | apply H4].
Defined.

(** ** Renaming a file or an empty folder *)

Lemma renamedPath_last (a n m : string) :
  hasChar "/" n = false ->
  renamedPath (a ++ String "/" n) m = a ++ String "/" m.
Proof.
  intros H. unfold renamedPath, lastIndexOf, JS.substring, clampIndex.
  rewrite (lastIndex_last _ a n H), length_append. simpl String.length.
  replace (Z.to_nat (Z.min (Z.max 0 0) (Z.of_nat (String.length a + S (String.length n)))))
    with 0 by lia.
  replace (Z.to_nat (Z.min (Z.max (Z.of_nat (String.length a) + 1) 0)
                       (Z.of_nat (String.length a + S (String.length n)))))
    with (String.length (a ++ "/")) by (rewrite length_append; simpl; lia).
  rewrite Nat.min_0_l, Nat.max_0_l, Nat.sub_0_r.
  change (a ++ String "/" n) with (a ++ ("/" ++ n)).
  rewrite <- append_assoc, substring_head, append_assoc. reflexivity.
Qed.

Lemma renamedPath_sep (p n m : string) :
  hasChar "/" n = false ->
  renamedPath (sepPrefix p ++ n) m = sepPrefix p ++ m.
Proof.
  intros H. unfold sepPrefix. destruct (String.eqb p "/").
  - exact (renamedPath_last EmptyString n m H).
  - rewrite !append_assoc. exact (renamedPath_last p n m H).
Qed.

(** The folder in which a replacement takes place. *)
Lemma replaced_at_parent n n' x x' :
  replaced n n' x x' ->
  forall i nm p l1 l2,
  exists fi fn fp k1 k2,
    (mkVFolder fi fn fp (k1 ++ n :: k2) = mkVFolder i nm p (l1 ++ x :: l2)
     \/ descends (inr (mkVFolder fi fn fp (k1 ++ n :: k2)))
          (mkVFolder i nm p (l1 ++ x :: l2))) /\
    replaced (inr (mkVFolder fi fn fp (k1 ++ n :: k2)))
      (inr (mkVFolder fi fn fp (k1 ++ n' :: k2)))
      (inr (mkVFolder i nm p (l1 ++ x :: l2)))
      (inr (mkVFolder i nm p (l1 ++ x' :: l2))).
Proof.
  induction 1 as [|i0 nm0 p0 m1 y y' m2 Hr IH]; intros i nm p l1 l2.
  - exists i, nm, p, l1, l2. split; [left; reflexivity | apply replaced_here].
  - destruct (IH i0 nm0 p0 m1 m2) as (fi & fn & fp & k1 & k2 & Hw & Hrep).
    exists fi, fn, fp, k1, k2. split.
    + right. destruct Hw as [->|Hw].
      * apply descends_child. apply in_or_app. right. left. reflexivity.
      * eapply descends_deeper; [|exact Hw]. apply in_or_app. right. left. reflexivity.
    + apply replaced_child. exact Hrep.
Qed.

Lemma descends_sound (r d : VFolder) :
  sound r = true -> descends (inr d) r -> sound d = true.
Proof.
  intros Hs Hd. remember (inr d : Node) as x eqn:Ex.
  induction Hd as [i n p ch Hx | d' i n p ch Hd' Hxd IH]; subst x.
  - destruct (sound_children _ _ _ _ Hs) as [_ Hok].
    destruct (Hok _ Hx) as (_ & _ & H). exact H.
  - destruct (sound_children _ _ _ _ Hs) as [_ Hok].
    destruct (Hok _ Hd') as (_ & _ & H). apply IH; auto.
Qed.

Lemma namesUnique_middle (k1 k2 : list string) (a b : string) :
  namesUnique (k1 ++ a :: k2) = true ->
  existsb (String.eqb b) (k1 ++ k2) = false ->
  namesUnique (k1 ++ b :: k2) = true.
Proof.
  induction k1 as [|x k1 IH]; simpl.
  - intros H Hb. apply andb_true_iff in H. destruct H as [_ H]. rewrite Hb, H. reflexivity.
  - intros H Hb. apply andb_true_iff in H. destruct H as [Hx H].
    apply orb_false_iff in Hb. destruct Hb as [Hbx Hb].
    rewrite (IH H Hb). apply negb_true_iff in Hx.
    rewrite existsb_app in Hx |- *. simpl in Hx |- *.
    apply orb_false_iff in Hx. destruct Hx as [H1 H2].
    apply orb_false_iff in H2. destruct H2 as [_ H2].
    rewrite H1, H2, String.eqb_sym, Hbx. reflexivity.
Qed.

Lemma namesUnique_others (k1 k2 : list string) (a y : string) :
  namesUnique (k1 ++ a :: k2) = true -> In y (k1 ++ k2) -> y <> a.
Proof.
  induction k1 as [|x k1 IH]; simpl.
  - intros H Hy ->. apply andb_true_iff in H. destruct H as [H _].
    apply negb_true_iff in H.
    assert (existsb (String.eqb a) k2 = true).
    { apply existsb_exists. exists a. split; [exact Hy | apply String.eqb_refl]. }
    congruence.
  - intros H [<-|Hy] E.
    + subst a. apply andb_true_iff in H. destruct H as [H _].
      apply negb_true_iff in H.
      assert (existsb (String.eqb x) (k1 ++ x :: k2) = true).
      { apply existsb_exists. exists x. split; [|apply String.eqb_refl].
        apply in_or_app. right. left. reflexivity. }
      congruence.
    + apply andb_true_iff in H. destruct H as [_ H]. exact (IH H Hy E).
Qed.

(** X2. From a well-formed workspace, renaming a file or an empty folder,
    other than the root, to a proper name leads to a well-formed workspace,
    whether the call goes through or reports a collision. *)
Theorem rename_leaf_keeps_wellFormed (path newName : string) (s : Service)
    (item : Node) :
  wellFormed (root (workspace s)) = true ->
  findItemByPath path (root (workspace s)) = Some item ->
  item <> inr (root (workspace s)) ->
  match item with inl _ => True | inr d => children d = [] end ->
  nameOk newName = true ->
  wellFormed (root (workspace (snd (rename path newName s)))) = true.
Proof.
  intros Hw Hf Hne Hleaf Hnew.
  destruct (wellFormed_node _ _ _ Hw Hf Hne) as (parent & Hp & Hin & Hsp & Hj & Hok).
  pose proof (findItemByPath_path _ _ _ Hf) as Hpath.
  unfold rename. rewrite Hf, Hp.
  destruct (existsb _ (children parent)) eqn:Hc; [exact Hw|]. cbn [snd].
  set (newPath := renamedPath path newName).
  destruct (mutate_found path (renameFile newName newPath) (renameFolder newName newPath)
              _ _ Hf) as (r' & -> & _ & Hr).
  cbn [saveWorkspace workspace root].
  set (item' := onNode (renameFile newName newPath) (renameFolder newName newPath) item)
    in *.
  destruct (nameOk_parts _ Hok) as [_ Hslash].
  unfold wellFormed in Hw. apply andb_true_iff in Hw. destruct Hw as [Hroot Hs].
  apply String.eqb_eq in Hroot.
  (* the folder in which the node is replaced *)
  assert (HF : exists fi fn fp k1 k2,
             (mkVFolder fi fn fp (k1 ++ item :: k2) = root (workspace s)
              \/ descends (inr (mkVFolder fi fn fp (k1 ++ item :: k2))) (root (workspace s)))
             /\ replaced (inr (mkVFolder fi fn fp (k1 ++ item :: k2)))
                  (inr (mkVFolder fi fn fp (k1 ++ item' :: k2)))
                  (inr (root (workspace s))) (inr r')).
  { inversion Hr as [E1 E2 | i nm p l1 x x' l2 Hin' E1 E2].
    - exfalso. apply Hne. congruence.
    - destruct (replaced_at_parent _ _ _ _ Hin' i nm p l1 l2)
        as (fi & fn & fp & k1 & k2 & HA & HB).
      exists fi, fn, fp, k1, k2. split; [exact HA | exact HB]. }
  destruct HF as (fi & fn & fp & k1 & k2 & Hwithin & Hrep).
  set (F := mkVFolder fi fn fp (k1 ++ item :: k2)) in *.
  assert (HsF : sound F = true).
  { destruct Hwithin as [->|Hd]; [exact Hs | exact (descends_sound _ _ Hs Hd)]. }
  destruct (sound_children _ _ _ _ HsF) as [Hu HokF].
  assert (HinF : In item (k1 ++ item :: k2)) by (apply in_or_app; right; left; reflexivity).
  destruct (HokF item HinF) as (Hpi & _ & _).
  (* it is the folder that the parent part of the path resolves to *)
  assert (HfindF : findItemByPath fp (root (workspace s)) = Some (inr F)).
  { destruct Hwithin as [E|Hd].
    - rewrite <- E. unfold F. rewrite findItemByPath_unfold, String.eqb_refl.
      reflexivity.
    - exact (find_own_path _ _ Hs Hd). }
  assert (Hfp : fp <> EmptyString).
  { destruct Hwithin as [E|Hd].
    - rewrite <- E in Hroot. unfold F in Hroot. cbn [folder_path] in Hroot.
      rewrite Hroot. discriminate.
    - destruct (descends_shape _ _ Hs Hd) as (rest & _ & E').
      unfold F in E'. cbn [node_path folder_path] in E'. rewrite Hroot in E'.
      rewrite E'. discriminate. }
  assert (HFp : parent = F).
  { unfold findParentFolder in Hp.
    rewrite <- Hpath, Hpi, <- joinPath_sep, parentPathOf_join, HfindF in Hp by auto.
    congruence. }
  subst parent. unfold F in Hc. cbn [children] in Hc.
  assert (Hothers : existsb (String.eqb newName) (map node_name (k1 ++ k2)) = false).
  { apply not_true_is_false. intros He. apply existsb_exists in He.
    destruct He as (y & Hy & Ey). apply String.eqb_eq in Ey. subst y.
    apply in_map_iff in Hy. destruct Hy as (child & En & Hchild).
    assert (HchF : In child (k1 ++ item :: k2)).
    { apply in_app_or in Hchild. apply in_or_app.
      destruct Hchild; [left | right; right]; assumption. }
    assert (Hdiff : node_name child <> node_name item).
    { rewrite map_app in Hu. cbn [map] in Hu.
      apply (namesUnique_others _ _ _ _ Hu). rewrite <- map_app.
      apply in_map. exact Hchild. }
    assert (Hex : existsb (fun c0 : Node =>
                     String.eqb (node_name c0) newName
                     && negb (String.eqb (node_path c0) path))
                    (k1 ++ item :: k2) = true).
    { apply existsb_exists. exists child. split; [exact HchF|].
      rewrite En, String.eqb_refl. cbn [andb]. apply negb_true_iff, String.eqb_neq.
      destruct (HokF child HchF) as (Hpc & _ & _).
      rewrite Hpc, <- Hpath, Hpi. intros E. apply append_cancel in E.
      rewrite En in *. exact (Hdiff E). }
    congruence. }
  assert (Hitem' : node_name item' = newName /\ node_path item' = sepPrefix fp ++ newName
                   /\ below sound item' = true).
  { assert (Hnp : newPath = sepPrefix fp ++ newName).
    { unfold newPath. rewrite <- Hpath, Hpi. apply renamedPath_sep. exact Hslash. }
    destruct item as [f|[di dn dp dch]]; cbn [item' onNode renameFile renameFolder
      node_name node_path file_name file_path folder_name folder_path below].
    - auto.
    - cbn [children] in Hleaf. subst dch. auto. }
  destruct Hitem' as (Hn' & Hp' & Hs').
  apply andb_true_iff. split.
  - destruct (replaced_head _ _ _ _ Hrep eq_refl eq_refl) as [E _].
    cbn [node_path] in E. rewrite E, Hroot. reflexivity.
  - apply (replaced_sound _ _ _ _ Hrep); auto. cbn [below]. intros _.
    apply sound_intro.
    + rewrite map_app in *. cbn [map] in *. rewrite Hn'.
      apply (namesUnique_middle _ _ _ _ Hu). exact Hothers.
    + intros y Hy. apply in_app_or in Hy. destruct Hy as [Hy|[<-|Hy]].
      * apply HokF. apply in_or_app. left. exact Hy.
      * unfold childOk. rewrite Hn', Hp'. auto.
      * apply HokF. apply in_or_app. right. right. exact Hy.
Qed.

Lemma rename_leaf_keeps_wellFormed_witness :
  fst (rename "/src/main.py" "app.js" freshService) = Returned true /\
  wellFormed (root (workspace (snd (rename "/src/main.py" "app.js" freshService)))) = true.
Proof.
  split; [reflexivity|].
  apply (rename_leaf_keeps_wellFormed "/src/main.py" "app.js" freshService
           (inl (mkVFile "i3" "main.py" "/src/main.py" python (DEFAULT_CODE python) true))).
  - reflexivity.
  - reflexivity.
  - discriminate.
  - exact I.
  - reflexivity.
Defined.

(** ** Collisions in a well-formed workspace *)

(** The parent part of a node's path resolves to the folder the node lies in. *)
Lemma parent_is_found (w : Workspace) (F : VFolder) (item : Node) :
  wellFormed (root w) = true ->
  F = root w \/ descends (inr F) (root w) ->
  In item (children F) ->
  findParentFolder w (node_path item) = Some F.
Proof.
  unfold wellFormed. intros Hw Hwithin Hin.
  apply andb_true_iff in Hw. destruct Hw as [Hroot Hs]. apply String.eqb_eq in Hroot.
  assert (HsF : sound F = true).
  { destruct Hwithin as [->|Hd]; [exact Hs | exact (descends_sound _ _ Hs Hd)]. }
  assert (HfindF : findItemByPath (folder_path F) (root w) = Some (inr F)).
  { destruct Hwithin as [->|Hd]; [|exact (find_own_path _ _ Hs Hd)].
    destruct (root w) as [i n p ch]. rewrite findItemByPath_unfold.
    cbn [folder_path]. rewrite String.eqb_refl. reflexivity. }
  assert (Hfp : folder_path F <> EmptyString).
  { destruct Hwithin as [->|Hd]; [rewrite Hroot; discriminate|].
    destruct (descends_shape _ _ Hs Hd) as (rest & _ & E).
    cbn [node_path] in E. rewrite E, Hroot. discriminate. }
  destruct F as [fi fn fp ch]. cbn [children folder_path] in *.
  destruct (sound_children _ _ _ _ HsF) as [_ Hok].
  destruct (Hok item Hin) as (Hp & Hn & _).
  destruct (nameOk_parts _ Hn) as [_ Hslash].
  unfold findParentFolder.
  rewrite Hp, <- joinPath_sep, parentPathOf_join, HfindF by auto. reflexivity.
Qed.

(** X3. In a well-formed workspace, renaming a node to the name of one of
    its siblings throws the collision error and leaves tree and store as
    they were. *)
Theorem rename_collision_wellFormed (newName : string) (s : Service)
    (F : VFolder) (item sibling : Node) :
  wellFormed (root (workspace s)) = true ->
  F = root (workspace s) \/ descends (inr F) (root (workspace s)) ->
  In item (children F) -> In sibling (children F) ->
  node_name sibling = newName -> node_name item <> newName ->
  rename (node_path item) newName s
  = (Thrown (dq ++ newName ++ dq ++ " already exists in this folder"), s).
Proof.
  intros Hw Hwithin Hin Hsib Hname Hdiff.
  pose proof (parent_is_found _ _ _ Hw Hwithin Hin) as Hp.
  assert (HsF : sound F = true).
  { unfold wellFormed in Hw. apply andb_true_iff in Hw. destruct Hw as [_ Hs].
    destruct Hwithin as [->|Hd]; [exact Hs | exact (descends_sound _ _ Hs Hd)]. }
  assert (Hd : descends item (root (workspace s))).
  { destruct F as [fi fn fp ch]. cbn [children] in Hin.
    destruct Hwithin as [<-|Hd].
    - apply descends_child. exact Hin.
    - clear -Hd Hin. remember (inr (mkVFolder fi fn fp ch) : Node) as x eqn:Ex.
      induction Hd as [i n p l Hx | d i n p l Hd' Hxd IH]; subst x.
      + apply (descends_deeper item (mkVFolder fi fn fp ch) i n p l Hx).
        apply descends_child. exact Hin.
      + apply (descends_deeper item d i n p l Hd'). apply IH; reflexivity. }
  assert (Hf : findItemByPath (node_path item) (root (workspace s)) = Some item).
  { apply find_own_path; [|exact Hd].
    unfold wellFormed in Hw. apply andb_true_iff in Hw. tauto. }
  apply (rename_collision _ _ _ item F Hf Hp).
  apply existsb_exists. exists sibling. split; [exact Hsib|].
  rewrite Hname, String.eqb_refl. cbn [andb]. apply negb_true_iff, String.eqb_neq.
  destruct F as [fi fn fp ch]. cbn [children] in *.
  destruct (sound_children _ _ _ _ HsF) as [_ Hok].
  destruct (Hok _ Hin) as (Hpi & _ & _). destruct (Hok _ Hsib) as (Hps & _ & _).
  rewrite Hpi, Hps. intros E. apply append_cancel in E. congruence.
Qed.

Lemma rename_collision_wellFormed_witness :
  rename "/src/main.cpp" "main.py" freshService
  = (Thrown (dq ++ "main.py" ++ dq ++ " already exists in this folder"), freshService).
Proof.
  apply (rename_collision_wellFormed "main.py" freshService
           (mkVFolder "i1" "src" "/src"
              [inl (mkVFile "i2" "main.cpp" "/src/main.cpp" cpp (DEFAULT_CODE cpp) true);
               inl (mkVFile "i3" "main.py" "/src/main.py" python (DEFAULT_CODE python) true)])
           (inl (mkVFile "i2" "main.cpp" "/src/main.cpp" cpp (DEFAULT_CODE cpp) true))
           (inl (mkVFile "i3" "main.py" "/src/main.py" python (DEFAULT_CODE python) true))).
  - reflexivity.
  - right. apply descends_child. left. reflexivity.
  - left. reflexivity.
  - right. left. reflexivity.
  - reflexivity.
  - discriminate.
Defined.

(* ================================================================== *)
(** * Renaming a node to the name it has *)
(* ================================================================== *)

(** Renaming a node to the name it has, stated at the node.  Take a node
    that the lookup finds at [path], that is a child of the folder which the
    parent part of [path] resolves to, whose path is that folder's path
    joined with its name, whose name has no slash, and whose siblings have
    names of their own.  The call returns [true]: the collision check passes
    over the node itself; the tree afterwards is the tree before with that
    node replaced by [rederived]; and it is what the store holds.  The root
    is no such node. *)
Lemma rename_to_same_name_at (path : string) (s : Service) (item : Node)
    (parent : VFolder) :
  findItemByPath path (root (workspace s)) = Some item ->
  findParentFolder (workspace s) path = Some parent ->
  In item (children parent) ->
  namesUnique (map node_name (children parent)) = true ->
  path = joinPath (folder_path parent) (node_name item) ->
  hasChar "/" (node_name item) = false ->
  exists s',
    rename path (node_name item) s = (Returned true, s') /\
    stored s' = Some (workspace s') /\
    replaced item (rederived item) (inr (root (workspace s))) (inr (root (workspace s'))) /\
    findItemByPath path (root (workspace s')) = Some (rederived item) /\
    node_name (rederived item) = node_name item /\
    node_path (rederived item) = path /\
    item <> inr (root (workspace s)).
Proof.
  intros Hi Hp Hin Hu Hj Hs.
  pose proof (findItemByPath_path _ _ _ Hi) as Hpath.
  assert (Hcheck : existsb (fun child => String.eqb (node_name child) (node_name item)
                              && negb (String.eqb (node_path child) path))
                     (children parent) = false).
  { apply not_true_is_false. intros He. apply existsb_exists in He.
    destruct He as (child & Hc & Hb). apply andb_true_iff in Hb.
    destruct Hb as [Hn Hq]. apply String.eqb_eq in Hn. apply negb_true_iff in Hq.
    apply String.eqb_neq in Hq. apply Hq.
    rewrite (namesUnique_inj node_name _ child item Hu Hc Hin Hn). exact Hpath. }
  assert (Hnew : renamedPath path (node_name item) = path).
  { rewrite Hj. apply renamedPath_join. exact Hs. }
  assert (Hon : onNode (renameFile (node_name item) path)
                  (renameFolder (node_name item) path) item = rederived item).
  { rewrite <- Hpath. destruct item as [f|[i n p ch]]; reflexivity. }
  unfold rename. rewrite Hi, Hp, Hcheck, Hnew.
  destruct (mutate_found path (renameFile (node_name item) path)
              (renameFolder (node_name item) path) _ _ Hi) as (r' & Hm & Hupd & Hr).
  rewrite Hon in Hr.
  assert (Hpath' : node_path (rederived item) = path).
  { destruct item; exact Hpath. }
  eexists. split; [reflexivity|]. rewrite Hm. unfold saveWorkspace.
  cbn [workspace stored root].
  split; [reflexivity|]. split; [exact Hr|]. split; [|split; [|split]].
  - rewrite <- Hon.
    apply (find_after_update path _ _ _ r' _ Hi); [rewrite Hon; exact Hpath' | exact Hupd].
  - destruct item; reflexivity.
  - exact Hpath'.
  - intros ->. unfold findParentFolder in Hp.
    destruct (findItemByPath (parentPathOf path) (root (workspace s))) as [[f|d]|] eqn:Ef;
      try discriminate.
    injection Hp as ->.
    destruct parent as [i n p ch].
    pose proof (size_child i n p ch _ Hin) as Hlt.
    pose proof (findItemByPath_size _ _ _ Ef) as Hle. lia.
Qed.

(** The language given at creation is replaced by the fallback. *)
Example rename_to_same_name_loses_override :
  option_map language (readFile "/notes.txt" notesService) = Some python /\
  option_map language
    (readFile "/notes.txt" (snd (rename "/notes.txt" "notes.txt" notesService)))
  = Some cpp.
Proof. split; reflexivity. Qed.

(** The claim as stated fails at the root, whose path does change, and at a
    node that carries a path its folder no longer has. *)
Lemma rename_to_same_name_counterexample :
  findItemByPath "/" (root (workspace freshService))
    = Some (inr (root (workspace freshService))) /\
  folder_name (root (workspace freshService)) = "workspace" /\
  fst (rename "/" "workspace" freshService) = Returned true /\
  folder_path (root (workspace (snd (rename "/" "workspace" freshService))))
    = "/workspace" /\
  option_map file_name
    (readFile "/src/main.py" (snd (rename "/src" "lib" freshService))) = Some "main.py" /\
  fst (rename "/src/main.py" "main.py" (snd (rename "/src" "lib" freshService)))
    = Returned false.
Proof. vm_compute. repeat split; reflexivity. Qed.

(** C10, as the code has it.  In a well-formed workspace, for every node
    found at [path] other than the root, renaming it to the name it has
    returns [true] and raises no collision error: the check passes over the
    node itself.  The tree afterwards is the tree before with that node
    replaced by [rederived]: name, path and everything else kept, and for a
    file the language taken anew from the extension, so a language given at
    creation is lost (cpp when the extension is not in the table).  The new
    tree is what the store holds. *)
Theorem rename_to_same_name (path : string) (s : Service) (item : Node) :
  wellFormed (root (workspace s)) = true ->
  findItemByPath path (root (workspace s)) = Some item ->
  item <> inr (root (workspace s)) ->
  exists s',
    rename path (node_name item) s = (Returned true, s') /\
    stored s' = Some (workspace s') /\
    replaced item (rederived item) (inr (root (workspace s))) (inr (root (workspace s'))) /\
    findItemByPath path (root (workspace s')) = Some (rederived item) /\
    node_name (rederived item) = node_name item /\
    node_path (rederived item) = path.
Proof.
  intros Hw Hf Hne.
  destruct (wellFormed_node _ _ _ Hw Hf Hne) as (parent & Hp & Hin & Hsp & Hj & Hok).
  destruct (nameOk_parts _ Hok) as [_ Hslash].
  assert (Hu : namesUnique (map node_name (children parent)) = true).
  { destruct parent as [pi pn pp pch]. exact (proj1 (sound_children _ _ _ _ Hsp)). }
  destruct (rename_to_same_name_at path s item parent Hf Hp Hin Hu Hj Hslash)
    as (s' & H1 & H2 & H3 & H4 & H5 & H6 & _).
  exists s'. repeat split; assumption.
Qed.

Lemma rename_to_same_name_witness :
  findItemByPath "/notes.txt" (root (workspace notesService)) = Some (inl notesFile) /\
  language notesFile = python /\
  rederived (inl notesFile)
    = inl (mkVFile "i9" "notes.txt" "/notes.txt" cpp (DEFAULT_CODE python) false) /\
  exists s',
    rename "/notes.txt" "notes.txt" notesService = (Returned true, s') /\
    stored s' = Some (workspace s') /\
    replaced (inl notesFile) (rederived (inl notesFile))
      (inr (root (workspace notesService))) (inr (root (workspace s'))) /\
    findItemByPath "/notes.txt" (root (workspace s')) = Some (rederived (inl notesFile)) /\
    node_name (rederived (inl notesFile)) = "notes.txt" /\
    node_path (rederived (inl notesFile)) = "/notes.txt".
Proof.
  split; [reflexivity|]. split; [reflexivity|]. split; [reflexivity|].
  apply (rename_to_same_name "/notes.txt" notesService (inl notesFile)).
  - reflexivity.
  - reflexivity.
  - discriminate.
Defined.

(* ================================================================== *)
(** * The logging sink of the in-process evaluation *)
(* ================================================================== *)

Import Gateway.

Lemma captureLog_neq (ref : nat) (l : Logger) : CaptureLog ref l <> l.
Proof.
  revert ref. induction l as [|r l IH|tag]; intros ref H; try discriminate.
  injection H as _ H. exact (IH _ H).
Qed.

Lemma call_console_log (l : Logger) (line : string) (w : World) :
  console_log (call l line w) = console_log w.
Proof.
  revert w. induction l as [|r l IH|tag]; intros w; simpl; [reflexivity| |reflexivity].
  rewrite IH. reflexivity.
Qed.

Lemma logs_keep_console_log (lines : list string) (w : World) :
  console_log (fold_left (fun w a => step a w) (map Log lines) w) = console_log w.
Proof.
  revert w. induction lines as [|x lines IH]; intros w; simpl; [reflexivity|].
  rewrite IH. apply call_console_log.
Qed.

(** X4. When the evaluation ends normally the sink is the one found at
    entry, whatever the code did to it. *)
Lemma executeJavaScript_restores_on_success (code : Behaviour) (w : World) :
  fault code = None ->
  console_log (snd (executeJavaScript code w)) = console_log w.
Proof.
  intros H. unfold executeJavaScript, eval. rewrite H. reflexivity.
Qed.

Lemma executeJavaScript_restores_on_success_witness :
  console_log
    (snd (executeJavaScript (mkBehaviour [Log "a"; AssignLog (OtherLog "mine")] None)
            (mkWorld HostLog [] [])))
  = HostLog.
Proof.
  apply (executeJavaScript_restores_on_success
           (mkBehaviour [Log "a"; AssignLog (OtherLog "mine")] None)
           (mkWorld HostLog [] [])).
  reflexivity.
Defined.

(** C5, at the fault.  Code that logs some lines and then throws: the
    handler assigns [console.log] to itself, so the sink stays the capturing
    closure of this call and is not the sink found at entry. *)
Theorem executeJavaScript_fault_keeps_capture (lines : list string)
    (message : string) (w : World) :
  let after := snd (executeJavaScript (mkBehaviour (map Log lines) (Some message)) w) in
  console_log after = CaptureLog (List.length (arrays w)) (console_log w) /\
  console_log after <> console_log w.
Proof.
  intros after.
  assert (H : console_log after = CaptureLog (List.length (arrays w)) (console_log w)).
  { subst after. unfold executeJavaScript, eval. cbn [actions fault snd setConsoleLog console_log].
    rewrite logs_keep_console_log. reflexivity. }
  split; [exact H|]. rewrite H. apply captureLog_neq.
Qed.

(** The same at one input: evaluating [undefinedFn()] on the host's sink. *)
Example executeJavaScript_fault_example :
  let w := mkWorld HostLog [] [] in
  let r := executeJavaScript (mkBehaviour [] (Some "undefinedFn is not defined")) w in
  success (fst r) = false /\
  output (fst r) = "undefinedFn is not defined" /\
  console_log (snd r) = CaptureLog 0 HostLog.
Proof. repeat split; reflexivity. Qed.

(* ================================================================== *)
(** * Compile errors of the remote service *)
(* ================================================================== *)

Lemma decodeHtmlEntities_keeps_heading (rest : string) :
  decodeHtmlEntities ("Compilation Error:" ++ nl ++ rest)
  = "Compilation Error:" ++ nl ++ decodeHtmlEntities rest.
Proof. reflexivity. Qed.

Lemma decodeHtmlEntities_fallback :
  decodeHtmlEntities "Compilation failed - please check your code syntax"
  = "Compilation failed - please check your code syntax".
Proof. reflexivity. Qed.

(** C6, as the code has it.  When the compile phase reports a [stderr], the
    result has [success = false] and the error ["Execution failed"], and the
    run phase is not read: any run phase gives the same result.  The output
    starts with ["Compilation Error:"] when the sanitised [stderr] is not
    empty; when sanitising leaves nothing, the output is the fixed text
    ["Compilation failed - please check your code syntax"]. *)
Theorem compile_stderr_normalized (result : PistonResult) :
  truthy (compileStderr result) = true ->
  success (normalize result) = false /\
  error (normalize result) = Some "Execution failed" /\
  (if truthy (cleanErrorMessage (compileStderr result))
   then String.prefix "Compilation Error:" (output (normalize result)) = true
   else output (normalize result)
        = "Compilation failed - please check your code syntax") /\
  (forall rn, normalize (mkPistonResult (compile result) rn) = normalize result).
Proof.
  intros H.
  assert (Hrun : forall rn, normalize (mkPistonResult (compile result) rn)
                            = normalize result).
  { intros rn. unfold normalize.
    change (compileStderr (mkPistonResult (compile result) rn))
      with (compileStderr result).
    rewrite H. reflexivity. }
  split; [|split; [|split; [|exact Hrun]]];
    unfold normalize; rewrite H; unfold compileFailure;
    destruct (truthy (cleanErrorMessage (compileStderr result)));
    cbn [success error output negb]; try reflexivity.
Qed.

Lemma compile_stderr_normalized_witness :
  let result := mkPistonResult (Some (mkPhase EmptyString missingSemicolon (Some 1%Z)))
                  (Some (mkPhase "Hello" EmptyString (Some 0%Z))) in
  truthy (compileStderr result) = true /\
  success (normalize result) = false /\
  error (normalize result) = Some "Execution failed" /\
  (if truthy (cleanErrorMessage (compileStderr result))
   then String.prefix "Compilation Error:" (output (normalize result)) = true
   else output (normalize result)
        = "Compilation failed - please check your code syntax") /\
  (forall rn, normalize (mkPistonResult (compile result) rn) = normalize result).
Proof.
  intros result. split; [reflexivity|].
  apply (compile_stderr_normalized result). reflexivity.
Defined.

(** The spec's example, end to end: a cpp request whose source lacks a
    semicolon, the service answering with the compiler's text. *)
Example executeCode_missing_semicolon :
  let request := mkRequest "cpp" "int main() { return 0 }" None None in
  let remote := fun body : PistonBody =>
    if match body_language body with Some l => String.eqb l "c++" | None => false end
    then Json (mkPistonResult (Some (mkPhase EmptyString missingSemicolon (Some 1%Z))) None)
    else Status 400 in
  fst (executeCode request (mkBehaviour [] None) remote (mkWorld HostLog [] []))
  = mkResult ("Compilation Error:" ++ nl ++ "error: expected ';' before 'return'")
      (Some "Execution failed") false.
Proof. vm_compute. reflexivity. Qed.

(** The claim as stated fails where sanitising removes the whole [stderr]:
    the service's own line about the missing binary is such a text. *)
Lemma compile_stderr_heading_counterexample :
  let result :=
    mkPistonResult
      (Some (mkPhase EmptyString
               "chmod: cannot access 'a.out': No such file or directory" (Some 1%Z)))
      None in
  truthy (compileStderr result) = true /\
  output (normalize result) = "Compilation failed - please check your code syntax" /\
  String.prefix "Compilation Error:" (output (normalize result)) = false.
Proof. vm_compute. repeat split; reflexivity. Qed.

(* ================================================================== *)
(** * Closing a tab *)
(* ================================================================== *)






(** Closing the last tab of the list activates the one before it, and
    closing the only tab leaves none active. *)
Example handleTabClose_last_and_only :
  let a := mkVFile "ia" "a.py" "/a.py" python EmptyString true in
  let b := mkVFile "ib" "b.py" "/b.py" python EmptyString true in
  Tabs.handleTabClose b (Tabs.mkState [a; b] (Some "ib")) = Tabs.mkState [a] (Some "ia") /\
  Tabs.handleTabClose a (Tabs.mkState [a] (Some "ia")) = Tabs.mkState [] None /\
  Tabs.handleTabClose b (Tabs.mkState [a; b] (Some "ia")) = Tabs.mkState [a] (Some "ia").
Proof. repeat split; reflexivity. Qed.

(* ================================================================== *)
(** * Unsaved changes *)
(* ================================================================== *)

Lemma checkUnsaved_unfold i n p ch :
  checkUnsaved (mkVFolder i n p ch)
  = existsb (fun x => match x with inl f => unsaved f | inr d => checkUnsaved d end) ch.
Proof.
  simpl. induction ch as [|[f|d] ch IH]; simpl; [reflexivity| |]; rewrite IH; reflexivity.
Qed.

Lemma checkUnsaved_files (d : VFolder) :
  checkUnsaved d = existsb unsaved (getAllFiles d).
Proof.
  induction d as [i n p ch IH] using VFolder_induction.
  rewrite checkUnsaved_unfold, getAllFiles_unfold.
  induction ch as [|x ch IHch]; [reflexivity|].
  cbn [existsb filesOfList]. rewrite existsb_app, IHch.
  - destruct x as [f|d]; cbn [filesOf existsb].
    + rewrite orb_false_r. reflexivity.
    + rewrite (IH d (or_introl eq_refl)). reflexivity.
  - intros d Hd. apply IH. right. exact Hd.
Qed.

Lemma hasUnsavedChanges_some (s : Service) :
  (exists f, In f (getAllFiles (root (workspace s))) /\ isSaved f = false) ->
  hasUnsavedChanges s = true.
Proof.
  intros (f & Hf & Hs). unfold hasUnsavedChanges.
  rewrite checkUnsaved_files. apply existsb_exists. exists f.
  unfold unsaved. rewrite Hs. auto.
Qed.

(** X6.  [hasUnsavedChanges()] answers true exactly when one of the files
    that [getAllFiles()] lists has [isSaved] false. *)
Theorem hasUnsavedChanges_iff (s : Service) :
  hasUnsavedChanges s = true <->
  exists f, In f (getAllFiles (root (workspace s))) /\ isSaved f = false.
Proof.
  unfold hasUnsavedChanges. rewrite checkUnsaved_files, existsb_exists.
  split; intros (f & Hf & Hs); exists f; split; auto; unfold unsaved in *;
    destruct (isSaved f); auto; discriminate.
Qed.

(* ================================================================== *)
(** * Two mutations at one path *)
(* ================================================================== *)

Lemma update_defined path ff fd gf gd r r1 :
  updateItemByPath path ff fd r = Some r1 ->
  exists r2, updateItemByPath path gf gd r = Some r2.
Proof.
  intros Hu. destruct (findItemByPath path r) as [n|] eqn:Ef.
  - destruct (update_found path gf gd _ _ Ef) as (r2 & H2 & _). eauto.
  - rewrite (update_none path ff fd _ Ef) in Hu. discriminate.
Qed.

Lemma update_undefined path ff fd gf gd r :
  updateItemByPath path ff fd r = None -> updateItemByPath path gf gd r = None.
Proof.
  intros Hu. destruct (updateItemByPath path gf gd r) as [r2|] eqn:E; [|reflexivity].
  destruct (update_defined path gf gd ff fd _ _ E) as (r1 & H1). congruence.
Qed.

Lemma update_keeps_path path ff fd r r1 :
  (forall d, folder_path (fd d) = folder_path d) ->
  updateItemByPath path ff fd r = Some r1 -> folder_path r1 = folder_path r.
Proof.
  intros Hd. destruct r as [i n p ch]. rewrite updateItemByPath_unfold.
  destruct (String.eqb p path).
  - intros [= <-]. apply Hd.
  - destruct (updateInChildren path ff fd ch); [|discriminate]. intros [= <-]. reflexivity.
Qed.

(** A mutation at a path, after one that changed no path, is the mutation
    by the two functions in turn. *)
Lemma update_twice path ff fd gf gd hf hd r r1 :
  (forall f, file_path (ff f) = file_path f) ->
  (forall d, folder_path (fd d) = folder_path d) ->
  (forall f, gf (ff f) = hf f) ->
  (forall d, gd (fd d) = hd d) ->
  updateItemByPath path ff fd r = Some r1 ->
  updateItemByPath path gf gd r1 = updateItemByPath path hf hd r.
Proof.
  intros Hff Hfd Hgf Hgd. revert r1.
  induction r as [i n p ch IH] using VFolder_induction. intros r1.
  rewrite !updateItemByPath_unfold. destruct (String.eqb p path) eqn:Ep.
  - intros [= <-]. specialize (Hfd (mkVFolder i n p ch)).
    destruct (fd (mkVFolder i n p ch)) as [i' n' p' ch'] eqn:Ed.
    rewrite updateItemByPath_unfold. cbn [folder_path] in Hfd. subst p'.
    rewrite Ep, <- Ed, Hgd. reflexivity.
  - destruct (updateInChildren path ff fd ch) as [ch1|] eqn:E1; [|discriminate].
    intros [= <-]. rewrite updateItemByPath_unfold, Ep.
    enough (H : updateInChildren path gf gd ch1 = updateInChildren path hf hd ch)
      by (rewrite H; reflexivity).
    clear Ep. revert ch1 E1.
    induction ch as [|x ch IHch]; intros ch1; [discriminate|].
    assert (IHrest : forall l, updateInChildren path ff fd ch = Some l ->
              updateInChildren path gf gd l = updateInChildren path hf hd ch).
    { apply IHch. intros d Hd. apply IH. right. exact Hd. }
    cbn [updateInChildren].
    destruct (String.eqb (node_path x) path) eqn:Ex.
    + intros [= <-]. cbn [updateInChildren].
      assert (Hp : node_path (onNode ff fd x) = node_path x).
      { destruct x; cbn [onNode node_path]; auto. }
      rewrite Hp, Ex. destruct x; cbn [onNode]; rewrite ?Hgf, ?Hgd; reflexivity.
    + destruct x as [f|d].
      * destruct (updateInChildren path ff fd ch) as [l|] eqn:El; [|discriminate].
        intros [= <-]. cbn [updateInChildren]. rewrite Ex, (IHrest l eq_refl).
        reflexivity.
      * destruct (updateItemByPath path ff fd d) as [d1|] eqn:Ed.
        -- intros [= <-]. cbn [updateInChildren].
           cbn [node_path] in *. rewrite (update_keeps_path _ _ _ _ _ Hfd Ed), Ex.
           rewrite (IH d (or_introl eq_refl) d1 Ed).
           destruct (update_defined path ff fd hf hd _ _ Ed) as (d2 & ->). reflexivity.
        -- destruct (updateInChildren path ff fd ch) as [l|] eqn:El; [|discriminate].
           intros [= <-]. cbn [updateInChildren]. cbn [node_path] in *. rewrite Ex.
           rewrite (update_undefined path ff fd gf gd _ Ed).
           rewrite (update_undefined path ff fd hf hd _ Ed).
           rewrite (IHrest l eq_refl). reflexivity.
Qed.

Lemma mutate_twice path ff fd gf gd hf hd w :
  (forall f, file_path (ff f) = file_path f) ->
  (forall d, folder_path (fd d) = folder_path d) ->
  (forall f, gf (ff f) = hf f) ->
  (forall d, gd (fd d) = hd d) ->
  mutate path gf gd (mutate path ff fd w) = mutate path hf hd w.
Proof.
  intros Hff Hfd Hgf Hgd. unfold mutate at 2.
  destruct (updateItemByPath path ff fd (root w)) as [r1|] eqn:E.
  - unfold mutate. cbn [root].
    rewrite (update_twice path ff fd gf gd hf hd _ _ Hff Hfd Hgf Hgd E).
    destruct (update_defined path ff fd hf hd _ _ E) as (r2 & ->). reflexivity.
  - unfold mutate. rewrite (update_undefined path ff fd gf gd _ E).
    rewrite (update_undefined path ff fd hf hd _ E). reflexivity.
Qed.

Lemma readFile_after_mutate path ff s f :
  readFile path s = Some f ->
  file_path (ff f) = file_path f ->
  readFile path (saveWorkspace (mutate path ff (fun d => d) (workspace s))) = Some (ff f).
Proof.
  unfold readFile. intros Hr Hp.
  destruct (findItemByPath path (root (workspace s))) as [[f0|d]|] eqn:E; try discriminate.
  injection Hr as ->.
  destruct (mutate_found path ff (fun d => d) _ _ E) as (r' & -> & Hu & _).
  cbn [saveWorkspace workspace root].
  rewrite (find_after_update path ff (fun d => d) _ r' _ E); [reflexivity| |exact Hu].
  cbn [onNode node_path]. rewrite Hp. exact (findItemByPath_path _ _ _ E).
Qed.

Lemma descends_file (r : VFolder) (f : VFile) :
  descends (inl f) r -> In f (getAllFiles r).
Proof.
  intros H. remember (inl f : Node) as x eqn:Ex.
  induction H as [i n p ch Hin | d i n p ch Hin Hd IH]; subst x.
  - rewrite getAllFiles_unfold. induction ch as [|x ch IHch]; [destruct Hin|].
    cbn [filesOfList]. apply in_or_app.
    destruct Hin as [->|Hin]; [left; left; reflexivity|]. right. auto.
  - rewrite getAllFiles_unfold. induction ch as [|x ch IHch]; [destruct Hin|].
    cbn [filesOfList]. apply in_or_app.
    destruct Hin as [->|Hin]; [left; apply IH; reflexivity|]. right. auto.
Qed.

(** X7.  Writing the same text to the same path a second time changes
    nothing: the second call returns what the first returned and leaves
    the tree and the store as the first left them. *)
Theorem writeFile_idempotent (path text : string) (s : Service) :
  writeFile path text (snd (writeFile path text s)) = writeFile path text s.
Proof.
  unfold writeFile at 2 3. destruct (readFile path s) as [f|] eqn:Er; cbn [snd].
  - unfold writeFile.
    rewrite (readFile_after_mutate path (setContent text) s f Er eq_refl).
    cbn [saveWorkspace workspace].
    rewrite (mutate_twice path (setContent text) (fun d => d) (setContent text)
               (fun d => d) (setContent text) (fun d => d)); auto.
  - unfold writeFile. rewrite Er. reflexivity.
Qed.

(** X8.  [markFileUnsaved(path)] on a file clears its [isSaved] flag and
    nothing else, persists, and makes [hasUnsavedChanges()] true; a later
    [writeFile] of the file's text gives the state that the same
    [writeFile] gives without the mark.  On a path that is no file it
    returns false and changes nothing. *)
Theorem markFileUnsaved_spec (path : string) (s : Service) :
  match readFile path s with
  | Some f =>
      exists s',
        markFileUnsaved path s = (true, s') /\
        stored s' = Some (workspace s') /\
        readFile path s' = Some (setUnsaved f) /\
        hasUnsavedChanges s' = true /\
        (forall text, writeFile path text s' = writeFile path text s)
  | None => markFileUnsaved path s = (false, s)
  end.
Proof.
  unfold markFileUnsaved. destruct (readFile path s) as [f|] eqn:Er; [|reflexivity].
  eexists. split; [reflexivity|]. split; [reflexivity|].
  pose proof (readFile_after_mutate path setUnsaved s f Er eq_refl) as Hr.
  split; [exact Hr|]. split.
  - unfold hasUnsavedChanges. rewrite checkUnsaved_files. apply existsb_exists.
    exists (setUnsaved f). split; [|reflexivity].
    unfold readFile in Hr.
    destruct (findItemByPath path _) as [[f1|d]|] eqn:E in Hr; try discriminate.
    injection Hr as ->.
    destruct (find_descends _ _ _ E) as [H|H]; [discriminate|].
    exact (descends_file _ _ H).
  - intros text. unfold writeFile. rewrite Hr, Er. cbn [saveWorkspace workspace].
    rewrite (mutate_twice path setUnsaved (fun d => d) (setContent text)
               (fun d => d) (setContent text) (fun d => d)); auto.
Qed.

Lemma markFileUnsaved_spec_witness :
  exists s',
    markFileUnsaved "/src/main.py" freshService = (true, s') /\
    stored s' = Some (workspace s') /\
    readFile "/src/main.py" s'
      = Some (mkVFile "i3" "main.py" "/src/main.py" python (DEFAULT_CODE python) false) /\
    hasUnsavedChanges s' = true /\
    (forall text, writeFile "/src/main.py" text s' = writeFile "/src/main.py" text freshService).
Proof.
  exact (markFileUnsaved_spec "/src/main.py" freshService).
Defined.

(* ================================================================== *)
(** * What a rename leaves alone *)
(* ================================================================== *)

Lemma renameFolder_files newName newPath d :
  getAllFiles (renameFolder newName newPath d) = getAllFiles d.
Proof. destruct d. reflexivity. Qed.

(** X12.  Whatever its outcome, [rename] keeps the files of the workspace
    as [getAllFiles()] lists them: their number, their order, and the
    identifier, the content and the saved flag of each. *)
Theorem rename_keeps_files (path newName : string) (s : Service) :
  map payload (getAllFiles (root (workspace (snd (rename path newName s)))))
  = map payload (getAllFiles (root (workspace s))).
Proof.
  unfold rename.
  destruct (findItemByPath path (root (workspace s))) as [item|] eqn:Ef; [|reflexivity].
  destruct (findParentFolder (workspace s) path); [|reflexivity].
  destruct (existsb _ _); [reflexivity|]. cbn [snd saveWorkspace workspace].
  destruct (mutate_found path (renameFile newName (renamedPath path newName))
              (renameFolder newName (renamedPath path newName)) _ _ Ef)
    as (r' & -> & _ & Hr).
  destruct (replaced_files _ _ _ _ Hr) as (before & after & H1 & H2).
  cbn [filesOf] in H1, H2. cbn [root]. rewrite H1, H2, !map_app. f_equal. f_equal.
  destruct item as [f|d]; cbn [onNode filesOf].
  - reflexivity.
  - rewrite renameFolder_files. reflexivity.
Qed.

(* ================================================================== *)
(** * Lookup by identifier *)
(* ================================================================== *)

Lemma findById_unfold id i n p ch :
  findById id (mkVFolder i n p ch) =
  if String.eqb i id then Some (inr (mkVFolder i n p ch))
  else findByIdIn id ch.
Proof.
  simpl. destruct (String.eqb i id); [reflexivity|].
  induction ch as [|x ch IH]; simpl; [reflexivity|].
  destruct (String.eqb (node_id x) id); [reflexivity|].
  destruct x as [f|d]; [exact IH|].
  destruct (findById id d); [reflexivity|exact IH].
Qed.

Lemma findById_sound (id : string) (r : VFolder) (x : Node) :
  findById id r = Some x -> node_id x = id /\ (x = inr r \/ descends x r).
Proof.
  revert x. induction r as [i n p ch IH] using VFolder_induction. intros x.
  rewrite findById_unfold. destruct (String.eqb i id) eqn:Ei.
  - intros [= <-]. apply String.eqb_eq in Ei. auto.
  - clear Ei. intros H. enough (Hx : node_id x = id /\ exists c, In c ch /\ via c x).
    { destruct Hx as [H1 H2]. split; [exact H1|]. right. apply descends_inv. exact H2. }
    induction ch as [|y ch IHch]; [discriminate|].
    assert (IHrest : findByIdIn id ch = Some x ->
              node_id x = id /\ exists c, In c ch /\ via c x).
    { apply IHch. intros d Hd. apply IH. right. exact Hd. }
    cbn [findByIdIn] in H. destruct (String.eqb (node_id y) id) eqn:Ey.
    + injection H as <-. apply String.eqb_eq in Ey. split; [exact Ey|].
      exists y. split; [left; reflexivity | left; reflexivity].
    + assert (Hrest : findByIdIn id ch = Some x ->
                node_id x = id /\ exists c, In c (y :: ch) /\ via c x).
      { intros Hf. destruct (IHrest Hf) as (H1 & c & Hc & Hv).
        split; [exact H1|]. exists c. split; [right; exact Hc | exact Hv]. }
      destruct y as [f|d]; [auto|].
      destruct (findById id d) as [found|] eqn:Ed; [|auto].
      injection H as ->. destruct (IH d (or_introl eq_refl) _ Ed) as [H1 H2].
      split; [exact H1|]. exists (inr d). split; [left; reflexivity|].
      destruct H2 as [->|H2]; [left; reflexivity|]. right. exists d. auto.
Qed.

Lemma findById_complete (r : VFolder) (x : Node) :
  descends x r -> exists y, findById (node_id x) r = Some y.
Proof.
  induction r as [i n p ch IH] using VFolder_induction.
  intros H. rewrite findById_unfold.
  destruct (String.eqb i (node_id x)); [eauto|].
  apply descends_inv in H. destruct H as (c & Hc & Hv).
  induction ch as [|y ch IHch]; [destruct Hc|].
  cbn [findByIdIn]. destruct (String.eqb (node_id y) (node_id x)) eqn:Ey; [eauto|].
  assert (IHrest : In c ch -> exists y0, findByIdIn (node_id x) ch = Some y0).
  { apply IHch. intros d Hd. apply IH. right. exact Hd. }
  destruct Hc as [->|Hc].
  - destruct Hv as [->|(d & -> & Hd)].
    + rewrite String.eqb_refl in Ey. discriminate.
    + destruct (IH d (or_introl eq_refl) Hd) as (y0 & ->). eauto.
  - destruct y as [f|d]; [auto|].
    destruct (findById (node_id x) d); [eauto|auto].
Qed.

(** X13.  [findById(id)] returns a node of the tree that bears the
    identifier, and it returns one whenever a node below the root bears
    it (the root answers for its own identifier): in particular every
    file that [getAllFiles()] lists is found by its identifier. *)
Theorem findById_spec (r : VFolder) :
  (forall id x, findById id r = Some x ->
     node_id x = id /\ (x = inr r \/ descends x r)) /\
  (forall x, descends x r ->
     exists y, findById (node_id x) r = Some y /\ node_id y = node_id x) /\
  (forall f, In f (getAllFiles r) ->
     exists y, findById (file_id f) r = Some y /\ node_id y = file_id f) /\
  findById (folder_id r) r = Some (inr r).
Proof.
  split; [|split; [|split]].
  - intros id x. apply findById_sound.
  - intros x Hx. destruct (findById_complete r x Hx) as (y & Hy).
    exists y. split; [exact Hy|]. exact (proj1 (findById_sound _ _ _ Hy)).
  - intros f Hf. pose proof (files_descend _ _ Hf) as Hx.
    destruct (findById_complete r _ Hx) as (y & Hy). cbn [node_id] in Hy.
    exists y. split; [exact Hy|]. exact (proj1 (findById_sound _ _ _ Hy)).
  - destruct r as [i n p ch]. rewrite findById_unfold. cbn [folder_id].
    rewrite String.eqb_refl. reflexivity.
Qed.

(* ================================================================== *)
(** * Creating, then looking up; deleting, then looking up *)
(* ================================================================== *)

Lemma replaced_descends n n' t t' :
  replaced n n' t t' -> t' = n' \/ exists r', t' = inr r' /\ descends n' r'.
Proof.
  induction 1 as [|i nm p l1 x x' l2 H IH]; [left; reflexivity|].
  right. eexists. split; [reflexivity|].
  destruct IH as [->|(r' & -> & Hd)].
  - apply descends_child. apply in_or_app. right. left. reflexivity.
  - apply (descends_deeper n' r'); [|exact Hd].
    apply in_or_app. right. left. reflexivity.
Qed.

Lemma descends_child_in (r F : VFolder) (x : Node) :
  descends (inr F) r -> In x (children F) -> descends x r.
Proof.
  intros H Hx. remember (inr F : Node) as y eqn:Ey.
  induction H as [i n p ch Hin | d i n p ch Hin Hd IH]; subst y.
  - apply (descends_deeper x F); [exact Hin|].
    destruct F as [fi fn fp fch]. apply descends_child. exact Hx.
  - apply (descends_deeper x d); [exact Hin|]. apply IH; reflexivity.
Qed.

Lemma getAllFiles_push x d :
  getAllFiles (push x d) = (getAllFiles d ++ filesOf x)%list.
Proof.
  destruct d as [i n p ch]. cbn [push]. rewrite !getAllFiles_unfold, filesOfList_app.
  cbn [filesOfList]. rewrite app_nil_r. reflexivity.
Qed.

(** A node pushed onto a folder of a well-formed workspace is found at its
    path, and the workspace stays well-formed. *)
Lemma pushed_found (r r' parent : VFolder) (x : Node) :
  wellFormed r = true ->
  replaced (inr parent) (inr (push x parent)) (inr r) (inr r') ->
  childOk (folder_path parent) x ->
  hasChildNamed (node_name x) parent = false ->
  wellFormed r' = true /\
  (push x parent = r' \/ descends (inr (push x parent)) r') /\
  findItemByPath (node_path x) r' = Some x /\
  exists before after,
    getAllFiles r = (before ++ after)%list /\
    getAllFiles r' = (before ++ filesOf x ++ after)%list.
Proof.
  intros Hw Hr Hok Hc.
  assert (Hw' : wellFormed r' = true).
  { apply (wellFormed_replaced _ r' _ _ Hr); auto.
    - cbn [node_path]. apply push_path.
    - destruct parent; reflexivity.
    - cbn [below]. apply push_sound; assumption. }
  assert (Hat : push x parent = r' \/ descends (inr (push x parent)) r').
  { destruct (replaced_descends _ _ _ _ Hr) as [H|(r0 & H & Hd)].
    - left. congruence.
    - right. injection H as <-. exact Hd. }
  split; [exact Hw'|]. split; [exact Hat|]. split.
  - unfold wellFormed in Hw'. apply andb_true_iff in Hw'. destruct Hw' as [_ Hs].
    apply find_own_path; [exact Hs|].
    assert (Hin : In x (children (push x parent))).
    { rewrite push_children. apply in_or_app. right. left. reflexivity. }
    destruct Hat as [<-|Hd].
    + destruct (push x parent) as [i n p ch]. apply descends_child. exact Hin.
    + exact (descends_child_in _ _ _ Hd Hin).
  - destruct (replaced_files _ _ _ _ Hr) as (before & after & H1 & H2).
    cbn [filesOf] in H1, H2. rewrite getAllFiles_push in H2.
    exists (before ++ getAllFiles parent)%list, after. rewrite H1, H2.
    rewrite <- !app_assoc. split; reflexivity.
Qed.

Lemma createFolder_ok parentPath name newId s parent :
  findItemByPath parentPath (root (workspace s)) = Some (inr parent) ->
  hasChildNamed name parent = false ->
  let d := mkVFolder newId name (joinPath parentPath name) [] in
  exists s',
    createFolder parentPath name newId s = (Returned (Some d), s') /\
    stored s' = Some (workspace s') /\
    replaced (inr parent) (inr (push (inr d) parent))
      (inr (root (workspace s))) (inr (root (workspace s'))).
Proof.
  intros Hp Hc d. unfold createFolder. rewrite Hp, Hc. fold d.
  destruct (mutate_found parentPath (fun x => x) (push (inr d)) _ _ Hp)
    as (r' & Hm & Hu & Hr).
  eexists. split; [reflexivity|]. rewrite Hm. cbn [saveWorkspace workspace stored root].
  split; [reflexivity|]. exact Hr.
Qed.

(** X9.  In a well-formed workspace, [createFile] in a folder that has no
    child of that name returns a file that [readFile] then finds at the
    joined path: it bears the identifier generated, the content is the
    template of its language, it is not saved, so [hasUnsavedChanges()]
    is true; the other files are listed as before, around the new one. *)
Theorem createFile_then_readFile (parentPath name : string)
    (lang : option CompilerLanguage) (newId : string) (s : Service) (parent : VFolder) :
  wellFormed (root (workspace s)) = true ->
  findItemByPath parentPath (root (workspace s)) = Some (inr parent) ->
  hasChildNamed name parent = false ->
  nameOk name = true ->
  exists f s' before after,
    createFile parentPath name lang newId s = (Returned (Some f), s') /\
    readFile (joinPath parentPath name) s' = Some f /\
    file_id f = newId /\ file_name f = name /\
    content f = DEFAULT_CODE (language f) /\ isSaved f = false /\
    hasUnsavedChanges s' = true /\
    getAllFiles (root (workspace s)) = (before ++ after)%list /\
    getAllFiles (root (workspace s')) = (before ++ f :: after)%list.
Proof.
  intros Hw Hp Hc Hn.
  destruct (createFile_ok parentPath name lang newId s parent Hp Hc)
    as (s' & Hcreate & _ & Hr & _).
  set (l := match lang with Some l => l | None => getLanguageFromExtension name end) in *.
  set (f := mkVFile newId name (joinPath parentPath name) l (DEFAULT_CODE l) false) in *.
  pose proof (findItemByPath_path _ _ _ Hp) as Hpp. cbn [node_path] in Hpp.
  destruct (pushed_found _ _ parent (inl f) Hw Hr) as (_ & _ & Hfind & before & after & H1 & H2).
  { unfold childOk. cbn [node_path node_name file_path file_name below f].
    rewrite Hpp, joinPath_sep. auto. }
  { exact Hc. }
  exists f, s', before, after. cbn [filesOf app] in H2. cbn [node_path f file_path] in Hfind.
  repeat split; auto.
  - unfold readFile. rewrite Hfind. reflexivity.
  - apply hasUnsavedChanges_some. exists f. split; [|reflexivity].
    rewrite H2. apply in_or_app. right. left. reflexivity.
Qed.

Lemma createFile_then_readFile_witness :
  exists f s' before after,
    createFile "/src" "app.js" None "i9" freshService = (Returned (Some f), s') /\
    readFile (joinPath "/src" "app.js") s' = Some f /\
    file_id f = "i9" /\ file_name f = "app.js" /\
    content f = DEFAULT_CODE (language f) /\ isSaved f = false /\
    hasUnsavedChanges s' = true /\
    getAllFiles (root (workspace freshService)) = (before ++ after)%list /\
    getAllFiles (root (workspace s')) = (before ++ f :: after)%list.
Proof.
  apply (createFile_then_readFile "/src" "app.js" None "i9" freshService
           (mkVFolder "i1" "src" "/src"
              [inl (mkVFile "i2" "main.cpp" "/src/main.cpp" cpp (DEFAULT_CODE cpp) true);
               inl (mkVFile "i3" "main.py" "/src/main.py" python (DEFAULT_CODE python) true)]));
    reflexivity.
Defined.

Lemma wellFormed_nonempty_path (r F : VFolder) :
  wellFormed r = true -> F = r \/ descends (inr F) r -> folder_path F <> EmptyString.
Proof.
  intros Hw HF. unfold wellFormed in Hw. apply andb_true_iff in Hw.
  destruct Hw as [Hp Hs]. apply String.eqb_eq in Hp.
  destruct HF as [->|Hd]; [rewrite Hp; discriminate|].
  destruct (descends_shape _ _ Hs Hd) as (rest & Hr & He). cbn [node_path] in He.
  rewrite He, Hp. cbn [sepPrefix String.eqb Ascii.eqb Bool.eqb]. discriminate.
Qed.

(** X10.  In a well-formed workspace, [createFolder] in a folder that has
    no child of that name returns a folder that is then found at the
    joined path: [isFolder] holds there, [list] is empty, [readFile]
    finds no file, [getParent] is the folder it was created in, with the
    new folder as its last child; the files are listed as before. *)
Theorem createFolder_then_list (parentPath name newId : string) (s : Service)
    (parent : VFolder) :
  wellFormed (root (workspace s)) = true ->
  findItemByPath parentPath (root (workspace s)) = Some (inr parent) ->
  hasChildNamed name parent = false ->
  nameOk name = true ->
  exists d s',
    createFolder parentPath name newId s = (Returned (Some d), s') /\
    d = mkVFolder newId name (joinPath parentPath name) [] /\
    findItemByPath (joinPath parentPath name) (root (workspace s')) = Some (inr d) /\
    isFolder (joinPath parentPath name) s' = true /\
    list_children (joinPath parentPath name) s' = [] /\
    readFile (joinPath parentPath name) s' = None /\
    getParent (joinPath parentPath name) s' = Some (push (inr d) parent) /\
    getAllFiles (root (workspace s')) = getAllFiles (root (workspace s)).
Proof.
  intros Hw Hp Hc Hn.
  destruct (createFolder_ok parentPath name newId s parent Hp Hc) as (s' & Hcreate & _ & Hr).
  set (d := mkVFolder newId name (joinPath parentPath name) []) in *.
  pose proof (findItemByPath_path _ _ _ Hp) as Hpp. cbn [node_path] in Hpp.
  destruct (pushed_found _ _ parent (inr d) Hw Hr)
    as (Hw' & Hat & Hfind & before & after & H1 & H2).
  { unfold childOk. cbn [node_path node_name folder_path folder_name below d].
    rewrite Hpp, joinPath_sep. auto. }
  { exact Hc. }
  cbn [node_path d folder_path] in Hfind. fold d in Hfind.
  exists d, s'. split; [exact Hcreate|]. split; [reflexivity|]. split; [exact Hfind|].
  unfold isFolder, list_children, readFile, getParent. rewrite Hfind.
  repeat split.
  - assert (Hin : In (inr d) (children (push (inr d) parent))).
    { rewrite push_children. apply in_or_app. right. left. reflexivity. }
    assert (Hat' : push (inr d) parent = root (workspace s')
                   \/ descends (inr (push (inr d) parent)) (root (workspace s'))).
    { exact Hat. }
    exact (parent_is_found (workspace s') _ (inr d) Hw' Hat' Hin).
  - rewrite H1, H2. reflexivity.
Qed.

Lemma createFolder_then_list_witness :
  exists d s',
    createFolder "/src" "util" "i9" freshService = (Returned (Some d), s') /\
    d = mkVFolder "i9" "util" (joinPath "/src" "util") [] /\
    findItemByPath (joinPath "/src" "util") (root (workspace s')) = Some (inr d) /\
    isFolder (joinPath "/src" "util") s' = true /\
    list_children (joinPath "/src" "util") s' = [] /\
    readFile (joinPath "/src" "util") s' = None /\
    getParent (joinPath "/src" "util") s'
      = Some (push (inr d)
                (mkVFolder "i1" "src" "/src"
                   [inl (mkVFile "i2" "main.cpp" "/src/main.cpp" cpp (DEFAULT_CODE cpp) true);
                    inl (mkVFile "i3" "main.py" "/src/main.py" python
                           (DEFAULT_CODE python) true)])) /\
    getAllFiles (root (workspace s')) = getAllFiles (root (workspace freshService)).
Proof.
  apply (createFolder_then_list "/src" "util" "i9" freshService); reflexivity.
Defined.

Lemma findIndex_some {A : Type} (p : A -> bool) (l : list A) (x : A) :
  In x l -> p x = true -> exists i, findIndex p l = Some i.
Proof.
  intros Hin Hp. destruct (findIndex p l) as [i|] eqn:E; [eauto|].
  rewrite (findIndex_none p l E x Hin) in Hp. discriminate.
Qed.

(** The children of a sound folder are told apart by their paths. *)
Lemma siblings_apart (i n p : string) (l1 l2 : list Node) (victim x : Node) :
  sound (mkVFolder i n p (l1 ++ victim :: l2)) = true ->
  In x (l1 ++ l2) -> node_path x <> node_path victim.
Proof.
  intros Hs Hx Hp. destruct (sound_children _ _ _ _ Hs) as [Hu Hok].
  assert (Hxin : In x (l1 ++ victim :: l2)).
  { apply in_app_or in Hx. apply in_or_app. destruct Hx; [left | right; right]; assumption. }
  assert (Hvin : In victim (l1 ++ victim :: l2)).
  { apply in_or_app. right. left. reflexivity. }
  destruct (Hok x Hxin) as (Hpx & _ & _). destruct (Hok victim Hvin) as (Hpv & _ & _).
  rewrite Hpx, Hpv in Hp. apply append_cancel in Hp.
  rewrite map_app in Hu. cbn [map] in Hu.
  refine (namesUnique_others _ _ _ (node_name x) Hu _ Hp).
  rewrite <- map_app. apply in_map. exact Hx.
Qed.

Lemma delete_gone (path : string) (s : Service) (item : Node) :
  wellFormed (root (workspace s)) = true ->
  findItemByPath path (root (workspace s)) = Some item ->
  item <> inr (root (workspace s)) ->
  exists s',
    delete path s = (true, s') /\
    findItemByPath path (root (workspace s')) = None /\
    readFile path s' = None /\
    isFolder path s' = false /\
    list_children path s' = [] /\
    delete path s' = (false, s').
Proof.
  intros Hw Hf Hnr.
  destruct (wellFormed_node _ _ _ Hw Hf Hnr) as (parent & Hpf & Hin & Hsp & Hpath & Hname).
  pose proof (findItemByPath_path _ _ _ Hf) as Hip.
  destruct (findIndex_some (fun child => String.eqb (node_path child) path)
              (children parent) item Hin) as (index & Ei).
  { rewrite Hip. apply String.eqb_refl. }
  destruct (findIndex_split _ _ _ Ei) as (l1 & victim & l2 & Hch & Hv & Hs & _ & _).
  apply String.eqb_eq in Hv.
  unfold delete. rewrite Hpf, Ei.
  pose proof Hpf as Hpf0. unfold findParentFolder in Hpf0.
  destruct (findItemByPath (parentPathOf path) (root (workspace s))) as [[f|d]|] eqn:Ef;
    try discriminate.
  injection Hpf0 as ->.
  destruct (mutate_found (parentPathOf path) (fun f => f) (spliceChild index) _ _ Ef)
    as (r' & -> & Hu & Hr).
  destruct parent as [pi pn pp pch]. cbn [children] in Hch, Hs, Hin, Ei. subst pch.
  change (onNode (fun f : VFile => f) (spliceChild index)
            (inr (mkVFolder pi pn pp (l1 ++ victim :: l2))))
    with (@inr VFile VFolder (mkVFolder pi pn pp (splice1 index (l1 ++ victim :: l2))))
    in Hr.
  rewrite Hs in Hr.
  assert (Hw' : wellFormed r' = true).
  { apply (wellFormed_replaced _ r' _ _ Hr); auto. cbn [below].
    intros Hsd. destruct (sound_children _ _ _ _ Hsd) as [Hu' Hok].
    apply sound_intro.
    - rewrite map_app in *. cbn [map] in Hu'. exact (namesUnique_remove _ _ _ Hu').
    - intros y Hy. apply Hok. apply in_app_or in Hy. apply in_or_app.
      destruct Hy; [left | right; right]; assumption. }
  assert (Hparent' : findItemByPath (parentPathOf path) r'
                     = Some (inr (mkVFolder pi pn pp (l1 ++ l2)))).
  { rewrite (find_after_update (parentPathOf path) (fun f => f) (spliceChild index)
               _ r' _ Ef); [|exact (findItemByPath_path _ _ _ Ef)|exact Hu].
    change (onNode (fun f : VFile => f) (spliceChild index)
              (inr (mkVFolder pi pn pp (l1 ++ victim :: l2))))
      with (@inr VFile VFolder (mkVFolder pi pn pp (splice1 index (l1 ++ victim :: l2)))).
    rewrite Hs. reflexivity. }
  assert (Hgone : findItemByPath path r' = None).
  { destruct (findItemByPath path r') as [x|] eqn:Ex; [exfalso|reflexivity].
    assert (Hxr : x <> inr (root (mkWorkspace r'))).
    { cbn [root]. intros ->. pose proof (findItemByPath_path _ _ _ Ex) as Hx.
      cbn [node_path] in Hx. unfold wellFormed in Hw, Hw'.
      apply andb_true_iff in Hw, Hw'. destruct Hw as [Hw _]. destruct Hw' as [Hw' _].
      apply String.eqb_eq in Hw, Hw'. apply Hnr.
      destruct (root (workspace s)) as [ri rn rp rch] eqn:Er.
      rewrite findItemByPath_unfold in Hf. cbn [folder_path] in Hw.
      rewrite Hw, <- Hx, Hw', String.eqb_refl in Hf. congruence. }
    destruct (wellFormed_node (mkWorkspace r') _ _ Hw' Ex Hxr)
      as (parent' & Hpf' & Hin' & _).
    unfold findParentFolder in Hpf'. cbn [root] in Hpf'. rewrite Hparent' in Hpf'.
    injection Hpf' as <-. cbn [children] in Hin'.
    apply (siblings_apart _ _ _ _ _ _ x Hsp Hin').
    rewrite Hv. exact (findItemByPath_path _ _ _ Ex). }
  eexists. split; [reflexivity|].
  unfold readFile, isFolder, list_children, saveWorkspace. cbn [workspace root].
  rewrite Hgone. repeat split.
  unfold delete, findParentFolder. cbn [workspace root]. rewrite Hparent'.
  cbn [children].
  destruct (findIndex _ (l1 ++ l2)) as [j|] eqn:Ej; [exfalso|reflexivity].
  destruct (findIndex_split _ _ _ Ej) as (k1 & y & k2 & Hk & Hy & _).
  apply String.eqb_eq in Hy.
  apply (siblings_apart _ _ _ _ _ _ y Hsp); [|congruence].
  rewrite Hk. apply in_or_app. right. left. reflexivity.
Qed.

(** X11.  In a well-formed workspace, [delete] of a node other than the
    root returns true, and afterwards nothing is found at the path:
    [readFile] finds no file, [isFolder] is false, [list] is empty, and a
    second [delete] returns false and changes nothing. *)
Theorem delete_then_lookup (path : string) (s : Service) (item : Node) :
  wellFormed (root (workspace s)) = true ->
  findItemByPath path (root (workspace s)) = Some item ->
  item <> inr (root (workspace s)) ->
  exists s',
    delete path s = (true, s') /\
    findItemByPath path (root (workspace s')) = None /\
    readFile path s' = None /\
    isFolder path s' = false /\
    list_children path s' = [] /\
    delete path s' = (false, s').
Proof. exact (delete_gone path s item). Qed.

Lemma delete_then_lookup_witness :
  exists s',
    delete "/src/main.py" freshService = (true, s') /\
    findItemByPath "/src/main.py" (root (workspace s')) = None /\
    readFile "/src/main.py" s' = None /\
    isFolder "/src/main.py" s' = false /\
    list_children "/src/main.py" s' = [] /\
    delete "/src/main.py" s' = (false, s').
Proof.
  apply (delete_then_lookup "/src/main.py" freshService
           (inl (mkVFile "i3" "main.py" "/src/main.py" python (DEFAULT_CODE python) true)));
    [reflexivity | reflexivity | discriminate].
Defined.

(* ================================================================== *)
(** * The result of an execution *)
(* ================================================================== *)

Lemma orElse_nonempty (a b : string) : b <> EmptyString -> orElse a b <> EmptyString.
Proof. unfold orElse. destruct a; cbn [truthy]; [auto | discriminate]. Qed.

Lemma compileFailure_fails (e : string) : snd (compileFailure e) = true.
Proof. unfold compileFailure. destruct (truthy (cleanErrorMessage e)); reflexivity. Qed.

Lemma runOutcome_fails (rn : Phase) :
  snd (runOutcome rn) = false <-> stderr rn = EmptyString /\ code rn = Some 0%Z.
Proof.
  unfold runOutcome. destruct (stderr rn) as [|a e]; cbn [truthy negb andb].
  - destruct (code rn) as [[|q|q]|]; cbn [negb andb snd]; split;
      try (intros [_ H]); try discriminate; auto.
  - rewrite andb_false_r. cbn [snd]. split; [discriminate | intros [H _]; discriminate].
Qed.

Lemma normalize_error_output (result : PistonResult) :
  error (normalize result)
    = (if success (normalize result) then None else Some "Execution failed") /\
  output (normalize result) <> EmptyString.
Proof.
  unfold normalize.
  destruct (if truthy (compileStderr result)
            then compileFailure (compileStderr result)
            else match run result with
                 | Some rn => runOutcome rn
                 | None => (EmptyString, false)
                 end) as [o [|]];
    cbn [success error output negb];
    (split; [reflexivity | apply orElse_nonempty; discriminate]).
Qed.

(** X14.  What [executeCode] makes of a reply of the remote service: the
    result is a success exactly when the compile phase reported no
    [stderr] and the run phase, if there is one, reported no [stderr] and
    the exit code 0; [error] is ['Execution failed'] exactly on a failure;
    and [output] is never empty. *)
Theorem normalize_success (result : PistonResult) :
  (success (normalize result) = true <->
     compileStderr result = EmptyString /\
     match run result with
     | Some rn => stderr rn = EmptyString /\ code rn = Some 0%Z
     | None => True
     end) /\
  error (normalize result)
    = (if success (normalize result) then None else Some "Execution failed") /\
  output (normalize result) <> EmptyString.
Proof.
  split; [|apply normalize_error_output].
  unfold normalize.
  destruct (compileStderr result) as [|a e] eqn:Ec; cbn [truthy].
  - destruct (run result) as [rn|].
    + pose proof (runOutcome_fails rn) as H.
      destruct (runOutcome rn) as [o [|]]; cbn [snd success negb] in *.
      * split; [discriminate|]. intros [_ H']. apply H in H'. discriminate.
      * split; [intros _; split; [reflexivity | apply H; reflexivity] | reflexivity].
    + cbn [success negb]. split; auto.
  - pose proof (compileFailure_fails (String a e)) as H.
    destruct (compileFailure (String a e)) as [o b]. cbn [snd] in H. subst b.
    cbn [success negb]. split; [discriminate | intros [H _]; discriminate].
Qed.

(** X15.  For a language other than JavaScript, whatever the remote
    service does: the console is left as it was, the result has [error]
    absent exactly when [success] is true, and [output] is not empty;
    when the service cannot be reached or answers with an error status,
    the result is a failure whose output is ['Error: '] followed by the
    message in [error], and otherwise it is the reply normalized. *)
Theorem executeCode_result_shape (request : ExecutionRequest) (js : Behaviour)
    (remote : PistonBody -> Reply) (w : World) :
  req_language request <> "javascript" ->
  let r := fst (executeCode request js remote w) in
  snd (executeCode request js remote w) = w /\
  (success r = true <-> error r = None) /\
  output r <> EmptyString /\
  match remote (requestBody request) with
  | Json result => r = normalize result
  | _ => success r = false /\
         exists message, error r = Some message /\ output r = "Error: " ++ message
  end.
Proof.
  intros Hl. unfold executeCode.
  destruct (String.eqb (req_language request) "javascript") eqn:El.
  - apply String.eqb_eq in El. contradiction.
  - destruct (remote (requestBody request)) as [message|status|result]; cbn [fst snd].
    + cbn [success error output]. split; [reflexivity|]. split; [split; discriminate|].
      split; [discriminate|]. split; [reflexivity|]. eauto.
    + cbn [success error output]. split; [reflexivity|]. split; [split; discriminate|].
      split; [discriminate|]. split; [reflexivity|]. eauto.
    + destruct (normalize_error_output result) as (He & Ho).
      split; [reflexivity|]. split; [|split; [exact Ho | reflexivity]].
      rewrite He. destruct (success (normalize result)); split; auto; discriminate.
Qed.

Lemma executeCode_result_shape_witness :
  let request := mkRequest "python" "print(1)" None None in
  let remote := fun _ : PistonBody => Status 503 in
  let w := mkWorld HostLog [] [] in
  let r := fst (executeCode request (mkBehaviour [] None) remote w) in
  snd (executeCode request (mkBehaviour [] None) remote w) = w /\
  (success r = true <-> error r = None) /\
  output r <> EmptyString /\
  match remote (requestBody request) with
  | Json result => r = normalize result
  | _ => success r = false /\
         exists message, error r = Some message /\ output r = "Error: " ++ message
  end.
Proof.
  apply (executeCode_result_shape (mkRequest "python" "print(1)" None None)
           (mkBehaviour [] None) (fun _ : PistonBody => Status 503)
           (mkWorld HostLog [] [])).
  discriminate.
Defined.

(* ================================================================== *)
(** * What the in-process evaluation captures *)
(* ================================================================== *)

Lemma pushAt_length (k : nat) (line : string) (a : list (list string)) :
  List.length (pushAt k line a) = List.length a.
Proof.
  revert k. induction a as [|x a IH]; intros k; [destruct k; reflexivity|].
  destruct k; cbn [pushAt List.length]; [reflexivity|]. rewrite IH. reflexivity.
Qed.

Lemma pushAt_same (k : nat) (line : string) (a : list (list string)) :
  k < List.length a -> nth k (pushAt k line a) [] = (nth k a [] ++ [line])%list.
Proof.
  revert k. induction a as [|x a IH]; intros k Hk; [inversion Hk|].
  destruct k; cbn [pushAt nth]; [reflexivity|].
  apply IH. cbn [List.length] in Hk. lia.
Qed.

Lemma pushAt_other (k j : nat) (line : string) (a : list (list string)) :
  k <> j -> nth j (pushAt k line a) [] = nth j a [].
Proof.
  revert k j. induction a as [|x a IH]; intros k j Hkj; [destruct k; reflexivity|].
  destruct k, j; cbn [pushAt nth]; try reflexivity; [contradiction|].
  apply IH. auto.
Qed.

Lemma call_scoped (n : nat) (l : Logger) (line : string) (w : World) :
  scoped n l = true ->
  List.length (arrays (call l line w)) = List.length (arrays w) /\
  nth n (arrays (call l line w)) [] = nth n (arrays w) [].
Proof.
  revert w. induction l as [|ref l IH|tag]; intros w Hs; cbn [call arrays]; auto.
  cbn [scoped] in Hs. apply andb_true_iff in Hs. destruct Hs as [Hr Hs].
  apply Nat.ltb_lt in Hr.
  destruct (IH (mkWorld (console_log w) (printed w) (pushAt ref line (arrays w))) Hs)
    as [H1 H2].
  cbn [arrays] in H1, H2. rewrite H1, H2, pushAt_length, pushAt_other; [auto | lia].
Qed.

Lemma capture_lines (n : nat) (orig : Logger) (lines : list string) (w : World) :
  scoped n orig = true ->
  console_log w = CaptureLog n orig ->
  List.length (arrays w) = S n ->
  let w' := fold_left (fun w a => step a w) (map Log lines) w in
  console_log w' = CaptureLog n orig /\
  nth n (arrays w') [] = (nth n (arrays w) [] ++ lines)%list.
Proof.
  intros Hs. revert w. induction lines as [|x lines IH]; intros w Hc Hl.
  - cbn [map fold_left]. rewrite app_nil_r. auto.
  - cbn [map fold_left].
    set (w1 := step (Log x) w).
    assert (Hc1 : console_log w1 = CaptureLog n orig).
    { unfold w1. cbn [step]. rewrite call_console_log. exact Hc. }
    assert (H1 : List.length (arrays w1) = S n /\
                 nth n (arrays w1) [] = (nth n (arrays w) [] ++ [x])%list).
    { unfold w1. cbn [step]. rewrite Hc. cbn [call].
      destruct (call_scoped n orig x
                  (mkWorld (console_log w) (printed w) (pushAt n x (arrays w))) Hs)
        as [Ha Hb].
      cbn [arrays] in Ha, Hb. rewrite Ha, Hb, pushAt_length, pushAt_same; [auto | lia]. }
    destruct H1 as [Hl1 Hn1].
    destruct (IH w1 Hc1 Hl1) as [Hc' Hn']. split; [exact Hc'|].
    rewrite Hn', Hn1, <- app_assoc. reflexivity.
Qed.

Lemma joined_or_fixed (lines : list string) (fixed : string) :
  orElse (join nl lines) fixed
  = match lines with
    | [] | [EmptyString] => fixed
    | _ => join nl lines
    end.
Proof.
  destruct lines as [|x [|y l]]; [reflexivity| |].
  - destruct x; reflexivity.
  - unfold join. cbn [String.concat]. destruct x; reflexivity.
Qed.

(** X16.  When the evaluated code only calls [console.log] and ends
    normally, the output is the logged lines in order, joined by line
    feeds; it is the fixed text instead when that text is empty, which
    is when nothing was logged and when the one line logged is the empty
    line ([console.log('')]).  The output is never empty, the result is a
    success without [error], and [console.log] is bound afterwards to
    what it was bound to at entry.  The world is one in which the
    loggers already installed push onto arrays that exist. *)
Theorem executeJavaScript_captures (lines : list string) (w : World) :
  scoped (List.length (arrays w)) (console_log w) = true ->
  let r := executeJavaScript (mkBehaviour (map Log lines) None) w in
  fst r = mkResult
            (match lines with
             | [] | [EmptyString] => "Code executed successfully (no output)"
             | _ => join nl lines
             end)
            None true /\
  output (fst r) <> EmptyString /\
  console_log (snd r) = console_log w.
Proof.
  intros Hs.
  assert (H : fst (executeJavaScript (mkBehaviour (map Log lines) None) w)
              = mkResult (orElse (join nl lines) "Code executed successfully (no output)")
                  None true /\
              console_log (snd (executeJavaScript (mkBehaviour (map Log lines) None) w))
              = console_log w).
  { unfold executeJavaScript, eval. cbn [actions fault console_log arrays fst snd].
    set (n := List.length (arrays w)) in *.
    set (w2 := setConsoleLog (CaptureLog n (console_log w)) _).
    destruct (capture_lines n (console_log w) lines w2 Hs) as [Hc Hn].
    { reflexivity. }
    { unfold w2. cbn [setConsoleLog arrays]. rewrite length_app. cbn [List.length]. lia. }
    cbn [setConsoleLog arrays console_log]. rewrite Hn. unfold w2.
    cbn [setConsoleLog arrays]. rewrite app_nth2, Nat.sub_diag; [|unfold n; lia].
    cbn [nth app]. auto. }
  cbn zeta. destruct H as [Hr Hc]. rewrite Hr, <- joined_or_fixed.
  split; [reflexivity|]. split; [|exact Hc].
  cbn [output]. apply orElse_nonempty. discriminate.
Qed.

Lemma executeJavaScript_captures_witness :
  let w := mkWorld (CaptureLog 0 HostLog) [] [["earlier"]] in
  let r := executeJavaScript (mkBehaviour (map Log ["a"; "b"]) None) w in
  fst r = mkResult
            (match ["a"; "b"] with
             | [] | [EmptyString] => "Code executed successfully (no output)"
             | _ => join nl ["a"; "b"]
             end)
            None true /\
  output (fst r) <> EmptyString /\
  console_log (snd r) = console_log w.
Proof.
  apply (executeJavaScript_captures ["a"; "b"]
           (mkWorld (CaptureLog 0 HostLog) [] [["earlier"]])).
  reflexivity.
Defined.

(** One empty line logged, and nothing logged: the fixed text both times. *)
Example executeJavaScript_empty_line :
  let w := mkWorld HostLog [] [] in
  output (fst (executeJavaScript (mkBehaviour [Log EmptyString] None) w))
    = "Code executed successfully (no output)" /\
  printed (snd (executeJavaScript (mkBehaviour [Log EmptyString] None) w))
    = [EmptyString] /\
  output (fst (executeJavaScript (mkBehaviour [] None) w))
    = "Code executed successfully (no output)" /\
  output (fst (executeJavaScript (mkBehaviour [Log "a"; Log EmptyString] None) w))
    = "a" ++ nl.
Proof. repeat split; reflexivity. Qed.

(* ================================================================== *)
(** * The tabs of the component *)
(* ================================================================== *)

Lemma isActive_same_id (a : option string) (f g : VFile) :
  file_id f = file_id g -> Tabs.isActive a f = Tabs.isActive a g.
Proof. intros H. unfold Tabs.isActive. rewrite H. reflexivity. Qed.

Lemma isActive_ids (a : option string) (f g : VFile) :
  Tabs.isActive a f = true -> Tabs.isActive a g = true -> file_id f = file_id g.
Proof.
  unfold Tabs.isActive. destruct a as [a|]; [|discriminate].
  intros H1 H2. apply String.eqb_eq in H1, H2. congruence.
Qed.

Lemma activeFile_replaceTab (a : option string) (active updated : VFile)
    (tabs : list VFile) :
  find (Tabs.isActive a) tabs = Some active ->
  file_id updated = file_id active ->
  find (Tabs.isActive a) (IDE.replaceTab active updated tabs) = Some updated.
Proof.
  intros Hf Hid. pose proof (find_some _ _ Hf) as [_ Ha].
  induction tabs as [|h tabs IH]; [discriminate|].
  cbn [find] in Hf. cbn [IDE.replaceTab map find].
  destruct (Tabs.isActive a h) eqn:Eh.
  - injection Hf as ->. rewrite String.eqb_refl.
    rewrite (isActive_same_id a updated active Hid), Ha. reflexivity.
  - destruct (String.eqb (file_id h) (file_id active)) eqn:E.
    + apply String.eqb_eq in E. rewrite (isActive_same_id a h active E), Ha in Eh.
      discriminate.
    + rewrite Eh. apply IH. exact Hf.
Qed.




Lemma handleFileSelect_tabs (f : VFile) (st : IDE.State) (freshFile : VFile) :
  readFile (file_path f) (IDE.service st) = Some freshFile ->
  IDE.activeTabId (IDE.handleFileSelect f st) = Some (file_id freshFile) /\
  In freshFile (IDE.openTabs (IDE.handleFileSelect f st)) /\
  map file_path (IDE.openTabs (IDE.handleFileSelect f st))
  = (if existsb (String.eqb (file_path freshFile)) (map file_path (IDE.openTabs st))
     then map file_path (IDE.openTabs st)
     else map file_path (IDE.openTabs st) ++ [file_path freshFile])%list.
Proof.
  intros Hr. unfold IDE.handleFileSelect. rewrite Hr.
  cbn [IDE.withOutput IDE.withActive IDE.withTabs IDE.openTabs IDE.activeTabId].
  split; [reflexivity|].
  set (samePath := fun tab : VFile => String.eqb (file_path tab) (file_path freshFile)).
  destruct (find samePath (IDE.openTabs st)) as [tab|] eqn:Ef.
  - destruct (find_some _ _ Ef) as [Hin Hs]. split.
    + apply in_map_iff. exists tab. unfold samePath in Hs. rewrite Hs. auto.
    + assert (He : existsb (String.eqb (file_path freshFile))
                     (map file_path (IDE.openTabs st)) = true).
      { apply existsb_exists. exists (file_path tab). split; [apply in_map; exact Hin|].
        unfold samePath in Hs. rewrite String.eqb_sym. exact Hs. }
      rewrite He, map_map. apply map_ext. intros x. unfold samePath.
      destruct (String.eqb (file_path x) (file_path freshFile)) eqn:E; [|reflexivity].
      apply String.eqb_eq in E. auto.
  - split; [apply in_or_app; right; left; reflexivity|].
    assert (He : existsb (String.eqb (file_path freshFile))
                   (map file_path (IDE.openTabs st)) = false).
    { destruct (existsb _ _) eqn:E; [|reflexivity].
      apply existsb_exists in E. destruct E as (q & Hq & Heq).
      apply in_map_iff in Hq. destruct Hq as (tab & <- & Hin).
      pose proof (find_none _ _ Ef tab Hin) as Hn. unfold samePath in Hn.
      rewrite String.eqb_sym, Heq in Hn. discriminate. }
    rewrite He, map_app. reflexivity.
Qed.



Lemma NoDup_map_filter {A B : Type} (g : A -> B) (p : A -> bool) (l : list A) :
  NoDup (map g l) -> NoDup (map g (filter p l)).
Proof.
  induction l as [|x l IH]; [auto|]. cbn [map filter]. intros H.
  inversion H as [|y l' Hn Hd]; subst. destruct (p x); [|auto].
  cbn [map]. constructor; [|auto]. intros Hin. apply Hn.
  apply in_map_iff in Hin. destruct Hin as (z & Hz & Hin).
  apply filter_In in Hin. apply in_map_iff. exists z. tauto.
Qed.

Lemma NoDup_snoc {A : Type} (l : list A) (x : A) :
  NoDup l -> ~ In x l -> NoDup (l ++ [x]).
Proof.
  intros Hd Hx. induction Hd as [|y l Hy Hd IH]; cbn [app].
  - constructor; [intros []|constructor].
  - constructor.
    + intros Hin. apply in_app_or in Hin. destruct Hin as [Hin|[->|[]]]; [auto|].
      apply Hx. left. reflexivity.
    + apply IH. intros Hin. apply Hx. right. exact Hin.
Qed.

(** X18.  No two tabs show the same path: opening a file and closing a tab
    keep the paths of the open tabs distinct, and opening a file whose
    path a tab already shows adds no tab. *)
Theorem tab_paths_stay_distinct (st : IDE.State) :
  NoDup (map file_path (IDE.openTabs st)) ->
  (forall f, NoDup (map file_path (IDE.openTabs (IDE.handleFileSelect f st)))) /\
  (forall f,
     NoDup (map file_path
              (Tabs.openTabs
                 (Tabs.handleTabClose f
                    (Tabs.mkState (IDE.openTabs st) (IDE.activeTabId st)))))) /\
  (forall f, In (file_path f) (map file_path (IDE.openTabs st)) ->
     map file_path (IDE.openTabs (IDE.handleFileSelect f st))
     = map file_path (IDE.openTabs st)).
Proof.
  intros Hd. repeat split.
  - intros f. destruct (readFile (file_path f) (IDE.service st)) as [freshFile|] eqn:Er.
    + destruct (handleFileSelect_tabs f st freshFile Er) as (_ & _ & ->).
      destruct (existsb _ _) eqn:E; [exact Hd|].
      apply NoDup_snoc; [exact Hd|]. intros Hin.
      assert (Ht : existsb (String.eqb (file_path freshFile))
                     (map file_path (IDE.openTabs st)) = true).
      { apply existsb_exists. exists (file_path freshFile).
        split; [exact Hin | apply String.eqb_refl]. }
      congruence.
    + unfold IDE.handleFileSelect. rewrite Er. exact Hd.
  - intros f. unfold Tabs.handleTabClose.
    destruct (Tabs.isActive _ _); cbn [Tabs.openTabs]; apply NoDup_map_filter; exact Hd.
  - intros f Hin.
    destruct (readFile (file_path f) (IDE.service st)) as [freshFile|] eqn:Er.
    + destruct (handleFileSelect_tabs f st freshFile Er) as (_ & _ & ->).
      assert (Hp : file_path freshFile = file_path f).
      { unfold readFile in Er.
        destruct (findItemByPath _ _) as [[f0|d]|] eqn:E in Er; try discriminate.
        injection Er as ->. exact (findItemByPath_path _ _ _ E). }
      assert (Ht : existsb (String.eqb (file_path freshFile))
                     (map file_path (IDE.openTabs st)) = true).
      { apply existsb_exists. exists (file_path f).
        split; [exact Hin | rewrite Hp; apply String.eqb_refl]. }
      rewrite Ht. reflexivity.
    + unfold IDE.handleFileSelect. rewrite Er. reflexivity.
Qed.

Lemma tab_paths_stay_distinct_witness :
  let a := mkVFile "i2" "main.cpp" "/src/main.cpp" cpp "edited" false in
  let st := IDE.mkState [a] (Some "i2") EmptyString [] freshService
              (mkTabStore None None) [] in
  (forall f, NoDup (map file_path (IDE.openTabs (IDE.handleFileSelect f st)))) /\
  (forall f,
     NoDup (map file_path
              (Tabs.openTabs
                 (Tabs.handleTabClose f
                    (Tabs.mkState (IDE.openTabs st) (IDE.activeTabId st)))))) /\
  (forall f, In (file_path f) (map file_path (IDE.openTabs st)) ->
     map file_path (IDE.openTabs (IDE.handleFileSelect f st))
     = map file_path (IDE.openTabs st)).
Proof.
  apply (tab_paths_stay_distinct
           (IDE.mkState [mkVFile "i2" "main.cpp" "/src/main.cpp" cpp "edited" false]
              (Some "i2") EmptyString [] freshService (mkTabStore None None) [])).
  cbn [IDE.openTabs map file_path]. constructor; [intros []|constructor].
Defined.

(** X19.  Opening a file is idempotent: a second [handleFileSelect] of the
    same file leaves the tabs, the active tab and the output shown as the
    first left them. *)
Theorem handleFileSelect_idempotent (f : VFile) (st : IDE.State) :
  IDE.handleFileSelect f (IDE.handleFileSelect f st) = IDE.handleFileSelect f st.
Proof.
  unfold IDE.handleFileSelect at 2 3.
  destruct (readFile (file_path f) (IDE.service st)) as [freshFile|] eqn:Er.
  - unfold IDE.handleFileSelect.
    cbn [IDE.withOutput IDE.withActive IDE.withTabs IDE.openTabs IDE.activeTabId
         IDE.service IDE.output IDE.fileOutputs IDE.store IDE.toasts].
    rewrite Er.
    set (g := fun tab : VFile =>
                if String.eqb (file_path tab) (file_path freshFile) then freshFile else tab).
    set (samePath := fun tab : VFile => String.eqb (file_path tab) (file_path freshFile)).
    assert (Hg : forall tab, g (g tab) = g tab).
    { intros tab. unfold g.
      destruct (String.eqb (file_path tab) (file_path freshFile)) eqn:E;
        [|rewrite E; reflexivity].
      rewrite String.eqb_refl. reflexivity. }
    assert (Hfresh : samePath freshFile = true) by apply String.eqb_refl.
    destruct (find samePath (IDE.openTabs st)) as [tab|] eqn:Ef.
    + destruct (find_some _ _ Ef) as [Hin Hs].
      assert (Hf' : exists y, find samePath (map g (IDE.openTabs st)) = Some y).
      { destruct (find samePath (map g (IDE.openTabs st))) as [y|] eqn:E; [eauto|].
        pose proof (find_none _ _ E (g tab) (in_map g _ _ Hin)) as Hn.
        unfold g in Hn. unfold samePath in Hs, Hfresh, Hn.
        rewrite Hs, Hfresh in Hn. discriminate. }
      destruct Hf' as (y & ->). rewrite map_map.
      rewrite (map_ext _ _ Hg). reflexivity.
    + assert (Hf' : exists y, find samePath (IDE.openTabs st ++ [freshFile]) = Some y).
      { destruct (find samePath (IDE.openTabs st ++ [freshFile])) as [y|] eqn:E; [eauto|].
        assert (Hin : In freshFile (IDE.openTabs st ++ [freshFile])).
        { apply in_or_app. right. left. reflexivity. }
        rewrite (find_none _ _ E freshFile Hin) in Hfresh. discriminate. }
      destruct Hf' as (y & ->). rewrite map_app. cbn [map].
      assert (Hid : map g (IDE.openTabs st) = IDE.openTabs st).
      { rewrite <- (map_id (IDE.openTabs st)) at 2. apply map_ext_in.
        intros x Hx. unfold g. pose proof (find_none _ _ Ef x Hx) as Hn.
        unfold samePath in Hn. rewrite Hn. reflexivity. }
      rewrite Hid. unfold g. unfold samePath in Hfresh. rewrite Hfresh. reflexivity.
  - unfold IDE.handleFileSelect. rewrite Er. reflexivity.
Qed.

(* ================================================================== *)
(** * Editing, then saving *)
(* ================================================================== *)

(** X20.  Editing the active file and saving it leaves the workspace as a
    direct [writeFile] of the new text to the file's path does: the file
    then has the text and is saved, and so has the active tab.  Between
    the two, [hasUnsavedChanges()] is true. *)
Theorem edit_then_save (text : string) (st : IDE.State) (active f : VFile) :
  IDE.activeFile st = Some active ->
  readFile (file_path active) (IDE.service st) = Some f ->
  let st1 := IDE.handleCodeChange text st in
  let st2 := IDE.handleSave st1 in
  readFile (file_path active) (IDE.service st1) = Some (IDE.edited text f) /\
  hasUnsavedChanges (IDE.service st1) = true /\
  IDE.activeFile st1 = Some (IDE.edited text active) /\
  IDE.service st2 = snd (writeFile (file_path active) text (IDE.service st)) /\
  readFile (file_path active) (IDE.service st2) = Some (setContent text f) /\
  IDE.activeFile st2 = Some (setContent text active).
Proof.
  intros Ha Hr st1 st2.
  assert (H1 : IDE.service st1
               = saveWorkspace (mutate (file_path active) (IDE.edited text) (fun d => d)
                                  (workspace (IDE.service st)))).
  { unfold st1, IDE.handleCodeChange. rewrite Ha.
    cbn [IDE.withTabs IDE.withService IDE.service]. unfold IDE.overwrite.
    rewrite Hr. reflexivity. }
  assert (Hr1 : readFile (file_path active) (IDE.service st1) = Some (IDE.edited text f)).
  { rewrite H1. apply (readFile_after_mutate _ (IDE.edited text) _ f Hr). reflexivity. }
  assert (Ha1 : IDE.activeFile st1 = Some (IDE.edited text active)).
  { unfold st1, IDE.handleCodeChange. rewrite Ha. unfold IDE.activeFile.
    cbn [IDE.withTabs IDE.withService IDE.openTabs IDE.activeTabId].
    apply activeFile_replaceTab; [exact Ha | reflexivity]. }
  assert (H2 : IDE.service st2 = snd (writeFile (file_path active) text (IDE.service st))).
  { unfold st2, IDE.handleSave. rewrite Ha1.
    cbn [IDE.toast IDE.withTabs IDE.withService IDE.service IDE.edited file_path content].
    unfold writeFile. rewrite Hr1, Hr, H1. cbn [snd saveWorkspace workspace].
    rewrite (mutate_twice (file_path active) (IDE.edited text) (fun d => d)
               (setContent text) (fun d => d) (setContent text) (fun d => d)); auto. }
  split; [exact Hr1|]. split; [|split; [exact Ha1|split; [exact H2|split]]].
  - apply hasUnsavedChanges_some. exists (IDE.edited text f). split; [|reflexivity].
    unfold readFile in Hr1.
    destruct (findItemByPath _ _) as [[f1|d]|] eqn:E in Hr1; try discriminate.
    injection Hr1 as ->.
    destruct (find_descends _ _ _ E) as [H|H]; [discriminate|].
    exact (descends_file _ _ H).
  - rewrite H2. unfold writeFile. rewrite Hr. cbn [snd].
    apply (readFile_after_mutate _ (setContent text) _ f Hr). reflexivity.
  - unfold st2, IDE.handleSave. rewrite Ha1. unfold IDE.activeFile.
    cbn [IDE.toast IDE.withTabs IDE.withService IDE.openTabs IDE.activeTabId].
    unfold IDE.activeFile in Ha1.
    exact (activeFile_replaceTab _ _ (IDE.saved (IDE.edited text active)) _ Ha1 eq_refl).
Qed.

Lemma edit_then_save_witness :
  let tab := mkVFile "i3" "main.py" "/src/main.py" python (DEFAULT_CODE python) true in
  let st := IDE.mkState [tab] (Some "i3") EmptyString [] freshService
              (mkTabStore None None) [] in
  let st1 := IDE.handleCodeChange "pass" st in
  let st2 := IDE.handleSave st1 in
  readFile (file_path tab) (IDE.service st1) = Some (IDE.edited "pass" tab) /\
  hasUnsavedChanges (IDE.service st1) = true /\
  IDE.activeFile st1 = Some (IDE.edited "pass" tab) /\
  IDE.service st2 = snd (writeFile (file_path tab) "pass" (IDE.service st)) /\
  readFile (file_path tab) (IDE.service st2) = Some (setContent "pass" tab) /\
  IDE.activeFile st2 = Some (setContent "pass" tab).
Proof.
  apply (edit_then_save "pass"
           (IDE.mkState
              [mkVFile "i3" "main.py" "/src/main.py" python (DEFAULT_CODE python) true]
              (Some "i3") EmptyString [] freshService (mkTabStore None None) [])
           (mkVFile "i3" "main.py" "/src/main.py" python (DEFAULT_CODE python) true)
           (mkVFile "i3" "main.py" "/src/main.py" python (DEFAULT_CODE python) true));
    reflexivity.
Defined.

(* ================================================================== *)
(** * The tabs across a reload *)
(* ================================================================== *)

Lemma readFile_path (path : string) (s : Service) (f : VFile) :
  readFile path s = Some f -> file_path f = path.
Proof.
  unfold readFile. destruct (findItemByPath path _) as [[f0|d]|] eqn:E; try discriminate.
  intros [= <-]. exact (findItemByPath_path _ _ _ E).
Qed.

Lemma somes_fresh (s : Service) (tabs : list OpenTab) :
  fresh s (IDE.somes (map (fun tab => readFile (filePath tab) s) tabs)).
Proof.
  unfold fresh. induction tabs as [|t tabs IH]; [constructor|].
  cbn [map IDE.somes]. destruct (readFile (filePath t) s) as [f|] eqn:E; [|exact IH].
  constructor; [|exact IH]. rewrite (readFile_path _ _ _ E). exact E.
Qed.

Lemma loadInitialState_shape (s : Service) (t : TabStore)
    (outputs : list (string * string)) :
  let st := IDE.loadInitialState (IDE.initial s t outputs) in
  IDE.openTabs st
    = IDE.somes (map (fun tab => readFile (filePath tab) s) (getOpenTabs t)) /\
  fresh s (IDE.openTabs st) /\
  activeOpen (IDE.openTabs st) (IDE.activeTabId st) /\
  (IDE.openTabs st <> [] -> IDE.activeTabId st <> None) /\
  (forall a f, getActiveTabId t = Some a -> a <> EmptyString ->
     In f (IDE.openTabs st) -> file_id f = a -> IDE.activeTabId st = Some a).
Proof.
  unfold IDE.loadInitialState, IDE.initial. cbn [IDE.store IDE.service].
  destruct (getOpenTabs t) as [|t0 tabs] eqn:Et.
  - cbn [List.length Nat.ltb Nat.leb map IDE.somes IDE.openTabs IDE.activeTabId].
    repeat split; auto; try constructor; try (intros a f _ _ []).
  - cbn [List.length]. change (Nat.ltb 0 (S (List.length tabs))) with true. cbn iota.
    pose proof (somes_fresh s (t0 :: tabs)) as Hfresh.
    set (files := IDE.somes (map (fun tab => readFile (filePath tab) s) (t0 :: tabs))) in *.
    destruct (getActiveTabId t) as [a|].
    + destruct (truthy a && existsb (fun f => String.eqb (file_id f) a) files) eqn:E.
      * cbn [IDE.withActive IDE.withTabs IDE.openTabs IDE.activeTabId].
        apply andb_true_iff in E. destruct E as [_ E]. apply existsb_exists in E.
        destruct E as (f & Hin & Hid). apply String.eqb_eq in Hid.
        repeat split; auto; try discriminate; try congruence. exists f; auto.
      * destruct files as [|f0 files'] eqn:Ef;
          cbn [IDE.withActive IDE.withTabs IDE.openTabs IDE.activeTabId].
        -- repeat split; auto; try (intros a' f _ _ []).
        -- repeat split; auto; try discriminate;
             [exists f0; split; [left|]; reflexivity|].
           intros a' f [= <-] Ha Hin Hid. exfalso.
           apply andb_false_iff in E. destruct E as [E|E].
           ++ destruct a; [contradiction | discriminate].
           ++ assert (Ht : existsb (fun f => String.eqb (file_id f) a) (f0 :: files') = true).
              { apply existsb_exists. exists f. split; [exact Hin|].
                rewrite Hid. apply String.eqb_refl. }
              congruence.
    + destruct files as [|f0 files'] eqn:Ef;
        cbn [IDE.withActive IDE.withTabs IDE.openTabs IDE.activeTabId].
      * repeat split; auto; try (intros a' f H; discriminate).
      * repeat split; auto; try discriminate; try (intros a' f H; discriminate).
        exists f0. split; [left|]; reflexivity.
Qed.

(** X21.  The tabs that the component restores when it is mounted are the
    saved tabs whose path still holds a file, each as the workspace has
    the file now; the active tab is then one of them: the saved one when
    it is among them, else the first; and there is an active tab as soon
    as a tab is restored. *)
Theorem loadInitialState_restores (s : Service) (t : TabStore)
    (outputs : list (string * string)) :
  let st := IDE.loadInitialState (IDE.initial s t outputs) in
  IDE.openTabs st
    = IDE.somes (map (fun tab => readFile (filePath tab) s) (getOpenTabs t)) /\
  fresh s (IDE.openTabs st) /\
  activeOpen (IDE.openTabs st) (IDE.activeTabId st) /\
  (IDE.openTabs st <> [] -> IDE.activeTabId st <> None) /\
  (forall a f, getActiveTabId t = Some a -> a <> EmptyString ->
     In f (IDE.openTabs st) -> file_id f = a -> IDE.activeTabId st = Some a).
Proof. exact (loadInitialState_shape s t outputs). Qed.

Lemma somes_of_fresh (s : Service) (tabs : list VFile) :
  fresh s tabs ->
  IDE.somes (map (fun tab => readFile (filePath tab) s)
               (map (fun tab => mkOpenTab (file_id tab) (file_path tab)) tabs)) = tabs.
Proof.
  unfold fresh. induction 1 as [|x l Hx Hl IH]; [reflexivity|].
  cbn [map IDE.somes filePath]. rewrite Hx, IH. reflexivity.
Qed.

(** X22.  The tabs survive a reload: when every open tab shows the file
    the workspace has at its path and the active tab is one of them,
    saving the tabs and loading them into a newly mounted component
    gives the same tabs and the same active tab. *)
Theorem tabs_survive_reload (st : IDE.State) (outputs : list (string * string)) :
  fresh (IDE.service st) (IDE.openTabs st) ->
  match IDE.activeTabId st with
  | Some a => a <> EmptyString /\ exists tab, In tab (IDE.openTabs st) /\ file_id tab = a
  | None => IDE.openTabs st = []
  end ->
  let st' :=
    IDE.loadInitialState
      (IDE.initial (IDE.service st) (IDE.store (IDE.saveTabsState st)) outputs) in
  IDE.openTabs st' = IDE.openTabs st /\ IDE.activeTabId st' = IDE.activeTabId st.
Proof.
  intros Hf Ha.
  destruct (loadInitialState_shape (IDE.service st) (IDE.store (IDE.saveTabsState st)) outputs)
    as (Htabs & _ & _ & _ & Hact).
  cbn zeta. rewrite Htabs.
  assert (Hsaved : getOpenTabs (IDE.store (IDE.saveTabsState st))
                   = map (fun tab => mkOpenTab (file_id tab) (file_path tab)) (IDE.openTabs st)).
  { unfold IDE.saveTabsState. cbn [IDE.withStore IDE.store].
    destruct (IDE.activeTabId st) as [a|]; cbn [setActiveTabId];
      [destruct (truthy a)|]; reflexivity. }
  rewrite Hsaved, (somes_of_fresh _ _ Hf). split; [reflexivity|].
  rewrite Htabs, Hsaved, (somes_of_fresh _ _ Hf) in Hact.
  destruct (IDE.activeTabId st) as [a|] eqn:Ea.
  - destruct Ha as (Hne & tab & Hin & Hid).
    apply (Hact a tab); auto.
    unfold IDE.saveTabsState. cbn [IDE.withStore IDE.store]. rewrite Ea.
    cbn [setActiveTabId]. destruct a; [contradiction|reflexivity].
  - unfold IDE.loadInitialState, IDE.initial. cbn [IDE.store IDE.service].
    rewrite Hsaved, Ha. reflexivity.
Qed.

Lemma tabs_survive_reload_witness :
  let tab := mkVFile "i3" "main.py" "/src/main.py" python (DEFAULT_CODE python) true in
  let st := IDE.mkState [tab] (Some "i3") EmptyString [] freshService
              (mkTabStore None None) [] in
  let st' :=
    IDE.loadInitialState
      (IDE.initial (IDE.service st) (IDE.store (IDE.saveTabsState st)) []) in
  IDE.openTabs st' = IDE.openTabs st /\ IDE.activeTabId st' = IDE.activeTabId st.
Proof.
  apply (tabs_survive_reload
           (IDE.mkState
              [mkVFile "i3" "main.py" "/src/main.py" python (DEFAULT_CODE python) true]
              (Some "i3") EmptyString [] freshService (mkTabStore None None) []) []).
  - constructor; [reflexivity | constructor].
  - split; [discriminate|]. eexists. split; [left; reflexivity | reflexivity].
Defined.

(* ================================================================== *)
(** * The explorer's handlers *)
(* ================================================================== *)

Lemma rename_false_leaves (path newName : string) (s : Service) :
  fst (rename path newName s) <> Returned true -> snd (rename path newName s) = s.
Proof.
  unfold rename. destruct (findItemByPath path _); [|reflexivity].
  destruct (findParentFolder _ _); [|reflexivity].
  destruct (existsb _ _); [reflexivity|]. cbn [fst]. intros H. contradiction H. reflexivity.
Qed.

(** X23.  [handleRename] does nothing for a blank name.  Otherwise it ends
    the renaming, shows the message of the error when [rename] throws,
    and shows ['Renamed successfully'] whenever [rename] returns, also
    when it returned false because nothing is at the path, in which case
    the workspace is as it was. *)
Theorem handleRename_reports (newName path : string) (p : Explorer.Panel) :
  let s := Explorer.service (Explorer.core p) in
  let p' := Explorer.handleRename newName path p in
  (truthy (trim newName) = false -> p' = p) /\
  (truthy (trim newName) = true ->
     Explorer.renamingItem p' = None /\
     Explorer.service (Explorer.core p') = snd (rename path newName s) /\
     Explorer.toasts (Explorer.core p')
     = (Explorer.toasts (Explorer.core p)
        ++ [match fst (rename path newName s) with
            | Thrown message => Explorer.ToastError message
            | Returned _ => Explorer.ToastSuccess "Renamed successfully"
            end])%list /\
     (findItemByPath path (root (workspace s)) = None ->
        Explorer.service (Explorer.core p') = s /\
        Explorer.toasts (Explorer.core p')
        = (Explorer.toasts (Explorer.core p)
           ++ [Explorer.ToastSuccess "Renamed successfully"])%list)).
Proof.
  cbn zeta. unfold Explorer.handleRename. split.
  - intros ->. reflexivity.
  - intros ->. cbn [negb].
    destruct (rename path newName (Explorer.service (Explorer.core p)))
      as [[b|message] s'] eqn:Er; cbn [fst snd];
      cbn [Explorer.setRenamingItem Explorer.withCore Explorer.toast Explorer.setService
           Explorer.core Explorer.renamingItem Explorer.service Explorer.toasts];
      (split; [reflexivity|]); (split; [reflexivity|]); (split; [reflexivity|]);
      intros Hf; unfold rename in Er; rewrite Hf in Er; inversion Er; subst; auto.
Qed.

Lemma search_unfold path i n p ch :
  Explorer.search path (mkVFolder i n p ch) = searchIn path ch.
Proof.
  simpl. induction ch as [|x ch IH]; simpl; [reflexivity|].
  destruct (String.eqb (node_path x) path); [reflexivity|].
  destruct x as [f|d]; [exact IH|].
  destruct (Explorer.search path d); [reflexivity|exact IH].
Qed.

(** The explorer's lookup is the service's, below the root. *)
Lemma search_children (path : string) (d : VFolder) :
  Explorer.search path d = findInChildren path (children d).
Proof.
  induction d as [i n p ch IH] using VFolder_induction.
  rewrite search_unfold. cbn [children].
  induction ch as [|x ch IHch]; [reflexivity|].
  cbn [searchIn findInChildren].
  destruct (String.eqb (node_path x) path) eqn:Ex; [reflexivity|].
  assert (IHrest : searchIn path ch = findInChildren path ch).
  { apply IHch. intros d Hd. apply IH. right. exact Hd. }
  destruct x as [f|d]; [exact IHrest|].
  rewrite (IH d (or_introl eq_refl)), IHrest.
  destruct d as [di dn dp dc]. rewrite findItemByPath_unfold.
  cbn [node_path folder_path] in Ex. rewrite Ex. reflexivity.
Qed.

Lemma search_below (path : string) (r : VFolder) (item : Node) :
  findItemByPath path r = Some item -> item <> inr r ->
  Explorer.search path r = Some item.
Proof.
  intros Hf Hn. rewrite search_children. destruct r as [i n p ch].
  rewrite findItemByPath_unfold in Hf. cbn [children].
  destruct (String.eqb p path); [|exact Hf]. congruence.
Qed.

Lemma search_root (r : VFolder) :
  wellFormed r = true -> Explorer.search (folder_path r) r = None.
Proof.
  intros Hw. rewrite search_children.
  destruct (findInChildren (folder_path r) (children r)) as [x|] eqn:E; [exfalso|reflexivity].
  unfold wellFormed in Hw. apply andb_true_iff in Hw. destruct Hw as [_ Hs].
  assert (Hd : descends x r).
  { destruct r as [i n p ch]. cbn [children folder_path] in E.
    destruct (String.eqb p p) eqn:Ep; [|rewrite String.eqb_refl in Ep; discriminate].
    clear Ep. apply descends_inv.
    assert (Hl : forall l, findInChildren p l = Some x -> exists c, In c l /\ via c x).
    { induction l as [|y l IHl]; [discriminate|]. cbn [findInChildren].
      destruct (String.eqb (node_path y) p).
      - intros [= <-]. exists y. split; [left|left]; reflexivity.
      - assert (Hrest : findInChildren p l = Some x ->
                  exists c, In c (y :: l) /\ via c x).
        { intros H. destruct (IHl H) as (c & Hc & Hv). exists c. split; [right|]; auto. }
        destruct y as [f|d]; [exact Hrest|].
        destruct (findItemByPath p d) as [found|] eqn:Ed; [|exact Hrest].
        intros [= ->]. exists (inr d). split; [left; reflexivity|].
        destruct (find_descends _ _ _ Ed) as [->|H]; [left; reflexivity|].
        right. exists d. auto. }
    exact (Hl ch E). }
  destruct (descends_shape _ _ Hs Hd) as (rest & Hr & Hp).
  assert (Hx : node_path x = folder_path r).
  { destruct r as [i n p ch]. cbn [children folder_path] in *.
    clear Hd Hp Hs. revert E. generalize ch. induction ch0 as [|y l IHl]; [discriminate|].
    cbn [findInChildren]. destruct (String.eqb (node_path y) p) eqn:Ey.
    - intros [= <-]. apply String.eqb_eq. exact Ey.
    - destruct y as [f|d]; [exact IHl|].
      destruct (findItemByPath p d) as [found|] eqn:Ed; [|exact IHl].
      intros [= ->]. exact (findItemByPath_path _ _ _ Ed). }
  rewrite Hx in Hp. symmetry in Hp. exact (sepPrefix_longer _ _ Hr Hp).
Qed.

(** X24.  The Delete key in a well-formed workspace: with the root
    selected nothing happens; with another node of the tree selected and
    the question confirmed, the node is deleted, so that nothing is found
    at its path afterwards, the selection is cleared and the deletion is
    reported; when the question is declined nothing changes. *)
Theorem handleDelete_spec (confirm : string -> bool) (p : Explorer.Panel)
    (sel : string) (item : Node) :
  let s := Explorer.service (Explorer.core p) in
  wellFormed (root (workspace s)) = true ->
  Explorer.selectedItem p = Some sel ->
  findItemByPath sel (root (workspace s)) = Some item ->
  (item = inr (root (workspace s)) -> Explorer.handleDelete confirm p = p) /\
  (item <> inr (root (workspace s)) ->
     (confirm (Explorer.deleteMessage item) = false -> Explorer.handleDelete confirm p = p) /\
     (confirm (Explorer.deleteMessage item) = true ->
        let p' := Explorer.handleDelete confirm p in
        Explorer.service (Explorer.core p') = snd (delete sel s) /\
        fst (delete sel s) = true /\
        findItemByPath sel (root (workspace (Explorer.service (Explorer.core p')))) = None /\
        Explorer.selectedItem p' = None /\
        Explorer.toasts (Explorer.core p')
        = (Explorer.toasts (Explorer.core p)
           ++ [Explorer.ToastSuccess ("Deleted " ++ node_name item)])%list)).
Proof.
  cbn zeta. intros Hw Hsel Hf.
  pose proof (findItemByPath_path _ _ _ Hf) as Hp.
  unfold Explorer.handleDelete. rewrite Hsel.
  unfold Explorer.findItemByPath, getWorkspace. split.
  - intros ->. cbn [node_path] in Hp. rewrite <- Hp, (search_root _ Hw).
    destruct (negb _); reflexivity.
  - intros Hn. rewrite (search_below _ _ _ Hf Hn).
    assert (Ht : truthy sel = true).
    { destruct sel; [|reflexivity]. exfalso.
      destruct (wellFormed_node _ _ _ Hw Hf Hn) as (parent & _ & _ & _ & Hj & Hk).
      rewrite joinPath_sep in Hj. destruct (nameOk_parts _ Hk) as [Hne _].
      unfold sepPrefix in Hj. destruct (String.eqb (folder_path parent) "/");
        [discriminate|].
      destruct (folder_path parent); discriminate. }
    rewrite Ht. cbn [negb]. split.
    + intros ->. reflexivity.
    + intros ->. rewrite Hp.
      destruct (delete_gone sel _ item Hw Hf Hn) as (s' & Hd & Hg & _).
      rewrite Hd.
      cbn [snd fst Explorer.withCore Explorer.setSelectedItem Explorer.toast
           Explorer.setService Explorer.core Explorer.service Explorer.toasts
           Explorer.selectedItem].
      auto.
Qed.

Lemma handleDelete_spec_witness :
  let item : Node :=
    inl (mkVFile "i3" "main.py" "/src/main.py" python (DEFAULT_CODE python) true) in
  let p := Explorer.mkPanel (Explorer.mkState None freshService [] []) ["/"] None None
             "/" (Some "/src/main.py") in
  let confirm := fun _ : string => true in
  (item = inr (root (workspace freshService)) -> Explorer.handleDelete confirm p = p) /\
  (item <> inr (root (workspace freshService)) ->
     (confirm (Explorer.deleteMessage item) = false -> Explorer.handleDelete confirm p = p) /\
     (confirm (Explorer.deleteMessage item) = true ->
        let p' := Explorer.handleDelete confirm p in
        Explorer.service (Explorer.core p') = snd (delete "/src/main.py" freshService) /\
        fst (delete "/src/main.py" freshService) = true /\
        findItemByPath "/src/main.py"
          (root (workspace (Explorer.service (Explorer.core p')))) = None /\
        Explorer.selectedItem p' = None /\
        Explorer.toasts (Explorer.core p')
        = (Explorer.toasts (Explorer.core p)
           ++ [Explorer.ToastSuccess ("Deleted " ++ node_name item)])%list)).
Proof.
  apply (handleDelete_spec (fun _ : string => true)
           (Explorer.mkPanel (Explorer.mkState None freshService [] []) ["/"] None None
              "/" (Some "/src/main.py"))
           "/src/main.py"
           (inl (mkVFile "i3" "main.py" "/src/main.py" python (DEFAULT_CODE python) true)));
    reflexivity.
Defined.

Lemma allowedName_passes (name : string) :
  allowedName name = true ->
  match option_map toLowerCase (pop (split "."%char name)) with
  | Some e => negb (truthy e) || negb (Explorer.isAllowed e)
  | None => true
  end = false.
Proof.
  unfold allowedName, extension.
  destruct (option_map toLowerCase (pop (split "."%char name))) as [e|]; [|discriminate].
  intros H. apply andb_true_iff in H. destruct H as [-> ->]. reflexivity.
Qed.

(** X25.  Creating an item whose name a child of the folder already bears:
    [handleCreateItem] shows the message of the error that the service
    throws, creates nothing, hands no file to the tabs and ends the
    creation.  A file name is one whose extension is allowed. *)
Theorem handleCreateItem_collision (st : Explorer.State) (parentPath name newId : string)
    (type : Explorer.ItemType) (parent : VFolder) :
  Explorer.newItemParent st = Some (parentPath, type) ->
  truthy (trim name) = true ->
  (type = Explorer.file -> allowedName name = true) ->
  findItemByPath parentPath (root (workspace (Explorer.service st))) = Some (inr parent) ->
  hasChildNamed name parent = true ->
  Explorer.handleCreateItem name newId st
  = Explorer.mkState None (Explorer.service st)
      (Explorer.toasts st ++
       [Explorer.ToastError
          (match type with Explorer.file => "File " | Explorer.folder => "Folder " end
           ++ dq ++ name ++ dq ++ " already exists in this folder")])
      (Explorer.selected st).
Proof.
  intros Hn Ht Ha Hp Hc. unfold Explorer.handleCreateItem. rewrite Hn, Ht. cbn [negb].
  destruct type.
  - rewrite (allowedName_passes name (Ha eq_refl)).
    rewrite (createFile_collision _ _ _ _ _ _ Hp Hc). reflexivity.
  - rewrite (createFolder_collision _ _ _ _ _ Hp Hc). reflexivity.
Qed.

Lemma handleCreateItem_collision_witness :
  Explorer.handleCreateItem "main.py" "i9"
    (Explorer.mkState (Some ("/src", Explorer.file)) freshService [] [])
  = Explorer.mkState None freshService
      [Explorer.ToastError
         ("File " ++ dq ++ "main.py" ++ dq ++ " already exists in this folder")]
      [].
Proof.
  apply (handleCreateItem_collision
           (Explorer.mkState (Some ("/src", Explorer.file)) freshService [] [])
           "/src" "main.py" "i9" Explorer.file
           (mkVFolder "i1" "src" "/src"
              [inl (mkVFile "i2" "main.cpp" "/src/main.cpp" cpp (DEFAULT_CODE cpp) true);
               inl (mkVFile "i3" "main.py" "/src/main.py" python (DEFAULT_CODE python) true)]));
    reflexivity.
Defined.

(** X26.  Creating a file through the explorer of a well-formed workspace,
    in a folder that has no child of that name: the file is created with
    the language of its extension and the template of that language, not
    saved; it is handed to the tabs, the creation is reported and ended;
    and [handleFileSelect] of that file opens a tab with it and makes it
    the active tab. *)
Theorem handleCreateItem_opens (st : Explorer.State) (parentPath name newId : string)
    (parent : VFolder) :
  wellFormed (root (workspace (Explorer.service st))) = true ->
  Explorer.newItemParent st = Some (parentPath, Explorer.file) ->
  truthy (trim name) = true ->
  allowedName name = true ->
  nameOk name = true ->
  findItemByPath parentPath (root (workspace (Explorer.service st))) = Some (inr parent) ->
  hasChildNamed name parent = false ->
  let l := getLanguageFromExtension name in
  let f := mkVFile newId name (joinPath parentPath name) l (DEFAULT_CODE l) false in
  let st' := Explorer.handleCreateItem name newId st in
  Explorer.newItemParent st' = None /\
  Explorer.selected st' = (Explorer.selected st ++ [f])%list /\
  Explorer.toasts st'
  = (Explorer.toasts st ++ [Explorer.ToastSuccess ("Created " ++ name)])%list /\
  readFile (joinPath parentPath name) (Explorer.service st') = Some f /\
  (forall ide, IDE.service ide = Explorer.service st' ->
     In f (IDE.openTabs (IDE.handleFileSelect f ide)) /\
     IDE.activeTabId (IDE.handleFileSelect f ide) = Some newId).
Proof.
  intros Hw Hn Ht Ha Hok Hp Hc l f st'.
  destruct (createFile_ok parentPath name (Some l) newId _ parent Hp Hc)
    as (s' & Hcreate & _ & Hr & _).
  cbn zeta in Hcreate, Hr. fold f in Hcreate, Hr.
  pose proof (findItemByPath_path _ _ _ Hp) as Hpp. cbn [node_path] in Hpp.
  destruct (pushed_found _ _ parent (inl f) Hw Hr) as (_ & _ & Hfind & _).
  { unfold childOk. cbn [node_path node_name file_path file_name below f].
    rewrite Hpp, joinPath_sep. auto. }
  { exact Hc. }
  cbn [node_path f file_path] in Hfind.
  assert (Hst : st' = Explorer.setNewItemParent None
                        (Explorer.toast (Explorer.ToastSuccess ("Created " ++ name))
                           (Explorer.onFileSelect f (Explorer.setService s' st)))).
  { unfold st', Explorer.handleCreateItem. rewrite Hn, Ht. cbn [negb].
    rewrite (allowedName_passes name Ha), getLanguageFromExtension_agree.
    fold l. rewrite Hcreate. reflexivity. }
  assert (Hread : readFile (joinPath parentPath name) (Explorer.service st') = Some f).
  { rewrite Hst. cbn [Explorer.setNewItemParent Explorer.toast Explorer.onFileSelect
                      Explorer.setService Explorer.service].
    unfold readFile. rewrite Hfind. reflexivity. }
  rewrite Hst at 1 2 3.
  cbn [Explorer.setNewItemParent Explorer.toast Explorer.onFileSelect
       Explorer.setService Explorer.newItemParent Explorer.selected Explorer.toasts].
  repeat split; auto.
  - destruct (handleFileSelect_tabs f ide f) as (_ & Hin & _); [|exact Hin].
    rewrite H. exact Hread.
  - destruct (handleFileSelect_tabs f ide f) as (Hact & _); [|exact Hact].
    rewrite H. exact Hread.
Qed.

Lemma handleCreateItem_opens_witness :
  let f := mkVFile "i9" "app.js" (joinPath "/src" "app.js") javascript
             (DEFAULT_CODE javascript) false in
  let st' := Explorer.handleCreateItem "app.js" "i9"
               (Explorer.mkState (Some ("/src", Explorer.file)) freshService [] []) in
  Explorer.newItemParent st' = None /\
  Explorer.selected st' = ([] ++ [f])%list /\
  Explorer.toasts st' = ([] ++ [Explorer.ToastSuccess ("Created " ++ "app.js")])%list /\
  readFile (joinPath "/src" "app.js") (Explorer.service st') = Some f /\
  (forall ide, IDE.service ide = Explorer.service st' ->
     In f (IDE.openTabs (IDE.handleFileSelect f ide)) /\
     IDE.activeTabId (IDE.handleFileSelect f ide) = Some "i9").
Proof.
  apply (handleCreateItem_opens
           (Explorer.mkState (Some ("/src", Explorer.file)) freshService [] [])
           "/src" "app.js" "i9"
           (mkVFolder "i1" "src" "/src"
              [inl (mkVFile "i2" "main.cpp" "/src/main.cpp" cpp (DEFAULT_CODE cpp) true);
               inl (mkVFile "i3" "main.py" "/src/main.py" python (DEFAULT_CODE python) true)]));
    reflexivity.
Defined.

(* ================================================================== *)
(** * The path helpers of the utilities *)
(* ================================================================== *)

Lemma clampIndex_nat (i : nat) (s : string) :
  i <= String.length s -> clampIndex (Z.of_nat i) s = i.
Proof. intros H. unfold clampIndex. lia. Qed.

Lemma clampIndex_low (n : Z) (s : string) : (n <= 0)%Z -> clampIndex n s = 0.
Proof. intros H. unfold clampIndex. lia. Qed.

Lemma substring_from_head (i : nat) (s : string) :
  i <= String.length s -> JS.substring 0 (Z.of_nat i) s = String.substring 0 i s.
Proof.
  intros H. unfold JS.substring. rewrite (clampIndex_low 0 s), (clampIndex_nat i s H); [|lia].
  rewrite Nat.min_0_l, Nat.max_0_l, Nat.sub_0_r. reflexivity.
Qed.

Lemma substring_none (s : string) : String.substring 0 0 s = EmptyString.
Proof. destruct s; reflexivity. Qed.

Lemma lastIndex_bound (c : ascii) (s : string) (i : nat) :
  lastIndex c s = Some i -> i < String.length s.
Proof.
  revert i. induction s as [|a s IH]; intros i; simpl; [discriminate|].
  destruct (lastIndex c s) as [j|].
  - intros [= <-]. specialize (IH j eq_refl). lia.
  - destruct (Ascii.eqb a c); [|discriminate]. intros [= <-]. lia.
Qed.

Lemma substring_split (k : nat) (s : string) :
  k <= String.length s ->
  String.substring 0 k s ++ String.substring k (String.length s - k) s = s.
Proof.
  revert k. induction s as [|a s IH]; intros k Hk.
  - destruct k; reflexivity.
  - destruct k as [|k].
    + cbn [String.substring String.append String.length Nat.sub].
      f_equal. specialize (IH 0 (Nat.le_0_l _)).
      rewrite substring_none, Nat.sub_0_r in IH. exact IH.
    + cbn [String.substring String.append String.length Nat.sub].
      f_equal. apply IH. cbn [String.length] in Hk. lia.
Qed.

Lemma append_empty (b : string) : b ++ EmptyString = b.
Proof. induction b as [|y b IHb]; simpl; [reflexivity | rewrite IHb; reflexivity]. Qed.

Lemma substring_tail (a b : string) :
  String.substring (String.length a) (String.length b) (a ++ b) = b.
Proof.
  induction a as [|x a IH]; cbn [String.length String.append String.substring].
  - pose proof (substring_head b EmptyString) as H.
    rewrite append_empty in H. exact H.
  - exact IH.
Qed.

Lemma getParentPath_parentPathOf (path : string) :
  FileUtils.getParentPath path = parentPathOf path.
Proof.
  unfold FileUtils.getParentPath, parentPathOf.
  destruct (String.eqb path "/") eqn:E.
  - apply String.eqb_eq in E. subst path. reflexivity.
  - unfold lastIndexOf. destruct (lastIndex "/" path) as [i|] eqn:Ei.
    + pose proof (lastIndex_bound _ _ _ Ei) as Hb.
      rewrite (substring_from_head i path) by lia.
      destruct i as [|i].
      * cbn [Z.of_nat Z.leb Z.compare]. rewrite substring_none. reflexivity.
      * replace (Z.of_nat (S i) <=? 0)%Z with false by (symmetry; apply Z.leb_gt; lia).
        destruct path as [|a path]; [discriminate|]. reflexivity.
    + cbn [Z.leb Z.compare]. unfold JS.substring.
      rewrite (clampIndex_low 0 path), (clampIndex_low (-1) path) by lia.
      cbn [Nat.min Nat.max Nat.sub]. rewrite substring_none. reflexivity.
Qed.

(** X27.  The path helpers of the utilities and the service agree:
    [getParentPath] gives, for every text, the parent path that the
    service computes in [findParentFolder]; a path is recomposed from its
    own base name, [rename] to [getBasename(path)] computes the path
    itself; and the path that the service joins from a parent path and a
    name without a slash is taken apart again, [getBasename] gives the
    name and [getParentPath] the parent path. *)
Theorem path_helpers_agree :
  (forall path,
     FileUtils.getParentPath path = parentPathOf path /\
     renamedPath path (FileUtils.getBasename path) = path) /\
  (forall p n,
     p <> EmptyString -> hasChar "/" n = false ->
     FileUtils.getBasename (joinPath p n) = n /\
     FileUtils.getParentPath (joinPath p n) = p).
Proof.
  split.
  - intros path. split; [apply getParentPath_parentPathOf|].
    unfold renamedPath, FileUtils.getBasename, lastIndexOf.
    assert (G : forall k, k <= String.length path ->
              JS.substring 0 (Z.of_nat k) path
              ++ JS.substring (Z.of_nat k) (Z.of_nat (String.length path)) path = path).
    { intros k Hk. rewrite (substring_from_head k path Hk). unfold JS.substring.
      rewrite (clampIndex_nat k path Hk), (clampIndex_nat _ path (Nat.le_refl _)).
      rewrite Nat.min_l, Nat.max_r by lia. apply substring_split. exact Hk. }
    destruct (lastIndex "/" path) as [i|] eqn:Ei.
    + pose proof (lastIndex_bound _ _ _ Ei) as Hb.
      replace (Z.of_nat i + 1)%Z with (Z.of_nat (S i)) by lia. apply G. lia.
    + exact (G 0 (Nat.le_0_l _)).
  - intros p n Hp Hn. split.
    + assert (G : forall a, FileUtils.getBasename (a ++ String "/" n) = n).
      { intros a. unfold FileUtils.getBasename, lastIndexOf.
        rewrite (lastIndex_last _ a n Hn).
        replace (Z.of_nat (String.length a) + 1)%Z
          with (Z.of_nat (String.length (a ++ "/")))
          by (rewrite length_append; cbn [String.length]; lia).
        unfold JS.substring.
        change (a ++ String "/" n) with (a ++ ("/" ++ n)). rewrite <- append_assoc.
        rewrite (clampIndex_nat (String.length (a ++ "/"))),
          (clampIndex_nat _ _ (Nat.le_refl _))
          by (rewrite (length_append (a ++ "/") n); lia).
        rewrite Nat.min_l, Nat.max_r by (rewrite (length_append (a ++ "/") n); lia).
        rewrite (length_append (a ++ "/") n).
        replace (String.length (a ++ "/") + String.length n - String.length (a ++ "/"))
          with (String.length n) by lia.
        apply substring_tail. }
      unfold joinPath. destruct (String.eqb p "/").
      * exact (G EmptyString).
      * exact (G p).
    + rewrite getParentPath_parentPathOf. exact (parentPathOf_join p n Hp Hn).
Qed.

(* ================================================================== *)
(** * Matching a class of characters, and the end of the input *)
(* ================================================================== *)

Lemma run_star_chr (p : ascii -> bool) (k : option ascii -> string -> option string)
    (prev : option ascii) (s : string) :
  Regex.run (Regex.Star (Regex.Chr p)) prev s k = starChr p k prev s.
Proof.
  assert (G : forall fuel pv t, String.length t < fuel ->
    (fix iter (fuel : nat) (pv : option ascii) (t : string) {struct fuel}
       : option string :=
       match fuel with
       | O => k pv t
       | S fuel' =>
           match
             Regex.run (Regex.Chr p) pv t
               (fun pv' t' =>
                  if Nat.ltb (String.length t') (String.length t)
                  then iter fuel' pv' t' else None)
           with
           | Some rest => Some rest
           | None => k pv t
           end
       end) fuel pv t = starChr p k pv t).
  { induction fuel as [|fuel IH]; intros pv t Hl; [inversion Hl|].
    destruct t as [|a t]; [reflexivity|].
    cbn [Regex.run starChr]. destruct (p a); [|reflexivity].
    assert (Hlt : Nat.ltb (String.length t) (String.length (String a t)) = true).
    { apply Nat.ltb_lt. cbn [String.length]. lia. }
    rewrite Hlt, IH; [reflexivity|]. cbn [String.length] in Hl. lia. }
  exact (G (S (String.length s)) prev s (Nat.lt_succ_diag_r _)).
Qed.

Lemma run_seq (r1 r2 : Regex.re) prev s k :
  Regex.run (Regex.Seq r1 r2) prev s k
  = Regex.run r1 prev s (fun pv s' => Regex.run r2 pv s' k).
Proof. reflexivity. Qed.

Lemma run_chr (p : ascii -> bool) prev s k :
  Regex.run (Regex.Chr p) prev s k
  = match s with
    | String a s' => if p a then k (Some a) s' else None
    | EmptyString => None
    end.
Proof. destruct s; reflexivity. Qed.

Lemma run_bol (m : bool) prev s k :
  Regex.run (Regex.Bol m) prev s k
  = if Regex.atLineStart m prev then k prev s else None.
Proof. reflexivity. Qed.

Lemma run_plus_chr (p : ascii -> bool) prev s k :
  Regex.run (Regex.Plus (Regex.Chr p)) prev s k
  = match s with
    | String a s' => if p a then starChr p k (Some a) s' else None
    | EmptyString => None
    end.
Proof.
  unfold Regex.Plus. rewrite run_seq, run_chr. destruct s as [|a s]; [reflexivity|].
  destruct (p a); [apply run_star_chr | reflexivity].
Qed.

Lemma starChr_toEnd (p : ascii -> bool) (pv : option ascii) (t : string) :
  starChr p toEnd pv t = if allIn p t then Some EmptyString else None.
Proof.
  revert pv. induction t as [|a t IH]; intros pv; [reflexivity|].
  cbn [starChr allIn]. destruct (p a); cbn [andb]; [|reflexivity].
  rewrite IH. destruct (allIn p t); reflexivity.
Qed.

Lemma starChr_any (p : ascii -> bool) (pv : option ascii) (t : string) :
  headFree t = true -> p = Ascii.eqb "/"%char ->
  starChr p (fun _ rest => Some rest) pv t = Some t.
Proof.
  intros H ->. destruct t as [|a t]; [reflexivity|].
  cbn [starChr]. cbn [headFree] in H. rewrite Ascii.eqb_sym.
  apply negb_true_iff in H. rewrite H. reflexivity.
Qed.

(* ================================================================== *)
(** * Joining paths in the utilities *)
(* ================================================================== *)

Lemma endFree_tail (a : ascii) (t : string) :
  endFree (String a t) = true -> endFree t = true.
Proof. destruct t as [|b t]; [reflexivity|]. cbn [endFree]. auto. Qed.

Lemma endFree_not_all (t : string) :
  endFree t = true -> t <> EmptyString -> allIn (Ascii.eqb "/"%char) t = false.
Proof.
  induction t as [|a t IH]; [contradiction|]. intros He _.
  cbn [allIn]. destruct t as [|b t].
  - cbn [endFree] in He. apply negb_true_iff in He. rewrite Ascii.eqb_sym, He. reflexivity.
  - rewrite IH; [apply andb_false_r | exact (endFree_tail _ _ He) | discriminate].
Qed.

Lemma matchEither_inner (a : ascii) (t : string) :
  endFree t = true ->
  Regex.matchEither (Regex.Seq (Regex.Bol false) (Regex.Plus FileUtils.slash))
    (Regex.Plus FileUtils.slash) (Some a) t = None.
Proof.
  intros He. unfold Regex.matchEither, Regex.matchAt, Regex.matchToEnd, FileUtils.slash.
  rewrite run_seq, run_bol. cbn [Regex.atLineStart andb].
  change (fun (_ : option ascii) (rest : string) =>
            match rest with EmptyString => Some rest | String _ _ => None end) with toEnd.
  rewrite run_plus_chr.
  destruct t as [|c t]; [reflexivity|].
  destruct (Ascii.eqb "/" c) eqn:Ec; [|reflexivity].
  rewrite starChr_toEnd.
  destruct t as [|b t].
  - cbn [endFree] in He. apply Ascii.eqb_eq in Ec. subst c. discriminate.
  - rewrite (endFree_not_all (String b t)); [reflexivity | exact (endFree_tail _ _ He) |
      discriminate].
Qed.

Lemma strip_inner (a : ascii) (t : string) :
  endFree t = true ->
  Regex.replaceEitherFrom (Regex.Seq (Regex.Bol false) (Regex.Plus FileUtils.slash))
    (Regex.Plus FileUtils.slash) EmptyString 0 (Some a) t = t.
Proof.
  revert a. induction t as [|c t IH]; intros a He.
  - cbn [Regex.replaceEitherFrom]. rewrite (matchEither_inner a EmptyString He). reflexivity.
  - cbn [Regex.replaceEitherFrom]. rewrite (matchEither_inner a _ He).
    rewrite (IH c (endFree_tail _ _ He)). reflexivity.
Qed.

Lemma stripSlashes_rooted (body : string) :
  headFree body = true -> endFree body = true ->
  FileUtils.stripSlashes (String "/" body) = body.
Proof.
  intros Hh He. unfold FileUtils.stripSlashes, Regex.replaceEither.
  cbn [Regex.replaceEitherFrom].
  assert (Hm : Regex.matchEither (Regex.Seq (Regex.Bol false) (Regex.Plus FileUtils.slash))
                 (Regex.Plus FileUtils.slash) None (String "/" body) = Some body).
  { unfold Regex.matchEither, Regex.matchAt, FileUtils.slash.
    rewrite run_seq, run_bol. cbn [Regex.atLineStart]. rewrite run_plus_chr.
    rewrite Ascii.eqb_refl, (starChr_any _ _ _ Hh eq_refl). reflexivity. }
  rewrite Hm. cbn [String.length].
  replace (S (String.length body) - String.length body) with 1 by lia.
  cbn [String.append]. apply strip_inner. exact He.
Qed.

Lemma stripSlashes_plain (n : string) :
  headFree n = true -> endFree n = true -> FileUtils.stripSlashes n = n.
Proof.
  intros Hh He. destruct n as [|c n]; [reflexivity|].
  unfold FileUtils.stripSlashes, Regex.replaceEither. cbn [Regex.replaceEitherFrom].
  assert (Hm : Regex.matchEither (Regex.Seq (Regex.Bol false) (Regex.Plus FileUtils.slash))
                 (Regex.Plus FileUtils.slash) None (String c n) = None).
  { unfold Regex.matchEither, Regex.matchAt, Regex.matchToEnd, FileUtils.slash.
    rewrite run_seq, run_bol. cbn [Regex.atLineStart]. rewrite !run_plus_chr.
    cbn [headFree] in Hh. apply negb_true_iff in Hh. rewrite Ascii.eqb_sym, Hh.
    reflexivity. }
  rewrite Hm, (strip_inner c n (endFree_tail _ _ He)). reflexivity.
Qed.

Lemma replace_bol_inner (rep : string) (a : ascii) (s : string) :
  Regex.replaceFrom (Regex.Bol false) rep 0 (Some a) s = s.
Proof.
  revert a. induction s as [|c s IH]; intros a; [reflexivity|].
  cbn [Regex.replaceFrom]. unfold Regex.matchAt. cbn [Regex.run Regex.atLineStart andb].
  rewrite IH. reflexivity.
Qed.

Lemma replace_bol (rep s : string) : Regex.replace (Regex.Bol false) rep s = rep ++ s.
Proof.
  unfold Regex.replace. destruct s as [|a s].
  - rewrite append_empty. reflexivity.
  - cbn [Regex.replaceFrom]. unfold Regex.matchAt. cbn [Regex.run Regex.atLineStart].
    rewrite Nat.sub_diag, replace_bol_inner. reflexivity.
Qed.

(** X28.  [joinPath] of the utilities always gives a path that begins with
    a slash, the root for no part; and for a parent path that begins with
    one slash and bears none at its end, the root among them, and a name
    that is not empty and bears no slash at its head or end, it gives the
    path that the service joins in [createFile] and [createFolder]. *)
Theorem joinPath_agrees :
  (forall parts, exists rest, FileUtils.joinPath parts = "/" ++ rest) /\
  FileUtils.joinPath [] = "/" /\
  (forall body n,
     headFree body = true -> endFree body = true ->
     truthy n = true -> headFree n = true -> endFree n = true ->
     FileUtils.joinPath ["/" ++ body; n] = joinPath ("/" ++ body) n).
Proof.
  split; [|split].
  - intros parts. unfold FileUtils.joinPath. rewrite replace_bol. eauto.
  - reflexivity.
  - intros body n Hbh Hbe Hn Hnh Hne. unfold FileUtils.joinPath.
    rewrite replace_bol. cbn [map String.append].
    rewrite (stripSlashes_rooted body Hbh Hbe), (stripSlashes_plain n Hnh Hne).
    destruct n as [|c n]; [discriminate|].
    destruct body as [|b body].
    + reflexivity.
    + cbn [filter String.length Nat.ltb Nat.leb]. unfold joinPath.
      change ("/" ++ String b body) with (String "/" (String b body)).
      destruct (String.eqb_spec (String "/" (String b body)) "/") as [E|E];
        [discriminate E | reflexivity].
Qed.

(* ================================================================== *)
(** * Duplicating a file *)
(* ================================================================== *)

Lemma replaceEnd_prefix (r : Regex.re) (prev : option ascii) (s : string) :
  exists rest, s = Regex.replaceEndFrom r EmptyString prev s ++ rest.
Proof.
  revert prev. induction s as [|a s IH]; intros prev.
  - exists EmptyString. cbn [Regex.replaceEndFrom].
    destruct (Regex.matchToEnd r prev EmptyString); reflexivity.
  - cbn [Regex.replaceEndFrom]. destruct (Regex.matchToEnd r prev (String a s)).
    + exists (String a s). reflexivity.
    + destruct (IH (Some a)) as (rest & Hr). exists rest.
      cbn [String.append]. rewrite <- Hr. reflexivity.
Qed.

Lemma split_segments (c d : ascii) (s e : string) :
  hasChar d s = false -> In e (split c s) -> hasChar d e = false.
Proof.
  revert e. induction s as [|a s IH]; intros e Hs.
  - intros [<-|[]]. reflexivity.
  - cbn [hasChar] in Hs. apply orb_false_iff in Hs. destruct Hs as [Ha Hs].
    cbn [split]. destruct (Ascii.eqb a c).
    + intros [<-|Hin]; [reflexivity | exact (IH e Hs Hin)].
    + destruct (split c s) as [|h t] eqn:E.
      * intros [<-|[]]. cbn [hasChar]. rewrite Ha. reflexivity.
      * intros [<-|Hin].
        -- cbn [hasChar]. rewrite Ha. apply IH; [exact Hs | left; reflexivity].
        -- apply IH; [exact Hs | right; exact Hin].
Qed.

Lemma pop_In (l : list string) (e : string) : pop l = Some e -> In e l.
Proof.
  induction l as [|x l IH]; [discriminate|]. cbn [pop].
  destruct l as [|y l]; [intros [= <-]; left; reflexivity|].
  intros H. right. exact (IH H).
Qed.

Lemma nameOk_copyName (n : string) :
  nameOk n = true -> nameOk (Explorer.copyName n) = true.
Proof.
  intros H. destruct (nameOk_parts n H) as [_ Hs].
  unfold nameOk, Explorer.copyName. apply andb_true_iff. split.
  - destruct (Regex.replaceEnd _ _ n); reflexivity.
  - apply negb_true_iff. rewrite !hasChar_append. cbn [hasChar Ascii.eqb Bool.eqb orb].
    apply orb_false_iff. split.
    + unfold Regex.replaceEnd.
      destruct (replaceEnd_prefix
                  (Regex.Seq (Regex.lit ".")
                     (Regex.Plus
                        (Regex.Chr (fun a => negb (Ascii.eqb a "/"%char
                                                   || Ascii.eqb a "."%char)))))
                  None n) as (rest & Hr).
      rewrite Hr, hasChar_append in Hs. apply orb_false_iff in Hs. exact (proj1 Hs).
    + destruct (includes "." n); [|reflexivity].
      rewrite hasChar_append. cbn [hasChar Ascii.eqb Bool.eqb orb].
      destruct (pop (split "." n)) as [e|] eqn:E; [|reflexivity].
      exact (split_segments _ _ _ _ Hs (pop_In _ _ E)).
Qed.

Lemma allIn_dotted (b ext : string) : allIn extChar (b ++ String "." ext) = false.
Proof.
  induction b as [|a b IH]; [reflexivity|].
  cbn [String.append allIn]. rewrite IH. apply andb_false_r.
Qed.

Lemma matchToEnd_ext (prev : option ascii) (s : string) :
  Regex.matchToEnd (Regex.Seq (Regex.lit ".") (Regex.Plus (Regex.Chr extChar))) prev s
  = match s with
    | String x (String a t) =>
        if Ascii.eqb "." x && extChar a && allIn extChar t then Some EmptyString else None
    | _ => None
    end.
Proof.
  unfold Regex.matchToEnd.
  change (fun (_ : option ascii) (rest : string) =>
            match rest with EmptyString => Some rest | String _ _ => None end) with toEnd.
  cbn [Regex.lit]. rewrite !run_seq, run_chr.
  destruct s as [|c s]; [reflexivity|].
  destruct (Ascii.eqb "." c); [|destruct s; reflexivity].
  change (Regex.run Regex.Eps (Some c) s
            (fun pv s' => Regex.run (Regex.Plus (Regex.Chr extChar)) pv s' toEnd))
    with (Regex.run (Regex.Plus (Regex.Chr extChar)) (Some c) s toEnd).
  rewrite run_plus_chr. destruct s as [|a t]; [reflexivity|].
  cbn [andb]. destruct (extChar a); [|reflexivity].
  rewrite starChr_toEnd. reflexivity.
Qed.

Lemma replaceEnd_ext (base ext : string) (prev : option ascii) :
  ext <> EmptyString -> allIn extChar ext = true ->
  Regex.replaceEndFrom (Regex.Seq (Regex.lit ".") (Regex.Plus (Regex.Chr extChar)))
    EmptyString prev (base ++ String "." ext) = base.
Proof.
  intros Hne Hall. revert prev. induction base as [|c b IH]; intros prev.
  - cbn [String.append]. destruct ext as [|a t]; [contradiction|].
    cbn [Regex.replaceEndFrom]. rewrite matchToEnd_ext.
    cbn [allIn] in Hall. rewrite Ascii.eqb_refl. cbn [andb]. rewrite Hall. reflexivity.
  - cbn [String.append Regex.replaceEndFrom]. rewrite matchToEnd_ext.
    assert (Hn : match b ++ String "." ext with
                 | String a t => Ascii.eqb "." c && extChar a && allIn extChar t
                 | EmptyString => false
                 end = false).
    { pose proof (allIn_dotted b ext) as Hd.
      destruct (b ++ String "." ext) as [|a t]; [reflexivity|].
      cbn [allIn] in Hd. rewrite <- andb_assoc, Hd. apply andb_false_r. }
    destruct (b ++ String "." ext) as [|a t] eqn:E.
    + destruct b; discriminate.
    + rewrite Hn, IH. reflexivity.
Qed.

Lemma replaceEnd_plain (n : string) (prev : option ascii) :
  hasChar "." n = false ->
  Regex.replaceEndFrom (Regex.Seq (Regex.lit ".") (Regex.Plus (Regex.Chr extChar)))
    EmptyString prev n = n.
Proof.
  revert prev. induction n as [|c n IH]; intros prev Hn.
  - reflexivity.
  - cbn [hasChar] in Hn. apply orb_false_iff in Hn. destruct Hn as [Hc Hn].
    cbn [Regex.replaceEndFrom]. rewrite matchToEnd_ext, Ascii.eqb_sym, Hc.
    cbn [andb]. rewrite (IH (Some c) Hn). destruct n; reflexivity.
Qed.

Lemma split_nonempty (c : ascii) (s : string) : split c s <> [].
Proof.
  destruct s as [|a s]; cbn [split]; [discriminate|].
  destruct (Ascii.eqb a c); [discriminate|]. destruct (split c s); discriminate.
Qed.

Lemma pop_cons (x : string) (l : list string) : l <> [] -> pop (x :: l) = pop l.
Proof. destruct l; [contradiction | reflexivity]. Qed.

Lemma pop_split_last (c : ascii) (a n : string) :
  hasChar c n = false -> pop (split c (a ++ String c n)) = Some n.
Proof.
  intros Hn.
  assert (Hplain : forall m, hasChar c m = false -> split c m = [m]).
  { induction m as [|x m IH]; [reflexivity|]. cbn [hasChar split].
    intros H. apply orb_false_iff in H. destruct H as [Hx Hm].
    rewrite Hx, (IH Hm). reflexivity. }
  induction a as [|x a IH].
  - cbn [String.append split]. rewrite Ascii.eqb_refl, (Hplain n Hn). reflexivity.
  - cbn [String.append split]. destruct (Ascii.eqb x c).
    + rewrite pop_cons; [exact IH | apply split_nonempty].
    + destruct (split c (a ++ String c n)) as [|h t] eqn:E;
        [exfalso; exact (split_nonempty _ _ E)|].
      destruct t as [|h' t]; [|exact IH].
      exfalso. cbn [pop] in IH. injection IH as ->.
      assert (Hin : hasChar c (a ++ String c n) = true).
      { rewrite hasChar_append. cbn [hasChar]. rewrite Ascii.eqb_refl.
        apply orb_true_r. }
      assert (Hc : forall m e, split c m = [e] -> hasChar c m = false).
      { induction m as [|y m IHm]; intros e; [reflexivity|]. cbn [split hasChar].
        destruct (Ascii.eqb y c).
        - intros H. injection H as _ H. exfalso. exact (split_nonempty _ _ H).
        - destruct (split c m) as [|h1 t1] eqn:Em; [intros _; exfalso;
            exact (split_nonempty _ _ Em)|].
          intros H. injection H as _ ->. cbn [orb]. exact (IHm h1 eq_refl). }
      rewrite (Hc _ _ E) in Hin. discriminate.
Qed.

Lemma includes_dot (a n : string) : includes "." (a ++ String "." n) = true.
Proof.
  induction a as [|x a IH].
  - cbn [String.append]. destruct n; cbn; reflexivity.
  - cbn [String.append includes]. rewrite IH. apply orb_true_r.
Qed.

Lemma includes_no_dot (n : string) : hasChar "." n = false -> includes "." n = false.
Proof.
  induction n as [|x n IH]; [reflexivity|]. cbn [hasChar includes].
  intros H. apply orb_false_iff in H. destruct H as [Hx Hn].
  rewrite (IH Hn). cbn [String.prefix]. rewrite Ascii.eqb_sym in Hx.
  destruct (Ascii.ascii_dec "."%char x) as [e|e].
  - subst x. rewrite Ascii.eqb_refl in Hx. discriminate.
  - reflexivity.
Qed.

(** X29.  The name that a duplicate gets: [_copy] goes before the last
    extension, when the name ends in a dot and an extension that is not
    empty and has no dot and no slash, and at the end of a name without
    a dot. *)
Theorem copyName_spec :
  (forall base ext,
     ext <> EmptyString -> allIn extChar ext = true ->
     Explorer.copyName (base ++ String "." ext) = base ++ "_copy." ++ ext) /\
  (forall n, hasChar "." n = false -> Explorer.copyName n = n ++ "_copy").
Proof.
  split.
  - intros base ext Hne Hall. unfold Explorer.copyName, Regex.replaceEnd.
    change (fun a => negb (Ascii.eqb a "/"%char || Ascii.eqb a "."%char)) with extChar.
    rewrite (replaceEnd_ext base ext None Hne Hall), includes_dot.
    rewrite pop_split_last; [reflexivity|].
    clear Hne. induction ext as [|a ext IH]; [reflexivity|].
    cbn [allIn] in Hall. apply andb_true_iff in Hall. destruct Hall as [Ha Hall].
    cbn [hasChar]. rewrite (IH Hall), orb_false_r.
    unfold extChar in Ha. apply negb_true_iff, orb_false_iff in Ha. exact (proj2 Ha).
  - intros n Hn. unfold Explorer.copyName, Regex.replaceEnd.
    change (fun a => negb (Ascii.eqb a "/"%char || Ascii.eqb a "."%char)) with extChar.
    rewrite (replaceEnd_plain n None Hn), (includes_no_dot n Hn), append_empty.
    reflexivity.
Qed.

(** X30.  Duplicating a file of a well-formed workspace from the context
    menu: the menu is closed; when no child of the file's folder bears
    the name of the copy, a file of that name is created beside it, with
    the language and the content of the original, and saved, and the
    duplication is reported; when a child bears that name already, the
    workspace is left as it was and the message of the error is shown. *)
Theorem duplicate_copies (p : Explorer.Panel) (f : VFile) (confirm : string -> bool)
    (newId : string) :
  let s := Explorer.service (Explorer.core p) in
  wellFormed (root (workspace s)) = true ->
  findItemByPath (file_path f) (root (workspace s)) = Some (inl f) ->
  let copy := Explorer.copyName (file_name f) in
  let folderPath := parentPathOf (file_path f) in
  let taken :=
    existsb (fun child => String.eqb (node_name child) copy) (list_children folderPath s) in
  let p' := Explorer.handleContextAction Explorer.actDuplicate (inl f) confirm newId p in
  Explorer.contextMenu p' = None /\
  In (inl f) (list_children folderPath s) /\
  (taken = false ->
     readFile (joinPath folderPath copy) (Explorer.service (Explorer.core p'))
     = Some (mkVFile newId copy (joinPath folderPath copy) (language f) (content f) true) /\
     Explorer.toasts (Explorer.core p')
     = (Explorer.toasts (Explorer.core p)
        ++ [Explorer.ToastSuccess ("Duplicated " ++ file_name f)])%list) /\
  (taken = true ->
     Explorer.service (Explorer.core p') = s /\
     Explorer.toasts (Explorer.core p')
     = (Explorer.toasts (Explorer.core p)
        ++ [Explorer.ToastError
              ("File " ++ dq ++ copy ++ dq ++ " already exists in this folder")])%list).
Proof.
  intros s Hw Hf copy folderPath taken p'.
  destruct (wellFormed_node _ _ _ Hw Hf) as (parent & Hpf & Hin & Hsp & Hj & Hk);
    [discriminate|].
  cbn [node_name] in Hj, Hk.
  assert (Hp : findItemByPath folderPath (root (workspace s)) = Some (inr parent)).
  { unfold findParentFolder in Hpf. fold folderPath in Hpf.
    destruct (findItemByPath folderPath (root (workspace s))) as [[g|d]|];
      try discriminate. injection Hpf as ->. reflexivity. }
  assert (Hl : list_children folderPath s = children parent).
  { unfold list_children. rewrite Hp. reflexivity. }
  assert (Ht : taken = hasChildNamed copy parent).
  { unfold taken. rewrite Hl. reflexivity. }
  unfold p', Explorer.handleContextAction.
  cbn [Explorer.setContextMenu Explorer.core Explorer.service Explorer.toasts].
  fold s copy folderPath.
  split; [|split; [rewrite Hl; exact Hin|split]].
  - destruct (createFile folderPath copy (Some (language f)) newId s) as [[[g|]|m] s1];
      reflexivity.
  - intros Hfree. rewrite Ht in Hfree.
    destruct (createFile_ok folderPath copy (Some (language f)) newId s parent Hp Hfree)
      as (s1 & Hcreate & _ & Hr & _).
    cbn zeta in Hcreate, Hr.
    set (g := mkVFile newId copy (joinPath folderPath copy) (language f)
                (DEFAULT_CODE (language f)) false) in *.
    pose proof (findItemByPath_path _ _ _ Hp) as Hpp. cbn [node_path] in Hpp.
    destruct (pushed_found _ _ parent (inl g) Hw Hr) as (_ & _ & Hfind & _).
    { unfold childOk. cbn [node_path node_name file_path file_name below g].
      rewrite Hpp, joinPath_sep. split; [reflexivity|]. split; [|reflexivity].
      apply nameOk_copyName. exact Hk. }
    { exact Hfree. }
    cbn [node_path g file_path] in Hfind. fold g in Hfind.
    assert (Hread : readFile (joinPath folderPath copy) s1 = Some g).
    { unfold readFile. rewrite Hfind. reflexivity. }
    rewrite Hcreate.
    cbn [Explorer.withCore Explorer.toast Explorer.setService Explorer.core
         Explorer.service Explorer.toasts g file_path].
    split; [|reflexivity].
    unfold writeFile. rewrite Hread. cbn [snd].
    exact (readFile_after_mutate _ (setContent (content f)) s1 g Hread eq_refl).
  - intros Htaken. rewrite Ht in Htaken.
    rewrite (createFile_collision _ _ _ _ _ _ Hp Htaken).
    cbn [Explorer.withCore Explorer.toast Explorer.setService Explorer.core
         Explorer.service Explorer.toasts].
    split; reflexivity.
Qed.

Lemma duplicate_copies_witness :
  let f := mkVFile "i3" "main.py" "/src/main.py" python (DEFAULT_CODE python) true in
  let p := Explorer.mkPanel (Explorer.mkState None freshService [] []) ["/"]
             (Some (10%Z, 20%Z, inl f)) None "/" None in
  let copy := Explorer.copyName (file_name f) in
  let folderPath := parentPathOf (file_path f) in
  let taken :=
    existsb (fun child => String.eqb (node_name child) copy)
      (list_children folderPath freshService) in
  let p' := Explorer.handleContextAction Explorer.actDuplicate (inl f)
              (fun _ => true) "i9" p in
  copy = "main_copy.py" /\
  Explorer.contextMenu p' = None /\
  In (inl f) (list_children folderPath freshService) /\
  (taken = false ->
     readFile (joinPath folderPath copy) (Explorer.service (Explorer.core p'))
     = Some (mkVFile "i9" copy (joinPath folderPath copy) (language f) (content f) true) /\
     Explorer.toasts (Explorer.core p')
     = (Explorer.toasts (Explorer.core p)
        ++ [Explorer.ToastSuccess ("Duplicated " ++ file_name f)])%list) /\
  (taken = true ->
     Explorer.service (Explorer.core p') = freshService /\
     Explorer.toasts (Explorer.core p')
     = (Explorer.toasts (Explorer.core p)
        ++ [Explorer.ToastError
              ("File " ++ dq ++ copy ++ dq ++ " already exists in this folder")])%list).
Proof.
  split; [reflexivity|].
  apply (duplicate_copies
           (Explorer.mkPanel (Explorer.mkState None freshService [] []) ["/"]
              (Some (10%Z, 20%Z,
                     inl (mkVFile "i3" "main.py" "/src/main.py" python
                            (DEFAULT_CODE python) true)))
              None "/" None)
           (mkVFile "i3" "main.py" "/src/main.py" python (DEFAULT_CODE python) true)
           (fun _ => true) "i9");
    reflexivity.
Defined.
